(** * Data-access and cache-aside layer of the production API framework

    A shallow embedding of the TypeScript sources
      - [services/cache.service.ts]        (CacheService, CacheTTL, CachePrefix)
      - [core/cache/redis.config.ts]       (getRedisClient, retryStrategy)
      - [core/database/base.repository.ts] (BaseRepository)
      - [repositories/task.repository.ts], [repositories/user.repository.ts]
      - [services/task.service.ts], [services/user.service.ts]
      - [middlewares/errorHandler.ts]      (errorHandler)
      - [models/task.entity.ts], [models/user.entity.ts]
      - [controllers/task.controller.ts], [controllers/user.controller.ts]
                                           (the lookups by id)
      - [core/database/data-source.ts]     (initializeDatabase)
    and the properties of the cache invalidation policy, pagination and the
    soft-delete life cycle that are stated about them, followed by further
    properties of the same code: round trips, edge cases and invariants.

    Conventions of the embedding.
      - An [async] function is a computation in the monad [M S], a state
        transformer that either returns a value or throws a JavaScript
        error; [await] is sequencing.  A throw keeps the effects performed
        before it, as in JavaScript.
      - The Redis server and the PostgreSQL table behind TypeORM are explicit
        states.  Each carries a schedule of faults: every command sent to the
        backend consumes one entry of the schedule and is rejected when the
        entry holds an error.  An empty schedule is a healthy backend.
      - JavaScript numbers that the program uses as integers are [Z].
      - [console.*] logging has no effect on any of the properties and is
        left out. *)

From Stdlib Require Import ZArith String Ascii List Bool Lia DecimalString.
From Stdlib Require DecimalPos DecimalZ.
From stdpp Require Import base option list gmap strings fin_maps.

Set Warnings "-register-all".
Local Open Scope string_scope.
Local Open Scope Z_scope.

(** ** JavaScript errors, results and the effect monad *)

(** The fields of an [Error] object the program looks at.  [statusCode] is
    the optional field of [ApiError]. *)
Record JsError : Type := mkJsError {
  name : string;
  message : string;
  statusCode : option Z
}.

(** [new Error(msg)] *)
Definition Error (msg : string) : JsError :=
  {| name := "Error"; message := msg; statusCode := None |}.

Inductive Result (A : Type) : Type :=
| Ok (a : A)
| Throw (e : JsError).
Arguments Ok {A} a.
Arguments Throw {A} e.

Definition M (S A : Type) : Type := S -> Result A * S.

Definition ret {S A : Type} (a : A) : M S A := fun s => (Ok a, s).

Definition throw {S A : Type} (e : JsError) : M S A := fun s => (Throw e, s).

Definition bind {S A B : Type} (m : M S A) (k : A -> M S B) : M S B :=
  fun s =>
    match m s with
    | (Ok a, s') => k a s'
    | (Throw e, s') => (Throw e, s')
    end.

(** [try { body } catch (error) { handler }] *)
Definition try_catch {S A : Type} (body : M S A) (handler : JsError -> M S A) : M S A :=
  fun s =>
    match body s with
    | (Ok a, s') => (Ok a, s')
    | (Throw e, s') => handler e s'
    end.

Declare Scope js_scope.
Delimit Scope js_scope with js.
Notation "x <- m ;; k" := (bind m (fun x => k))
  (at level 100, m at next level, right associativity) : js_scope.
Notation "m ;;; k" := (bind m (fun _ => k))
  (at level 100, right associativity) : js_scope.
Local Open Scope js_scope.

(** Running a computation of a component on the part of a larger state. *)
Definition onFst {S1 S2 A : Type} (m : M S1 A) : M (S1 * S2) A :=
  fun w => let '(r, s1) := m (fst w) in (r, (s1, snd w)).

Definition onSnd {S1 S2 A : Type} (m : M S2 A) : M (S1 * S2) A :=
  fun w => let '(r, s2) := m (snd w) in (r, (fst w, s2)).

(** ** JavaScript values that travel through the cache *)

Inductive JsValue : Type :=
| JNull
| JBool (b : bool)
| JNum (n : Z)
| JStr (s : string)
| JArr (items : list JsValue)
| JObj (props : list (string * JsValue)).

(** [v !== null] *)
Definition notNull (v : JsValue) : bool :=
  match v with JNull => false | _ => true end.

(** Truthiness of a string: only the empty string is falsy. *)
Definition truthy (s : string) : bool := negb (String.eqb s EmptyString).

(** [x || d] on a number that may be [undefined]: [undefined] and [0] are
    falsy. *)
Definition orDefault (x : option Z) (d : Z) : Z :=
  match x with
  | Some v => if v =? 0 then d else v
  | None => d
  end.

(** ** The Redis backend (ioredis client and server) *)

Record RedisEntry : Type := mkEntry {
  value : string;
  expire : option Z   (* remaining time to live in seconds, if any *)
}.

Record Redis : Type := mkRedis {
  initialized : bool;                 (* [redisClient !== null] *)
  entries : gmap string RedisEntry;
  faults : list (option JsError)      (* one entry per command sent *)
}.

Definition withEntries (d : gmap string RedisEntry) (r : Redis) : Redis :=
  {| initialized := initialized r; entries := d; faults := faults r |}.

(** Sending one command: the head of the fault schedule decides whether the
    backend rejects it. *)
Definition command {A : Type} (run : Redis -> Result A * Redis) : M Redis A :=
  fun r =>
    match faults r with
    | Some e :: rest =>
        (Throw e, {| initialized := initialized r; entries := entries r; faults := rest |})
    | None :: rest =>
        run {| initialized := initialized r; entries := entries r; faults := rest |}
    | [] => run r
    end.

(** Glob matching of the KEYS command: [*], [?] and backslash escapes.
    Bracket classes are not modelled; the keys of this program are built
    from fixed prefixes and UUIDs and contain none. *)
Fixpoint glob (p : list ascii) : list ascii -> bool :=
  match p with
  | [] => fun s => match s with [] => true | _ => false end
  | c :: p' =>
      if Ascii.eqb c "*" then
        (fix star (s : list ascii) : bool :=
           glob p' s || match s with [] => false | _ :: s' => star s' end)
      else if Ascii.eqb c "?" then
        fun s => match s with [] => false | _ :: s' => glob p' s' end
      else if Ascii.eqb c "\" then
        match p' with
        | [] => fun s => match s with [d] => Ascii.eqb d "\" | _ => false end
        | e :: p'' =>
            fun s => match s with
                     | [] => false
                     | d :: s' => Ascii.eqb e d && glob p'' s'
                     end
        end
      else
        fun s => match s with
                 | [] => false
                 | d :: s' => Ascii.eqb c d && glob p' s'
                 end
  end.

Definition matches (pattern key : string) : bool :=
  glob (list_ascii_of_string pattern) (list_ascii_of_string key).

(** Decimal integers as Redis stores them. *)
Definition parseInt64 (s : string) : option Z :=
  match NilEmpty.int_of_string s with
  | Some d =>
      let z := Z.of_int d in
      if (- 2 ^ 63 <=? z) && (z <? 2 ^ 63) then Some z else None
  | None => None
  end.

Definition printInt (z : Z) : string := NilZero.string_of_int (Z.to_int z).

Definition ReplyError (msg : string) : JsError :=
  {| name := "ReplyError"; message := msg; statusCode := None |}.

Module RedisClient.

(** GET key *)
Definition get (key : string) : M Redis (option string) :=
  command (fun r => (Ok (value <$> entries r !! key), r)).

(** SETEX key seconds value *)
Definition setex (key : string) (seconds : Z) (v : string) : M Redis unit :=
  command (fun r =>
    if seconds <=? 0 then
      (Throw (ReplyError "ERR invalid expire time in 'setex' command"), r)
    else
      (Ok tt, withEntries (<[key := mkEntry v (Some seconds)]> (entries r)) r)).

(** DEL key [key ...]: the number of keys that were removed. *)
Fixpoint delKeys (keys : list string) (d : gmap string RedisEntry)
  : Z * gmap string RedisEntry :=
  match keys with
  | [] => (0, d)
  | k :: rest =>
      match d !! k with
      | Some _ => let '(n, d') := delKeys rest (delete k d) in (1 + n, d')
      | None => delKeys rest d
      end
  end.

Definition del (keys : list string) : M Redis Z :=
  command (fun r =>
    let '(n, d) := delKeys keys (entries r) in (Ok n, withEntries d r)).

(** KEYS pattern *)
Definition keys (pattern : string) : M Redis (list string) :=
  command (fun r =>
    (Ok (filter (fun k => matches pattern k = true) (map fst (map_to_list (entries r)))), r)).

(** EXISTS key *)
Definition exists_ (key : string) : M Redis Z :=
  command (fun r => (Ok (if entries r !! key is Some _ then 1 else 0), r)).

(** TTL key: -2 for a missing key, -1 for a key without expiry. *)
Definition ttl (key : string) : M Redis Z :=
  command (fun r =>
    (Ok match entries r !! key with
        | None => -2
        | Some e => match expire e with Some t => t | None => -1 end
        end, r)).

(** INCRBY key increment; DECRBY is INCRBY of the opposite.  The reply is
    the integer the server computed.  The client hands it over as a
    JavaScript number, which is that integer as long as it is a safe
    integer (at most 2^53 - 1 in absolute value); what is said about the
    value of a counter is said within that range. *)
Definition incrby (key : string) (amount : Z) : M Redis Z :=
  command (fun r =>
    let old :=
      match entries r !! key with
      | None => Some (0, None)
      | Some e => match parseInt64 (value e) with
                  | Some n => Some (n, expire e)
                  | None => None
                  end
      end in
    match old with
    | None => (Throw (ReplyError "ERR value is not an integer or out of range"), r)
    | Some (n, ex) =>
        let n' := n + amount in
        if (- 2 ^ 63 <=? n') && (n' <? 2 ^ 63) then
          (Ok n', withEntries (<[key := mkEntry (printInt n') ex]> (entries r)) r)
        else
          (Throw (ReplyError "ERR increment or decrement would overflow"), r)
    end).

Definition decrby (key : string) (amount : Z) : M Redis Z :=
  incrby key (- amount).

(** FLUSHDB *)
Definition flushdb : M Redis unit :=
  command (fun r => (Ok tt, withEntries ∅ r)).

End RedisClient.

(** [getRedisClient] of [redis.config.ts] *)
Definition getRedisClient : M Redis unit :=
  fun r =>
    if initialized r then (Ok tt, r)
    else (Throw (Error "Redis client not initialized. Call initializeRedis() first."), r).

(** ** cache.service.ts *)

Module CacheTTL.
Definition SHORT : Z := 60.
Definition MEDIUM : Z := 300.
Definition LONG : Z := 900.
Definition HOUR : Z := 3600.
Definition DAY : Z := 86400.
(** [config.redis.ttl || 3600] *)
Definition DEFAULT (config_redis_ttl : option Z) : Z := orDefault config_redis_ttl 3600.
End CacheTTL.

Module CachePrefix.
Definition USER : string := "user:".
Definition TASK : string := "task:".
Definition USER_TASKS : string := "user_tasks:".
Definition TASK_STATS : string := "task_stats:".
Definition SESSION : string := "session:".
End CachePrefix.

(** The JavaScript runtime and the process configuration the service reads. *)
Record Runtime : Type := mkRuntime {
  JSON_parse : string -> option JsValue;   (* [None]: SyntaxError *)
  JSON_stringify : JsValue -> string;
  config_redis_ttl : option Z;
  config_node_env : string
}.

Module CacheService.
Section WithRuntime.
Context (rt : Runtime).

Definition ttlOrDefault (ttl : option Z) : Z :=
  match ttl with
  | Some t => t
  | None => CacheTTL.DEFAULT (config_redis_ttl rt)
  end.

Definition get (key : string) : M Redis JsValue :=
  try_catch
    (getRedisClient ;;;
     value <- RedisClient.get key ;;
     match value with
     | None => ret JNull
     | Some value =>
         if negb (truthy value) then ret JNull
         else match JSON_parse rt value with
              | Some parsed => ret parsed
              | None => ret (JStr value)
              end
     end)
    (fun error => ret JNull).

Definition set (key : string) (v : JsValue) (ttl : option Z) : M Redis bool :=
  try_catch
    (getRedisClient ;;;
     let serialized := match v with JStr s => s | _ => JSON_stringify rt v end in
     RedisClient.setex key (ttlOrDefault ttl) serialized ;;;
     ret true)
    (fun error => ret false).

Definition del (key : string) : M Redis bool :=
  try_catch
    (getRedisClient ;;;
     result <- RedisClient.del [key] ;;
     ret (0 <? result))
    (fun error => ret false).

Definition delPattern (pattern : string) : M Redis Z :=
  try_catch
    (getRedisClient ;;;
     keys <- RedisClient.keys pattern ;;
     if (length keys =? 0)%nat then ret 0
     else
       result <- RedisClient.del keys ;;
       ret result)
    (fun error => ret 0).

Definition exists_ (key : string) : M Redis bool :=
  try_catch
    (getRedisClient ;;;
     result <- RedisClient.exists_ key ;;
     ret (result =? 1))
    (fun error => ret false).

Definition ttl (key : string) : M Redis Z :=
  try_catch
    (getRedisClient ;;; RedisClient.ttl key)
    (fun error => ret (-1)).

Definition increment (key : string) (amount : option Z) : M Redis Z :=
  try_catch
    (getRedisClient ;;; RedisClient.incrby key (default 1 amount))
    (fun error => throw error).

Definition decrement (key : string) (amount : option Z) : M Redis Z :=
  try_catch
    (getRedisClient ;;; RedisClient.decrby key (default 1 amount))
    (fun error => throw error).

Definition flush : M Redis bool :=
  try_catch
    (if String.eqb (config_node_env rt) "production" then ret false
     else
       getRedisClient ;;;
       RedisClient.flushdb ;;;
       ret true)
    (fun error => ret false).

(** Cache-aside.  The callback runs on its own state [S]. *)
Definition getOrSet {S : Type} (key : string) (callback : M S JsValue)
    (ttl : option Z) : M (Redis * S) JsValue :=
  try_catch
    (cached <- onFst (get key) ;;
     if notNull cached then ret cached
     else
       result <- onSnd callback ;;
       onFst (set key result ttl) ;;;
       ret result)
    (fun error => onSnd callback).

Definition invalidateUserCache (userId : string) : M Redis unit :=
  try_catch
    (del (CachePrefix.USER +:+ userId) ;;;
     delPattern (CachePrefix.USER_TASKS +:+ userId +:+ ":*") ;;;
     del (CachePrefix.TASK_STATS +:+ userId) ;;;
     ret tt)
    (fun error => ret tt).

Definition invalidateTaskCache (taskId : string) : M Redis unit :=
  try_catch
    (del (CachePrefix.TASK +:+ taskId) ;;; ret tt)
    (fun error => ret tt).

End WithRuntime.
End CacheService.

(** ** The durable store: one PostgreSQL table behind a TypeORM repository *)

Module Entity.
(** The base shape of a record: the columns every entity has, and the
    entity's own columns in [fields]. *)
Record t (A : Type) : Type := mk {
  id : string;
  fields : A;
  createdAt : Z;
  updatedAt : Z;
  deletedAt : option Z
}.
Arguments mk {A} _ _ _ _ _.
Arguments id {A} _.
Arguments fields {A} _.
Arguments createdAt {A} _.
Arguments updatedAt {A} _.
Arguments deletedAt {A} _.
End Entity.

(** What the entity class and its decorators give the repository. *)
Class EntityMetadata (A : Type) : Type := {
  Partial : Type;                       (* [DeepPartial<T>] of the columns *)
  merge : A -> Partial -> A;            (* [repository.merge] *)
  beforeSave : A -> A;                  (* [@BeforeInsert] / [@BeforeUpdate] *)
  violation : list (Entity.t A) -> Entity.t A -> option string
                                        (* the constraint a row would break *)
}.

Record Table (A : Type) : Type := mkTable {
  rows : list (Entity.t A);
  clock : Z;                            (* CURRENT_TIMESTAMP *)
  uuid_generate_v4 : nat -> string;     (* the ids the table will hand out *)
  inserted : nat;
  queryFaults : list (option JsError)   (* one entry per statement sent *)
}.
Arguments mkTable {A} _ _ _ _ _.
Arguments rows {A} _.
Arguments clock {A} _.
Arguments uuid_generate_v4 {A} _.
Arguments inserted {A} _.
Arguments queryFaults {A} _.

Definition QueryFailedError (msg : string) : JsError :=
  {| name := "QueryFailedError"; message := msg; statusCode := None |}.

Definition FindOptionsWhere (A : Type) : Type := Entity.t A -> bool.
(** An order is the "comes no later than" test of the requested sort. *)
Definition FindOptionsOrder (A : Type) : Type := Entity.t A -> Entity.t A -> bool.

Module Repository.
Section WithEntity.
Context {A : Type} `{EntityMetadata A}.

Definition withRows (rs : list (Entity.t A)) (t : Table A) : Table A :=
  {| rows := rs; clock := clock t; uuid_generate_v4 := uuid_generate_v4 t;
     inserted := inserted t; queryFaults := queryFaults t |}.

(** Sending one statement.  Time passes with every statement. *)
Definition tick (faults : list (option JsError)) (t : Table A) : Table A :=
  {| rows := rows t; clock := clock t + 1; uuid_generate_v4 := uuid_generate_v4 t;
     inserted := inserted t; queryFaults := faults |}.

Definition statement {B : Type} (run : Table A -> Result B * Table A) : M (Table A) B :=
  fun t =>
    match queryFaults t with
    | Some e :: rest => (Throw e, tick rest t)
    | None :: rest => let '(r, t') := run t in (r, tick rest t')
    | [] => let '(r, t') := run t in (r, tick [] t')
    end.

(** [new Date()] *)
Definition currentDate : M (Table A) Z := fun t => (Ok (clock t), t).

(** A row is live when its delete date is NULL. *)
Definition live (e : Entity.t A) : bool :=
  match Entity.deletedAt e with None => true | Some _ => false end.

Definition whereOrAll (w : option (FindOptionsWhere A)) : FindOptionsWhere A :=
  match w with Some p => p | None => fun _ => true end.

(** SELECT adds "deleted_at IS NULL" for an entity with a delete-date
    column. *)
Definition selected (w : option (FindOptionsWhere A)) (t : Table A) : list (Entity.t A) :=
  List.filter (fun e => live e && whereOrAll w e) (rows t).

Fixpoint insertSorted (le : FindOptionsOrder A) (e : Entity.t A)
    (l : list (Entity.t A)) : list (Entity.t A) :=
  match l with
  | [] => [e]
  | x :: l' => if le e x then e :: x :: l' else x :: insertSorted le e l'
  end.

Definition ordered (o : option (FindOptionsOrder A)) (l : list (Entity.t A))
  : list (Entity.t A) :=
  match o with
  | Some le => fold_right (insertSorted le) [] l
  | None => l
  end.

Definition findOne (w : option (FindOptionsWhere A)) : M (Table A) (option (Entity.t A)) :=
  statement (fun t => (Ok (head (selected w t)), t)).

Definition find (w : option (FindOptionsWhere A)) : M (Table A) (list (Entity.t A)) :=
  statement (fun t => (Ok (selected w t), t)).

Definition count (w : option (FindOptionsWhere A)) : M (Table A) Z :=
  statement (fun t => (Ok (Z.of_nat (length (selected w t))), t)).

(** SELECT ... ORDER BY ... OFFSET skip LIMIT take, together with the
    count of all matching rows.  PostgreSQL rejects a negative OFFSET or
    LIMIT. *)
Definition findAndCount (w : option (FindOptionsWhere A))
    (o : option (FindOptionsOrder A)) (skip take : Z)
  : M (Table A) (list (Entity.t A) * Z) :=
  statement (fun t =>
    if skip <? 0 then (Throw (QueryFailedError "OFFSET must not be negative"), t)
    else if take <? 0 then (Throw (QueryFailedError "LIMIT must not be negative"), t)
    else
      let all := ordered o (selected w t) in
      (Ok (firstn (Z.to_nat take) (skipn (Z.to_nat skip) all),
           Z.of_nat (length all)), t)).

Definition hasId (i : string) (e : Entity.t A) : bool := String.eqb (Entity.id e) i.

(** [repository.save(repository.create(data))]: INSERT with a generated
    id and both timestamps set to now. *)
Definition insert (data : A) : M (Table A) (Entity.t A) :=
  statement (fun t =>
    let e := Entity.mk (uuid_generate_v4 t (inserted t)) (beforeSave data)
                       (clock t) (clock t) None in
    let t' := {| rows := rows t; clock := clock t;
                 uuid_generate_v4 := uuid_generate_v4 t;
                 inserted := S (inserted t); queryFaults := queryFaults t |} in
    if existsb (hasId (Entity.id e)) (rows t) then
      (Throw (QueryFailedError "duplicate key value violates unique constraint"), t')
    else
      match violation (rows t) e with
      | Some c => (Throw (QueryFailedError ("duplicate key value violates unique constraint " +:+ c)), t')
      | None => (Ok e, withRows (rows t ++ [e]) t')
      end).

(** [repository.save(entity)] of a loaded entity: UPDATE of its row, with
    the update date refreshed.  TypeORM sends the UPDATE only when a column
    of the entity differs from the stored row; this is the save of an
    entity that differs, and what is said about the update date is said of
    such saves only. *)
Definition save (e : Entity.t A) : M (Table A) (Entity.t A) :=
  statement (fun t =>
    let e' := Entity.mk (Entity.id e) (beforeSave (Entity.fields e))
                        (Entity.createdAt e) (clock t) (Entity.deletedAt e) in
    let others := List.filter (fun x => negb (hasId (Entity.id e) x)) (rows t) in
    match violation others e' with
    | Some c => (Throw (QueryFailedError ("duplicate key value violates unique constraint " +:+ c)), t)
    | None =>
        (Ok e', withRows (map (fun x => if hasId (Entity.id e) x then e' else x) (rows t)) t)
    end).

Definition affectedBy (i : string) (t : Table A) : Z :=
  Z.of_nat (length (List.filter (hasId i) (rows t))).

(** [softDelete], [restore] and [delete] refuse an empty criteria before
    any statement is sent. *)
Definition emptyCriteria {B : Type} : M (Table A) B :=
throw {| name := "TypeORMError";
         message := "Empty criteria(s) are not allowed for the delete method.";
         statusCode := None |}.

(** UPDATE t SET deleted_at = CURRENT_TIMESTAMP, updated_at =
    CURRENT_TIMESTAMP WHERE id IN (i).  The statement carries no condition
    on deleted_at. *)
Definition softDelete (i : string) : M (Table A) Z :=
if truthy i then
  statement (fun t =>
    (Ok (affectedBy i t),
     withRows (map (fun x =>
                 if hasId i x then
                   Entity.mk (Entity.id x) (Entity.fields x) (Entity.createdAt x)
                             (clock t) (Some (clock t))
                 else x) (rows t)) t))
else emptyCriteria.

(** UPDATE t SET deleted_at = NULL, updated_at = CURRENT_TIMESTAMP WHERE
    id IN (i).  The statement carries no condition on deleted_at. *)
Definition restore (i : string) : M (Table A) Z :=
if truthy i then
  statement (fun t =>
    (Ok (affectedBy i t),
     withRows (map (fun x =>
                 if hasId i x then
                   Entity.mk (Entity.id x) (Entity.fields x) (Entity.createdAt x)
                             (clock t) None
                 else x) (rows t)) t))
else emptyCriteria.

(** DELETE FROM t WHERE id IN (i) *)
Definition delete (i : string) : M (Table A) Z :=
if truthy i then
  statement (fun t =>
    (Ok (affectedBy i t),
     withRows (List.filter (fun x => negb (hasId i x)) (rows t)) t))
else emptyCriteria.

End WithEntity.
End Repository.

(** ** base.repository.ts *)

Record PaginationOptions (A : Type) : Type := mkOptions {
  page : option Z;
  limit : option Z;
  where_ : option (FindOptionsWhere A);
  order : option (FindOptionsOrder A);
  relations : option (list string)
}.
Arguments mkOptions {A} _ _ _ _ _.
Arguments page {A} _.
Arguments limit {A} _.
Arguments where_ {A} _.
Arguments order {A} _.
Arguments relations {A} _.

(** [{}] *)
Definition noOptions {A : Type} : PaginationOptions A := mkOptions None None None None None.

Module Pagination.
Record t : Type := mk {
  page : Z;
  limit : Z;
  total : Z;
  totalPages : Z;
  hasNext : bool;
  hasPrevious : bool
}.
End Pagination.

Record PaginatedResult (A : Type) : Type := mkResult {
  data : list (Entity.t A);
  pagination : Pagination.t
}.
Arguments mkResult {A} _ _.
Arguments data {A} _.
Arguments pagination {A} _.

(** [Math.ceil(total / limit)] for integers and a non-zero [limit]. *)
Definition ceilDiv (total limit : Z) : Z := - ((- total) / limit).

(** [throw new Error(`<prefix>: ${error.message}`)] *)
Definition rethrow {S A : Type} (prefix : string) (error : JsError) : M S A :=
  throw (Error (prefix +:+ ": " +:+ message error)).

Module BaseRepository.
Section WithEntity.
Context {A : Type} `{EntityMetadata A}.

Definition findById (id : string) : M (Table A) (option (Entity.t A)) :=
  try_catch
    (entity <- Repository.findOne (Some (Repository.hasId id)) ;;
     ret entity)
    (rethrow "Failed to find entity").

Definition findAll (options : PaginationOptions A) : M (Table A) (PaginatedResult A) :=
  try_catch
    (let page := orDefault (page options) 1 in
     let limit := orDefault (limit options) 10 in
     let skip := (page - 1) * limit in
     found <- Repository.findAndCount (where_ options) (order options) skip limit ;;
     let '(data, total) := found in
     let totalPages := ceilDiv total limit in
     ret {| data := data;
            pagination := {| Pagination.page := page;
                             Pagination.limit := limit;
                             Pagination.total := total;
                             Pagination.totalPages := totalPages;
                             Pagination.hasNext := page <? totalPages;
                             Pagination.hasPrevious := 1 <? page |} |})
    (rethrow "Failed to find entities").

Definition create (data : A) : M (Table A) (Entity.t A) :=
  try_catch
    (Repository.insert data)
    (rethrow "Failed to create entity").

Definition mergeInto (entity : Entity.t A) (data : Partial) : Entity.t A :=
  Entity.mk (Entity.id entity) (merge (Entity.fields entity) data)
            (Entity.createdAt entity) (Entity.updatedAt entity)
            (Entity.deletedAt entity).

Definition update (id : string) (data : Partial) : M (Table A) (Entity.t A) :=
  try_catch
    (entity <- findById id ;;
     match entity with
     | None => throw (Error ("Entity with id " +:+ id +:+ " not found"))
     | Some entity =>
         let updated := mergeInto entity data in
         Repository.save updated
     end)
    (rethrow "Failed to update entity").

Definition softDelete (id : string) : M (Table A) bool :=
  try_catch
    (affected <- Repository.softDelete id ;;
     ret (0 <? orDefault (Some affected) 0))
    (rethrow "Failed to soft delete entity").

Definition hardDelete (id : string) : M (Table A) bool :=
  try_catch
    (affected <- Repository.delete id ;;
     ret (0 <? orDefault (Some affected) 0))
    (rethrow "Failed to hard delete entity").

Definition restore (id : string) : M (Table A) bool :=
  try_catch
    (affected <- Repository.restore id ;;
     ret (0 <? orDefault (Some affected) 0))
    (rethrow "Failed to restore entity").

Definition count (w : option (FindOptionsWhere A)) : M (Table A) Z :=
  try_catch
    (Repository.count w)
    (rethrow "Failed to count entities").

Definition exists_ (id : string) : M (Table A) bool :=
  try_catch
    (n <- Repository.count (Some (Repository.hasId id)) ;;
     ret (0 <? n))
    (rethrow "Failed to check entity existence").

End WithEntity.
End BaseRepository.

(** ** errorHandler.ts: the status the boundary answers with *)

Definition errorHandler (err : JsError) : Z * string :=
  let statusCode := orDefault (statusCode err) 500 in
  let message := if truthy (message err) then message err else "Internal Server Error" in
  (statusCode, message).


(** ** task.entity.ts *)

Module TaskStatus.
Inductive t : Type := TODO | IN_PROGRESS | DONE | ARCHIVED.

(** The string each member of the enum is at run time. *)
Definition value (s : t) : string :=
  match s with
  | TODO => "TODO"
  | IN_PROGRESS => "IN_PROGRESS"
  | DONE => "DONE"
  | ARCHIVED => "ARCHIVED"
  end.

Definition eqb (a b : t) : bool := String.eqb (value a) (value b).

(** [a || b]: the left operand unless it is falsy. *)
Definition or (a b : t) : t := if truthy (value a) then a else b.
End TaskStatus.

Module TaskPriority.
Inductive t : Type := LOW | MEDIUM | HIGH | URGENT.

Definition value (p : t) : string :=
  match p with
  | LOW => "LOW"
  | MEDIUM => "MEDIUM"
  | HIGH => "HIGH"
  | URGENT => "URGENT"
  end.

Definition eqb (a b : t) : bool := String.eqb (value a) (value b).
End TaskPriority.

Module Task.
(** The columns of a task besides those of every entity. *)
Record t : Type := mk {
  title : string;
  description : option string;
  status : TaskStatus.t;
  priority : TaskPriority.t;
  dueDate : option Z;
  assigneeId : option string;
  createdById : string
}.

(** [UpdateTaskDTO] and [DeepPartial<Task>]: a property that is absent or
    [undefined] leaves the column as it is. *)
Record partial : Type := mkPartial {
  p_title : option string;
  p_description : option string;
  p_status : option TaskStatus.t;
  p_priority : option TaskPriority.t;
  p_dueDate : option Z;
  p_assigneeId : option string
}.

Definition noChange : partial := mkPartial None None None None None None.

Definition merge (task : t) (d : partial) : t :=
  {| title := default (title task) (p_title d);
     description := match p_description d with Some x => Some x | None => description task end;
     status := default (status task) (p_status d);
     priority := default (priority task) (p_priority d);
     dueDate := match p_dueDate d with Some x => Some x | None => dueDate task end;
     assigneeId := match p_assigneeId d with Some x => Some x | None => assigneeId task end;
     createdById := createdById task |}.

Definition optional {X : Type} (f : X -> JsValue) (x : option X) : JsValue :=
  match x with Some v => f v | None => JNull end.

(** The task as the JavaScript object that is returned and cached; a date
    is its time value. *)
Definition toValue (e : Entity.t t) : JsValue :=
  JObj [ ("id", JStr (Entity.id e));
         ("title", JStr (title (Entity.fields e)));
         ("description", optional JStr (description (Entity.fields e)));
         ("status", JStr (TaskStatus.value (status (Entity.fields e))));
         ("priority", JStr (TaskPriority.value (priority (Entity.fields e))));
         ("dueDate", optional JNum (dueDate (Entity.fields e)));
         ("assigneeId", optional JStr (assigneeId (Entity.fields e)));
         ("createdById", JStr (createdById (Entity.fields e)));
         ("createdAt", JNum (Entity.createdAt e));
         ("updatedAt", JNum (Entity.updatedAt e));
         ("deletedAt", optional JNum (Entity.deletedAt e)) ].
End Task.

(** The tasks table has no unique column.  Its foreign keys to the users
    table are outside this model of one table: the assignee and the creator
    of a task are taken to be ids of users that exist. *)
#[export] Instance Task_metadata : EntityMetadata Task.t := {
  Partial := Task.partial;
  merge := Task.merge;
  beforeSave := fun task => task;
  violation := fun _ _ => None
}.

(** ** Find operators and the where clauses of the task queries *)

Inductive FindOperator (V : Type) : Type :=
| Equal (v : V)
| LessThan (v : V)
| IsNull.
Arguments Equal {V} v.
Arguments LessThan {V} v.
Arguments IsNull {V}.

(** A comparison with NULL selects nothing; only IS NULL selects it. *)
Definition holds {V : Type} (eq lt : V -> V -> bool) (op : option (FindOperator V))
    (column : option V) : bool :=
  match op with
  | None => true
  | Some (Equal v) => match column with Some x => eq x v | None => false end
  | Some (LessThan v) => match column with Some x => lt x v | None => false end
  | Some IsNull => match column with Some _ => false | None => true end
  end.

Module TaskWhere.
Record t : Type := mk {
  assigneeId : option (FindOperator string);
  createdById : option (FindOperator string);
  status : option (FindOperator TaskStatus.t);
  priority : option (FindOperator TaskPriority.t);
  dueDate : option (FindOperator Z)
}.

Definition any : t := mk None None None None None.

Definition never {V : Type} (_ _ : V) : bool := false.

Definition toWhere (w : t) : FindOptionsWhere Task.t :=
  fun e =>
    let task := Entity.fields e in
    holds String.eqb never (assigneeId w) (Task.assigneeId task)
    && holds String.eqb never (createdById w) (Some (Task.createdById task))
    && holds TaskStatus.eqb never (status w) (Some (Task.status task))
    && holds TaskPriority.eqb never (priority w) (Some (Task.priority task))
    && holds Z.eqb Z.ltb (dueDate w) (Task.dueDate task).
End TaskWhere.

(** [{ ...options, where, relations }] *)
Definition withWhere {A : Type} (options : PaginationOptions A)
    (w : FindOptionsWhere A) (rels : list string) : PaginationOptions A :=
  {| page := page options; limit := limit options; where_ := Some w;
     order := order options; relations := Some rels |}.

(** ** task.repository.ts *)

Module TaskStats.
Record t : Type := mk {
  total : Z;
  todo : Z;
  inProgress : Z;
  done : Z;
  overdue : Z
}.

Definition toValue (s : t) : JsValue :=
  JObj [ ("total", JNum (total s)); ("todo", JNum (todo s));
         ("inProgress", JNum (inProgress s)); ("done", JNum (done s));
         ("overdue", JNum (overdue s)) ].
End TaskStats.

Module TaskRepository.

Definition findByAssignee (userId : string) (options : PaginationOptions Task.t)
  : M (Table Task.t) (PaginatedResult Task.t) :=
  try_catch
    (BaseRepository.findAll
       (withWhere options
          (TaskWhere.toWhere
             {| TaskWhere.assigneeId := Some (Equal userId);
                TaskWhere.createdById := None; TaskWhere.status := None;
                TaskWhere.priority := None; TaskWhere.dueDate := None |})
          ["assignee"; "createdBy"]))
    (rethrow "Failed to find tasks by assignee").

Definition findByCreator (userId : string) (options : PaginationOptions Task.t)
  : M (Table Task.t) (PaginatedResult Task.t) :=
  try_catch
    (BaseRepository.findAll
       (withWhere options
          (TaskWhere.toWhere
             {| TaskWhere.assigneeId := None;
                TaskWhere.createdById := Some (Equal userId); TaskWhere.status := None;
                TaskWhere.priority := None; TaskWhere.dueDate := None |})
          ["assignee"; "createdBy"]))
    (rethrow "Failed to find tasks by creator").

Definition findByStatus (status : TaskStatus.t) (options : PaginationOptions Task.t)
  : M (Table Task.t) (PaginatedResult Task.t) :=
  try_catch
    (BaseRepository.findAll
       (withWhere options
          (TaskWhere.toWhere
             {| TaskWhere.assigneeId := None; TaskWhere.createdById := None;
                TaskWhere.status := Some (Equal status);
                TaskWhere.priority := None; TaskWhere.dueDate := None |})
          ["assignee"; "createdBy"]))
    (rethrow "Failed to find tasks by status").

Definition findByPriority (priority : TaskPriority.t) (options : PaginationOptions Task.t)
  : M (Table Task.t) (PaginatedResult Task.t) :=
  try_catch
    (BaseRepository.findAll
       (withWhere options
          (TaskWhere.toWhere
             {| TaskWhere.assigneeId := None; TaskWhere.createdById := None;
                TaskWhere.status := None;
                TaskWhere.priority := Some (Equal priority); TaskWhere.dueDate := None |})
          ["assignee"; "createdBy"]))
    (rethrow "Failed to find tasks by priority").

Definition findOverdue (options : PaginationOptions Task.t)
  : M (Table Task.t) (PaginatedResult Task.t) :=
  try_catch
    (now <- Repository.currentDate ;;
     BaseRepository.findAll
       (withWhere options
          (TaskWhere.toWhere
             {| TaskWhere.assigneeId := None; TaskWhere.createdById := None;
                TaskWhere.dueDate := Some (LessThan now);
                TaskWhere.status :=
                  Some (Equal (TaskStatus.or TaskStatus.TODO TaskStatus.IN_PROGRESS));
                TaskWhere.priority := None |})
          ["assignee"; "createdBy"]))
    (rethrow "Failed to find overdue tasks").

Definition findUnassigned (options : PaginationOptions Task.t)
  : M (Table Task.t) (PaginatedResult Task.t) :=
  try_catch
    (BaseRepository.findAll
       (withWhere options
          (TaskWhere.toWhere
             {| TaskWhere.assigneeId := Some IsNull; TaskWhere.createdById := None;
                TaskWhere.status := None; TaskWhere.priority := None;
                TaskWhere.dueDate := None |})
          ["createdBy"]))
    (rethrow "Failed to find unassigned tasks").

Definition updateStatus (id : string) (status : TaskStatus.t)
  : M (Table Task.t) (Entity.t Task.t) :=
  try_catch
    (BaseRepository.update id
       {| Task.p_title := None; Task.p_description := None;
          Task.p_status := Some status; Task.p_priority := None;
          Task.p_dueDate := None; Task.p_assigneeId := None |})
    (rethrow "Failed to update task status").

Definition assignTask (taskId userId : string) : M (Table Task.t) (Entity.t Task.t) :=
  try_catch
    (BaseRepository.update taskId
       {| Task.p_title := None; Task.p_description := None;
          Task.p_status := None; Task.p_priority := None;
          Task.p_dueDate := None; Task.p_assigneeId := Some userId |})
    (rethrow "Failed to assign task").

(** [{ assigneeId: undefined }]: the property is present but [undefined]. *)
Definition unassignTask (taskId : string) : M (Table Task.t) (Entity.t Task.t) :=
  try_catch
    (BaseRepository.update taskId
       {| Task.p_title := None; Task.p_description := None;
          Task.p_status := None; Task.p_priority := None;
          Task.p_dueDate := None; Task.p_assigneeId := None |})
    (rethrow "Failed to unassign task").

(** The relations are loaded alongside and do not change which task is
    found. *)
Definition findByIdWithRelations (id : string) : M (Table Task.t) (option (Entity.t Task.t)) :=
  try_catch
    (Repository.findOne (Some (Repository.hasId id)))
    (rethrow "Failed to find task with relations").

Definition getUserTaskStats (userId : string) : M (Table Task.t) TaskStats.t :=
  try_catch
    (total <- BaseRepository.count
        (Some (TaskWhere.toWhere
           {| TaskWhere.assigneeId := Some (Equal userId); TaskWhere.createdById := None;
              TaskWhere.status := None; TaskWhere.priority := None;
              TaskWhere.dueDate := None |})) ;;
     todo <- BaseRepository.count
        (Some (TaskWhere.toWhere
           {| TaskWhere.assigneeId := Some (Equal userId); TaskWhere.createdById := None;
              TaskWhere.status := Some (Equal TaskStatus.TODO);
              TaskWhere.priority := None; TaskWhere.dueDate := None |})) ;;
     inProgress <- BaseRepository.count
        (Some (TaskWhere.toWhere
           {| TaskWhere.assigneeId := Some (Equal userId); TaskWhere.createdById := None;
              TaskWhere.status := Some (Equal TaskStatus.IN_PROGRESS);
              TaskWhere.priority := None; TaskWhere.dueDate := None |})) ;;
     done <- BaseRepository.count
        (Some (TaskWhere.toWhere
           {| TaskWhere.assigneeId := Some (Equal userId); TaskWhere.createdById := None;
              TaskWhere.status := Some (Equal TaskStatus.DONE);
              TaskWhere.priority := None; TaskWhere.dueDate := None |})) ;;
     now <- Repository.currentDate ;;
     overdueTasks <- Repository.count
        (Some (TaskWhere.toWhere
           {| TaskWhere.assigneeId := Some (Equal userId); TaskWhere.createdById := None;
              TaskWhere.dueDate := Some (LessThan now);
              TaskWhere.status :=
                Some (Equal (TaskStatus.or TaskStatus.TODO TaskStatus.IN_PROGRESS));
              TaskWhere.priority := None |})) ;;
     ret {| TaskStats.total := total; TaskStats.todo := todo;
            TaskStats.inProgress := inProgress; TaskStats.done := done;
            TaskStats.overdue := overdueTasks |})
    (rethrow "Failed to get task statistics").

End TaskRepository.

(** ** user.entity.ts *)

Module UserRole.
Inductive t : Type := USER | ADMIN | SUPER_ADMIN.

Definition value (r : t) : string :=
  match r with
  | USER => "USER"
  | ADMIN => "ADMIN"
  | SUPER_ADMIN => "SUPER_ADMIN"
  end.

Definition eqb (a b : t) : bool := String.eqb (value a) (value b).
End UserRole.

Module UserStatus.
Inductive t : Type := ACTIVE | INACTIVE | SUSPENDED.

Definition value (s : t) : string :=
  match s with
  | ACTIVE => "ACTIVE"
  | INACTIVE => "INACTIVE"
  | SUSPENDED => "SUSPENDED"
  end.

Definition eqb (a b : t) : bool := String.eqb (value a) (value b).
End UserStatus.

(** [toLowerCase] and [trim] on the ASCII part of a string. *)
Definition lowerChar (c : ascii) : ascii :=
  let n := nat_of_ascii c in
  if (Nat.leb 65 n && Nat.leb n 90)%bool then ascii_of_nat (n + 32) else c.

Definition toLowerCase (s : string) : string :=
  string_of_list_ascii (map lowerChar (list_ascii_of_string s)).

Definition isSpace (c : ascii) : bool :=
  let n := nat_of_ascii c in
  (Nat.eqb n 32 || (Nat.leb 9 n && Nat.leb n 13))%bool.

Fixpoint dropSpaces (l : list ascii) : list ascii :=
  match l with
  | c :: l' => if isSpace c then dropSpaces l' else l
  | [] => []
  end.

Definition trim (s : string) : string :=
  string_of_list_ascii
    (rev (dropSpaces (rev (dropSpaces (list_ascii_of_string s))))).

Module User.
Record t : Type := mk {
  email : string;
  passwordHash : string;
  firstName : string;
  lastName : string;
  role : UserRole.t;
  status : UserStatus.t
}.

(** [UpdateUserDTO] *)
Record partial : Type := mkPartial {
  p_email : option string;
  p_firstName : option string;
  p_lastName : option string;
  p_role : option UserRole.t;
  p_status : option UserStatus.t
}.

Definition merge (user : t) (d : partial) : t :=
  {| email := default (email user) (p_email d);
     passwordHash := passwordHash user;
     firstName := default (firstName user) (p_firstName d);
     lastName := default (lastName user) (p_lastName d);
     role := default (role user) (p_role d);
     status := default (status user) (p_status d) |}.

Definition normalizeEmail (user : t) : t :=
  if truthy (email user) then
    {| email := trim (toLowerCase (email user));
       passwordHash := passwordHash user;
       firstName := firstName user;
       lastName := lastName user;
       role := role user;
       status := status user |}
  else user.

(** The user as the JavaScript object that is returned and cached, as
    every serialization shows it: [JSON.stringify], for the cache as for a
    response, applies the [toJSON] method of the entity, which leaves
    [passwordHash] out, and no service reads [passwordHash] from such a
    value. *)
Definition toValue (e : Entity.t t) : JsValue :=
  JObj [ ("id", JStr (Entity.id e));
         ("email", JStr (email (Entity.fields e)));
         ("firstName", JStr (firstName (Entity.fields e)));
         ("lastName", JStr (lastName (Entity.fields e)));
         ("role", JStr (UserRole.value (role (Entity.fields e))));
         ("status", JStr (UserStatus.value (status (Entity.fields e))));
         ("createdAt", JNum (Entity.createdAt e));
         ("updatedAt", JNum (Entity.updatedAt e));
         ("deletedAt", Task.optional JNum (Entity.deletedAt e)) ].
End User.

(** The email column is unique. *)
#[export] Instance User_metadata : EntityMetadata User.t := {
  Partial := User.partial;
  merge := User.merge;
  beforeSave := User.normalizeEmail;
  violation := fun rows e =>
    if existsb (fun x => String.eqb (User.email (Entity.fields x))
                                    (User.email (Entity.fields e))) rows
    then Some "users_email_key" else None
}.

(** ** user.repository.ts *)

Module UserRepository.

Definition byEmail (email : string) : FindOptionsWhere User.t :=
  fun e => String.eqb (User.email (Entity.fields e)) (trim (toLowerCase email)).

Definition findByEmail (email : string) : M (Table User.t) (option (Entity.t User.t)) :=
  try_catch
    (user <- Repository.findOne (Some (byEmail email)) ;;
     ret user)
    (rethrow "Failed to find user by email").

Definition updatePassword (id passwordHash : string) : M (Table User.t) (Entity.t User.t) :=
  try_catch
    (user <- BaseRepository.findById id ;;
     match user with
     | None => throw (Error ("User with id " +:+ id +:+ " not found"))
     | Some user =>
         let f := Entity.fields user in
         Repository.save
           (Entity.mk (Entity.id user)
              {| User.email := User.email f; User.passwordHash := passwordHash;
                 User.firstName := User.firstName f; User.lastName := User.lastName f;
                 User.role := User.role f; User.status := User.status f |}
              (Entity.createdAt user) (Entity.updatedAt user) (Entity.deletedAt user))
     end)
    (rethrow "Failed to update password").

Definition setStatus (s : UserStatus.t) : User.partial :=
  {| User.p_email := None; User.p_firstName := None; User.p_lastName := None;
     User.p_role := None; User.p_status := Some s |}.

Definition activate (id : string) : M (Table User.t) (Entity.t User.t) :=
  try_catch
    (BaseRepository.update id (setStatus UserStatus.ACTIVE))
    (rethrow "Failed to activate user").

Definition deactivate (id : string) : M (Table User.t) (Entity.t User.t) :=
  try_catch
    (BaseRepository.update id (setStatus UserStatus.INACTIVE))
    (rethrow "Failed to deactivate user").

Definition suspend (id : string) : M (Table User.t) (Entity.t User.t) :=
  try_catch
    (BaseRepository.update id (setStatus UserStatus.SUSPENDED))
    (rethrow "Failed to suspend user").

Definition isEmailTaken (email : string) (excludeUserId : option string)
  : M (Table User.t) bool :=
  try_catch
    (let where_ := byEmail email in
     match excludeUserId with
     | Some excludeUserId =>
         if truthy excludeUserId then
           users <- Repository.find (Some where_) ;;
           ret (existsb (fun user => negb (String.eqb (Entity.id user) excludeUserId)) users)
         else
           count <- Repository.count (Some where_) ;;
           ret (0 <? count)
     | None =>
         count <- Repository.count (Some where_) ;;
         ret (0 <? count)
     end)
    (rethrow "Failed to check email availability").

End UserRepository.

(** ** user.service.ts and task.service.ts *)

(** [bcryptjs] *)
Record Bcrypt : Type := mkBcrypt {
  hash : string -> Z -> string;
  compare : string -> string -> bool
}.

(** Truthiness of a value. *)
Definition truthyValue (v : JsValue) : bool :=
  match v with
  | JNull => false
  | JBool b => b
  | JNum n => negb (n =? 0)
  | JStr s => truthy s
  | JArr _ | JObj _ => true
  end.

(** [v.prop] read as a string; [None] when it is not a string. *)
Definition stringProp (prop : string) (v : JsValue) : option string :=
  match v with
  | JObj props =>
      match List.find (fun kv => String.eqb (fst kv) prop) props with
      | Some (_, JStr s) => Some s
      | _ => None
      end
  | _ => None
  end.

Module UserService.
Section WithRuntime.
Context (rt : Runtime) (bcrypt : Bcrypt).

Definition SALT_ROUNDS : Z := 10.

Record CreateUserDTO : Type := mkCreate {
  email : string;
  password : string;
  firstName : string;
  lastName : string;
  role : option UserRole.t
}.

Definition createUser (data : CreateUserDTO) : M (Redis * Table User.t) (Entity.t User.t) :=
  try_catch
    (existingUser <- onSnd (UserRepository.findByEmail (email data)) ;;
     match existingUser with
     | Some _ => throw (Error "Email already registered")
     | None =>
         let passwordHash := hash bcrypt (password data) SALT_ROUNDS in
         user <- onSnd (BaseRepository.create
                          {| User.email := email data;
                             User.passwordHash := passwordHash;
                             User.firstName := firstName data;
                             User.lastName := lastName data;
                             User.role := default UserRole.USER (role data);
                             User.status := UserStatus.ACTIVE |}) ;;
         onFst (CacheService.set rt (CachePrefix.USER +:+ Entity.id user)
                  (User.toValue user) (Some CacheTTL.LONG)) ;;;
         ret user
     end)
    (fun error => throw error).

Definition findById (id : string) : M (Redis * Table User.t) JsValue :=
  try_catch
    (CacheService.getOrSet rt (CachePrefix.USER +:+ id)
       (user <- BaseRepository.findById id ;;
        match user with
        | None => throw (Error ("User with id " +:+ id +:+ " not found"))
        | Some user => ret (User.toValue user)
        end)
       (Some CacheTTL.LONG))
    (fun error => throw error).

Definition updateUser (id : string) (data : User.partial)
  : M (Redis * Table User.t) (Entity.t User.t) :=
  try_catch
    (user <- findById id ;;
     if negb (truthyValue user) then
       throw (Error ("User with id " +:+ id +:+ " not found"))
     else
       (match User.p_email data with
        | Some e =>
            if truthy e && negb (bool_decide (stringProp "email" user = Some e)) then
              isTaken <- onSnd (UserRepository.isEmailTaken e (Some id)) ;;
              if (isTaken : bool) then throw (Error "Email already in use") else ret tt
            else ret tt
        | None => ret tt
        end) ;;;
       updated <- onSnd (BaseRepository.update id data) ;;
       onFst (CacheService.invalidateUserCache id) ;;;
       ret updated)
    (fun error => throw error).

Definition changePassword (id oldPassword newPassword : string)
  : M (Redis * Table User.t) unit :=
  try_catch
    (user <- onSnd (BaseRepository.findById id) ;;
     match user with
     | None => throw (Error ("User with id " +:+ id +:+ " not found"))
     | Some user =>
         let isValid := compare bcrypt oldPassword (User.passwordHash (Entity.fields user)) in
         if negb isValid then throw (Error "Current password is incorrect")
         else
           let passwordHash := hash bcrypt newPassword SALT_ROUNDS in
           onSnd (UserRepository.updatePassword id passwordHash) ;;;
           onFst (CacheService.invalidateUserCache id)
     end)
    (fun error => throw error).

Definition deactivateUser (id : string) : M (Redis * Table User.t) unit :=
  try_catch
    (onSnd (UserRepository.deactivate id) ;;;
     onFst (CacheService.invalidateUserCache id))
    (fun error => throw error).

Definition deleteUser (id : string) : M (Redis * Table User.t) unit :=
  try_catch
    (onSnd (BaseRepository.softDelete id) ;;;
     onFst (CacheService.invalidateUserCache id))
    (fun error => throw error).

End WithRuntime.
End UserService.

Module TaskService.
Section WithRuntime.
(** [stringifyOptions] is [JSON.stringify] on a pagination options object. *)
Context (rt : Runtime) (stringifyOptions : PaginationOptions Task.t -> string).

Record CreateTaskDTO : Type := mkCreate {
  title : string;
  description : option string;
  status : option TaskStatus.t;
  priority : option TaskPriority.t;
  dueDate : option Z;
  assigneeId : option string;
  createdById : string
}.

Definition paginatedValue (r : PaginatedResult Task.t) : JsValue :=
  JObj [ ("data", JArr (map Task.toValue (data r)));
         ("pagination",
          JObj [ ("page", JNum (Pagination.page (pagination r)));
                 ("limit", JNum (Pagination.limit (pagination r)));
                 ("total", JNum (Pagination.total (pagination r)));
                 ("totalPages", JNum (Pagination.totalPages (pagination r)));
                 ("hasNext", JBool (Pagination.hasNext (pagination r)));
                 ("hasPrevious", JBool (Pagination.hasPrevious (pagination r))) ]) ].

Definition createTask (data : CreateTaskDTO) : M (Redis * Table Task.t) (Entity.t Task.t) :=
  try_catch
    (task <- onSnd (BaseRepository.create
                      {| Task.title := title data;
                         Task.description := description data;
                         Task.status := default TaskStatus.TODO (status data);
                         Task.priority := default TaskPriority.MEDIUM (priority data);
                         Task.dueDate := dueDate data;
                         Task.assigneeId := assigneeId data;
                         Task.createdById := createdById data |}) ;;
     onFst (CacheService.set rt (CachePrefix.TASK +:+ Entity.id task)
              (Task.toValue task) (Some CacheTTL.MEDIUM)) ;;;
     (match assigneeId data with
      | Some a => if truthy a then onFst (CacheService.invalidateUserCache a) else ret tt
      | None => ret tt
      end) ;;;
     ret task)
    (fun error => throw error).

Definition findById (id : string) : M (Redis * Table Task.t) JsValue :=
  try_catch
    (CacheService.getOrSet rt (CachePrefix.TASK +:+ id)
       (task <- TaskRepository.findByIdWithRelations id ;;
        match task with
        | None => throw (Error ("Task with id " +:+ id +:+ " not found"))
        | Some task => ret (Task.toValue task)
        end)
       (Some CacheTTL.MEDIUM))
    (fun error => throw error).

Definition findByAssignee (userId : string) (options : PaginationOptions Task.t)
  : M (Redis * Table Task.t) JsValue :=
  try_catch
    (let cacheKey := CachePrefix.USER_TASKS +:+ userId +:+ ":" +:+ stringifyOptions options in
     CacheService.getOrSet rt cacheKey
       (r <- TaskRepository.findByAssignee userId options ;; ret (paginatedValue r))
       (Some CacheTTL.SHORT))
    (fun error => throw error).

Definition updateTask (id : string) (data : Task.partial)
  : M (Redis * Table Task.t) (Entity.t Task.t) :=
  try_catch
    (task <- onSnd (BaseRepository.findById (A:=Task.t) id) ;;
     match task with
     | None => throw (Error ("Task with id " +:+ id +:+ " not found"))
     | Some task =>
         updated <- onSnd (BaseRepository.update (A:=Task.t) id data) ;;
         onFst (CacheService.invalidateTaskCache id) ;;;
         (match Task.assigneeId (Entity.fields task) with
          | Some a => if truthy a then onFst (CacheService.invalidateUserCache a) else ret tt
          | None => ret tt
          end) ;;;
         (match Task.p_assigneeId data with
          | Some a =>
              if truthy a
                 && negb (bool_decide (Task.assigneeId (Entity.fields task) = Some a))
              then onFst (CacheService.invalidateUserCache a) else ret tt
          | None => ret tt
          end) ;;;
         ret updated
     end)
    (fun error => throw error).

Definition updateStatus (id : string) (status : TaskStatus.t)
  : M (Redis * Table Task.t) (Entity.t Task.t) :=
  try_catch
    (task <- onSnd (TaskRepository.updateStatus id status) ;;
     onFst (CacheService.invalidateTaskCache id) ;;;
     (match Task.assigneeId (Entity.fields task) with
      | Some a => if truthy a then onFst (CacheService.invalidateUserCache a) else ret tt
      | None => ret tt
      end) ;;;
     ret task)
    (fun error => throw error).

Definition assignTask (taskId userId : string) : M (Redis * Table Task.t) (Entity.t Task.t) :=
  try_catch
    (task <- onSnd (TaskRepository.assignTask taskId userId) ;;
     onFst (CacheService.invalidateTaskCache taskId) ;;;
     onFst (CacheService.invalidateUserCache userId) ;;;
     ret task)
    (fun error => throw error).

Definition unassignTask (taskId : string) : M (Redis * Table Task.t) (Entity.t Task.t) :=
  try_catch
    (task <- onSnd (BaseRepository.findById (A:=Task.t) taskId) ;;
     match task with
     | None => throw (Error ("Task with id " +:+ taskId +:+ " not found"))
     | Some task =>
         updated <- onSnd (TaskRepository.unassignTask taskId) ;;
         onFst (CacheService.invalidateTaskCache taskId) ;;;
         (match Task.assigneeId (Entity.fields task) with
          | Some a => if truthy a then onFst (CacheService.invalidateUserCache a) else ret tt
          | None => ret tt
          end) ;;;
         ret updated
     end)
    (fun error => throw error).

Definition deleteTask (id : string) : M (Redis * Table Task.t) unit :=
  try_catch
    (task <- onSnd (BaseRepository.findById (A:=Task.t) id) ;;
     match task with
     | None => throw (Error ("Task with id " +:+ id +:+ " not found"))
     | Some task =>
         onSnd (BaseRepository.softDelete (A:=Task.t) id) ;;;
         onFst (CacheService.invalidateTaskCache id) ;;;
         (match Task.assigneeId (Entity.fields task) with
          | Some a => if truthy a then onFst (CacheService.invalidateUserCache a) else ret tt
          | None => ret tt
          end)
     end)
    (fun error => throw error).

Definition getUserTaskStats (userId : string) : M (Redis * Table Task.t) JsValue :=
  try_catch
    (let cacheKey := CachePrefix.TASK_STATS +:+ userId in
     CacheService.getOrSet rt cacheKey
       (s <- TaskRepository.getUserTaskStats userId ;; ret (TaskStats.toValue s))
       (Some CacheTTL.SHORT))
    (fun error => throw error).

End WithRuntime.
End TaskService.

(** ** Observing a callback

    A callback that also counts how often it is invoked, as a test double
    with a load counter does. *)
Definition counted {S A : Type} (callback : M S A) : M (S * nat) A :=
  fun w => let '(r, s') := callback (fst w) in (r, (s', Datatypes.S (snd w))).

(** ** A small runtime and backends for worked examples *)

Module Example.

Definition quote : string := String (ascii_of_nat 34) EmptyString.

(** JSON text of a value (strings are written without escapes). *)
Fixpoint render (v : JsValue) : string :=
  match v with
  | JNull => "null"
  | JBool true => "true"
  | JBool false => "false"
  | JNum n => printInt n
  | JStr s => quote +:+ s +:+ quote
  | JArr items =>
      "[" +:+
      (fix list (l : list JsValue) : string :=
         match l with
         | [] => EmptyString
         | [x] => render x
         | x :: rest => render x +:+ "," +:+ list rest
         end) items +:+ "]"
  | JObj props =>
      "{" +:+
      (fix list (l : list (string * JsValue)) : string :=
         match l with
         | [] => EmptyString
         | [(k, x)] => quote +:+ k +:+ quote +:+ ":" +:+ render x
         | (k, x) :: rest => quote +:+ k +:+ quote +:+ ":" +:+ render x +:+ "," +:+ list rest
         end) props +:+ "}"
  end.

Definition isQuote (c : ascii) : bool := Ascii.eqb c (ascii_of_nat 34).

Definition isDigit (c : ascii) : bool :=
  let n := nat_of_ascii c in (Nat.leb 48 n && Nat.leb n 57)%bool.

(** The characters up to the next quote, and what follows the quote. *)
Fixpoint untilQuote (cs : list ascii) : option (list ascii * list ascii) :=
  match cs with
  | [] => None
  | c :: rest =>
      if isQuote c then Some ([], rest)
      else match untilQuote rest with
           | Some (s, rest') => Some (c :: s, rest')
           | None => None
           end
  end.

Fixpoint digits (cs : list ascii) : list ascii * list ascii :=
  match cs with
  | c :: rest =>
      if isDigit c then let '(ds, rest') := digits rest in (c :: ds, rest')
      else ([], cs)
  | [] => ([], [])
  end.

(** A parser of the texts [render] writes: no white space, no escapes,
    integers only. *)
Fixpoint parseValue (fuel : nat) (cs : list ascii) : option (JsValue * list ascii) :=
  match fuel with
  | O => None
  | Datatypes.S fuel =>
      match cs with
      | "n"%char :: "u"%char :: "l"%char :: "l"%char :: rest => Some (JNull, rest)
      | "t"%char :: "r"%char :: "u"%char :: "e"%char :: rest => Some (JBool true, rest)
      | "f"%char :: "a"%char :: "l"%char :: "s"%char :: "e"%char :: rest => Some (JBool false, rest)
      | "["%char :: "]"%char :: rest => Some (JArr [], rest)
      | "["%char :: rest =>
          match parseItems fuel rest with
          | Some (items, rest') => Some (JArr items, rest')
          | None => None
          end
      | "{"%char :: "}"%char :: rest => Some (JObj [], rest)
      | "{"%char :: rest =>
          match parseMembers fuel rest with
          | Some (props, rest') => Some (JObj props, rest')
          | None => None
          end
      | c :: rest =>
          if isQuote c then
            match untilQuote rest with
            | Some (s, rest') => Some (JStr (string_of_list_ascii s), rest')
            | None => None
            end
          else
            let '(ds, rest') := digits (if Ascii.eqb c "-" then rest else cs) in
            match ds with
            | [] => None
            | _ =>
                match parseInt64 (string_of_list_ascii
                                    (if Ascii.eqb c "-" then c :: ds else ds)) with
                | Some n => Some (JNum n, rest')
                | None => None
                end
            end
      | [] => None
      end
  end
with parseItems (fuel : nat) (cs : list ascii) : option (list JsValue * list ascii) :=
  match fuel with
  | O => None
  | Datatypes.S fuel =>
      match parseValue fuel cs with
      | Some (v, ","%char :: rest) =>
          match parseItems fuel rest with
          | Some (vs, rest') => Some (v :: vs, rest')
          | None => None
          end
      | Some (v, "]"%char :: rest) => Some ([v], rest)
      | _ => None
      end
  end
with parseMembers (fuel : nat) (cs : list ascii)
  : option (list (string * JsValue) * list ascii) :=
  match fuel with
  | O => None
  | Datatypes.S fuel =>
      match cs with
      | c :: rest =>
          if isQuote c then
            match untilQuote rest with
            | Some (key, ":"%char :: rest') =>
                match parseValue fuel rest' with
                | Some (v, ","%char :: rest'') =>
                    match parseMembers fuel rest'' with
                    | Some (ps, rest3) => Some ((string_of_list_ascii key, v) :: ps, rest3)
                    | None => None
                    end
                | Some (v, "}"%char :: rest'') => Some ([(string_of_list_ascii key, v)], rest'')
                | _ => None
                end
            | _ => None
            end
          else None
      | [] => None
      end
  end.

Definition parse (s : string) : option JsValue :=
  match parseValue (Datatypes.S (String.length s)) (list_ascii_of_string s) with
  | Some (v, []) => Some v
  | _ => None
  end.

Definition runtime : Runtime :=
  {| JSON_parse := parse;
     JSON_stringify := render;
     config_redis_ttl := None;
     config_node_env := "development" |}.

(** A connected, healthy Redis with the given entries. *)
Definition redis (l : list (string * string)) : Redis :=
  {| initialized := true;
     entries := list_to_map (map (fun kv => (fst kv, mkEntry (snd kv) (Some 60))) l);
     faults := [] |}.

(** A connected Redis that rejects every one of the next commands. *)
Definition brokenRedis (l : list (string * string)) : Redis :=
  {| initialized := true;
     entries := list_to_map (map (fun kv => (fst kv, mkEntry (snd kv) (Some 60))) l);
     faults := repeat (Some (ReplyError "Connection is closed.")) 8 |}.

(** A callback that returns the number of times it ran before. *)
Definition counter : M nat JsValue := fun n => (Ok (JNum (Z.of_nat n)), Datatypes.S n).

(** A callback that throws on its first run and returns 7 afterwards. *)
Definition flaky : M nat JsValue :=
  fun n => match n with
           | O => (Throw (Error "first attempt failed"), 1%nat)
           | _ => (Ok (JNum 7), Datatypes.S n)
           end.

(** Stores for worked examples: rows created at time 100, the clock at
    1000, no pending fault. *)
Definition row {A : Type} (id : string) (f : A) (deleted : option Z) : Entity.t A :=
  Entity.mk id f 100 100 deleted.

Definition table {A : Type} (rs : list (Entity.t A)) : Table A :=
  mkTable rs 1000 (fun n => "generated-" +:+ printInt (Z.of_nat n)) 0 [].

(** The same store, unreachable for the next statements. *)
Definition brokenTable {A : Type} (rs : list (Entity.t A)) : Table A :=
  mkTable rs 1000 (fun n => "generated-" +:+ printInt (Z.of_nat n)) 0
    (repeat (Some (QueryFailedError "Connection terminated unexpectedly")) 8).

Definition task (assignee : option string) (st : TaskStatus.t) (due : option Z) : Task.t :=
  {| Task.title := "Write the report";
     Task.description := None;
     Task.status := st;
     Task.priority := TaskPriority.MEDIUM;
     Task.dueDate := due;
     Task.assigneeId := assignee;
     Task.createdById := "creator" |}.

(** Twenty-five unassigned live tasks. *)
Definition tasks25 : Table Task.t :=
  table (map (fun n => row ("task-" +:+ printInt (Z.of_nat n))
                           (task None TaskStatus.TODO None) None)
             (seq 1 25)).

(** Two live tasks owned by alice, and one soft-deleted task. *)
Definition taskA : Entity.t Task.t :=
  row "task-a" (task (Some "alice") TaskStatus.TODO None) None.

Definition taskB : Entity.t Task.t :=
  row "task-b" (task (Some "alice") TaskStatus.IN_PROGRESS (Some 500)) None.

Definition taskC : Entity.t Task.t :=
  row "task-c" (task (Some "bob") TaskStatus.DONE None) (Some 200).

Definition tasks : Table Task.t := table [taskA; taskB; taskC].

Definition user (email : string) : User.t :=
  {| User.email := email;
     User.passwordHash := "$2a$10$hash";
     User.firstName := "Ada";
     User.lastName := "Lovelace";
     User.role := UserRole.USER;
     User.status := UserStatus.ACTIVE |}.

Definition users : Table User.t :=
  table [row "alice" (user "alice@example.com") None;
         row "bob" (user "bob@example.com") None].

Definition renameTo (email : string) : User.partial :=
  {| User.p_email := Some email; User.p_firstName := None; User.p_lastName := None;
     User.p_role := None; User.p_status := None |}.

(** [JSON.stringify] on an options object that carries a page and a limit
    at most. *)
Definition stringifyOptions (o : PaginationOptions Task.t) : string :=
  render (JObj (match page o with Some p => [("page", JNum p)] | None => [] end
                ++ match limit o with Some l => [("limit", JNum l)] | None => [] end)).

(** A cache warmed by reads: the statistics of alice and of bob and the
    task list of alice have been asked for, on an empty cache. *)
Definition warmed : Redis * Table Task.t :=
  snd (TaskService.findByAssignee runtime stringifyOptions "alice" noOptions
         (snd (TaskService.getUserTaskStats runtime "bob"
                 (snd (TaskService.getUserTaskStats runtime "alice" (redis [], tasks)))))).

(** The state after "task-a" has been reassigned from alice to bob. *)
Definition reassigned : Redis * Table Task.t :=
  snd (TaskService.assignTask "task-a" "bob" warmed).

Definition bcrypt : Bcrypt :=
  {| hash := fun password rounds => "$2a$" +:+ printInt rounds +:+ "$" +:+ password;
     compare := fun password h => String.eqb h ("$2a$10$" +:+ password) |}.

Definition newTask : TaskService.CreateTaskDTO :=
  {| TaskService.title := "Review the draft";
     TaskService.description := None;
     TaskService.status := None;
     TaskService.priority := None;
     TaskService.dueDate := None;
     TaskService.assigneeId := Some "alice";
     TaskService.createdById := "creator" |}.

Definition newUser : UserService.CreateUserDTO :=
  {| UserService.email := " Carol@Example.com ";
     UserService.password := "secret";
     UserService.firstName := "Carol";
     UserService.lastName := "Jones";
     UserService.role := None |}.

End Example.

(** The error the next command sent to Redis is rejected with, if any: the
    client is not initialized, or the backend rejects the command. *)
Definition backendError (r : Redis) : option JsError :=
  if initialized r then
    match faults r with
    | Some e :: _ => Some e
    | _ => None
    end
  else Some (Error "Redis client not initialized. Call initializeRedis() first.").

(** The tasks the overdue count of a user's statistics counts at time
    [now]. *)
Definition countedOverdue (userId : string) (now : Z) (e : Entity.t Task.t) : bool :=
  match Entity.deletedAt e, Task.assigneeId (Entity.fields e),
        Task.dueDate (Entity.fields e), Task.status (Entity.fields e) with
  | None, Some a, Some d, TaskStatus.TODO => String.eqb a userId && (d <? now)
  | _, _, _, _ => false
  end.

(** [r'] holds no entry outside the keys [K] that [r] did not hold: going
    from [r] to [r'], entries were written at keys of [K] at most, and
    anything else was kept or deleted. *)
Definition writtenWithin (K : string -> Prop) (r r' : Redis) : Prop :=
  forall k v, ~ K k -> entries r' !! k = Some v -> entries r !! k = Some v.

(** A computation on the cache that writes at keys of [K] at most. *)
Definition cacheWrites {A : Type} (K : string -> Prop) (m : M Redis A) : Prop :=
  forall r, writtenWithin K r (snd (m r)).

(** The same for a service operation, on the cache and a store. *)
Definition writes {S A : Type} (K : string -> Prop) (m : M (Redis * S) A) : Prop :=
  forall w, writtenWithin K (fst w) (fst (snd (m w))).

Definition noKey : string -> Prop := fun _ => False.

Definition onlyKey (key : string) : string -> Prop := fun k => k = key.

(** A computation that leaves the entry of key [k] as it is. *)
Definition cacheKeeps {A : Type} (k : string) (m : M Redis A) : Prop :=
  forall r, entries (snd (m r)) !! k = entries r !! k.

Definition keeps {S A : Type} (k : string) (m : M (Redis * S) A) : Prop :=
  forall w, entries (fst (snd (m w))) !! k = entries (fst w) !! k.

(** A task store without pending faults in which no live task has the id. *)
Definition taskMissing (id : string) (t : Table Task.t) : Prop :=
  queryFaults t = []
  /\ forall e, In e (rows t) -> Entity.deletedAt e = None -> Entity.id e <> id.

(** What the soft delete ([d] the time) and the restore ([d] NULL) at time
    [now] make of a row, for the id [i]. *)
Definition marked {A : Type} (i : string) (now : Z) (d : option Z) (x : Entity.t A)
  : Entity.t A :=
  if Repository.hasId i x then
    Entity.mk (Entity.id x) (Entity.fields x) (Entity.createdAt x) now d
  else x.

(** ** Further notions used in the properties of the cache and the store *)

(** A connected Redis without pending faults. *)
Definition healthy (r : Redis) : Prop := initialized r = true /\ faults r = [].

(** The characters the KEYS command reads as part of a pattern, rather
    than as themselves. *)
Definition globSpecial (c : ascii) : bool :=
  (Ascii.eqb c "*" || Ascii.eqb c "?" || Ascii.eqb c "\" || Ascii.eqb c "[")%bool.

(** A string without pattern characters, as a UUID is. *)
Definition literal (s : string) : bool :=
  forallb (fun c => negb (globSpecial c)) (list_ascii_of_string s).

(** The keys of the cache a KEYS command with the pattern returns. *)
Definition matching (pattern : string) (r : Redis) : list string :=
  filter (fun k => matches pattern k = true) (map fst (map_to_list (entries r))).

(** The integers Redis can hold in a string. *)
Definition int64 (z : Z) : Prop := - 2 ^ 63 <= z < 2 ^ 63.

(** The integers a JavaScript number holds exactly, from
    [Number.MIN_SAFE_INTEGER] to [Number.MAX_SAFE_INTEGER]. *)
Definition safeInteger (z : Z) : Prop := - (2 ^ 53 - 1) <= z <= 2 ^ 53 - 1.

(** The cache holds none of the entries of a user: neither the user, nor
    the statistics, nor a task list under any options. *)
Definition invalidatedUser (userId : string) (r : Redis) : Prop :=
  entries r !! (CachePrefix.USER +:+ userId) = None
  /\ entries r !! (CachePrefix.TASK_STATS +:+ userId) = None
  /\ forall options,
       entries r !! (CachePrefix.USER_TASKS +:+ userId +:+ ":" +:+ options) = None.

(** The rows a page of [findAll] holds, read on the store [t]; no row when
    the query fails. *)
Definition pageOf {A : Type} `{EntityMetadata A} (t : Table A) (limit : Z)
    (w : option (FindOptionsWhere A)) (o : option (FindOptionsOrder A))
    (rels : option (list string)) (page : nat) : list (Entity.t A) :=
  match fst (BaseRepository.findAll (mkOptions (Some (Z.of_nat page)) (Some limit) w o rels) t) with
  | Ok r => data r
  | Throw _ => []
  end.

(** The columns of the user [createUser] hands to the repository. *)
Definition newUserFields (bcrypt : Bcrypt) (d : UserService.CreateUserDTO) : User.t :=
  {| User.email := UserService.email d;
     User.passwordHash := hash bcrypt (UserService.password d) UserService.SALT_ROUNDS;
     User.firstName := UserService.firstName d;
     User.lastName := UserService.lastName d;
     User.role := default UserRole.USER (UserService.role d);
     User.status := UserStatus.ACTIVE |}.

(** [verifyPassword] of [user.service.ts] *)
Definition verifyPassword (bcrypt : Bcrypt) (email password : string)
  : M (Redis * Table User.t) (option (Entity.t User.t)) :=
  try_catch
    (user <- onSnd (UserRepository.findByEmail email) ;;
     match user with
     | None => ret None
     | Some user =>
         let isValid := compare bcrypt password (User.passwordHash (Entity.fields user)) in
         if negb isValid then ret None
         else ret (Some user)
     end)
    (fun error => throw error).

(** The user [e] with another password hash. *)
Definition withPasswordHash (h : string) (e : Entity.t User.t) (now : Z) : Entity.t User.t :=
  Entity.mk (Entity.id e)
    {| User.email := User.email (Entity.fields e);
       User.passwordHash := h;
       User.firstName := User.firstName (Entity.fields e);
       User.lastName := User.lastName (Entity.fields e);
       User.role := User.role (Entity.fields e);
       User.status := User.status (Entity.fields e) |}
    (Entity.createdAt e) now None.

(** ** task.entity.ts: the helper methods of a task *)

Module TaskEntity.

(** [isOverdue()], at the time [now] that [new Date()] reads. *)
Definition isOverdue (now : Z) (e : Entity.t Task.t) : bool :=
  match Task.dueDate (Entity.fields e) with
  | None => false
  | Some dueDate =>
      (dueDate <? now)
      && negb (TaskStatus.eqb (Task.status (Entity.fields e)) TaskStatus.DONE)
  end.

(** [isAssigned()]: [!!this.assigneeId] *)
Definition isAssigned (e : Entity.t Task.t) : bool :=
  match Task.assigneeId (Entity.fields e) with
  | None => false
  | Some a => truthy a
  end.

End TaskEntity.

(** The live tasks of a user in a given status. *)
Definition countedIn (userId : string) (st : TaskStatus.t) (e : Entity.t Task.t) : bool :=
  match Entity.deletedAt e, Task.assigneeId (Entity.fields e) with
  | None, Some a => String.eqb a userId && TaskStatus.eqb (Task.status (Entity.fields e)) st
  | _, _ => false
  end.

(** ** redis.config.ts: the reconnection delays *)

(** [retryStrategy(times)]: the delay before the next attempt in
    milliseconds, or [None] ([undefined]) to stop retrying. *)
Definition retryStrategy (times : Z) : option Z :=
  let maxRetries := 3 in
  if maxRetries <? times then None
  else
    let delay := Z.min (times * 1000) 3000 in
    Some delay.

(** ** data-source.ts: connecting to the database with retries *)

(** The TypeORM data source.  [connectOutcomes] is what the next calls of
    [initialize()] will meet, attempt by attempt ([Some e]: the connection
    fails with [e]); [timers] are the delays of the [setTimeout] calls that
    were awaited, oldest first. *)
Record DataSource : Type := mkDataSource {
  isInitialized : bool;
  connectOutcomes : list (option JsError);
  timers : list Z
}.

(** [AppDataSource.initialize()] *)
Definition initialize : M DataSource unit :=
  fun ds =>
    match connectOutcomes ds with
    | Some e :: rest =>
        (Throw e, {| isInitialized := false; connectOutcomes := rest; timers := timers ds |})
    | None :: rest =>
        (Ok tt, {| isInitialized := true; connectOutcomes := rest; timers := timers ds |})
    | [] =>
        (Ok tt, {| isInitialized := true; connectOutcomes := []; timers := timers ds |})
    end.

(** [await new Promise((resolve) => setTimeout(resolve, ms))] *)
Definition setTimeout (ms : Z) : M DataSource unit :=
  fun ds =>
    (Ok tt, {| isInitialized := isInitialized ds; connectOutcomes := connectOutcomes ds;
               timers := (timers ds ++ [ms])%list |}).

(** [`${lastError?.message}`] *)
Definition messageOf (lastError : option JsError) : string :=
  match lastError with
  | Some e => message e
  | None => "undefined"
  end.

Definition connectionFailed {A : Type} (maxRetries : Z) (lastError : option JsError)
  : M DataSource A :=
  throw (Error ("Database connection failed after " +:+ printInt maxRetries
                +:+ " attempts: " +:+ messageOf lastError)).

(** The [while (retries < maxRetries)] loop of [initializeDatabase] and the
    throw that follows it.  Every iteration that does not return increments
    [retries], so the loop body runs [maxRetries] times at most; [fuel]
    bounds the iterations by that number. *)
Fixpoint connectLoop (fuel : nat) (maxRetries retries : Z) (lastError : option JsError)
  : M DataSource unit :=
  match fuel with
  | O => connectionFailed maxRetries lastError
  | Datatypes.S fuel =>
      if retries <? maxRetries then
        try_catch
          (fun ds =>
             if negb (isInitialized ds) then initialize ds else ret tt ds)
          (fun error =>
             let lastError := Some error in
             let retries := retries + 1 in
             (if retries <? maxRetries then
                let waitTime := 2 ^ retries * 1000 in
                setTimeout waitTime
              else ret tt) ;;;
             connectLoop fuel maxRetries retries lastError)
      else connectionFailed maxRetries lastError
  end.

(** [initializeDatabase(maxRetries = 3)] *)
Definition initializeDatabase (maxRetries : option Z) : M DataSource unit :=
  let maxRetries := default 3 maxRetries in
  connectLoop (Z.to_nat maxRetries) maxRetries 0 None.

(** The waits of a run of failed attempts: the attempt that brings the
    number of failures to [j] is followed by a wait of [2^j] seconds,
    unless it was the last one allowed. *)
Definition backoff (maxRetries : Z) (failures : nat) : list Z :=
  map (fun j => 2 ^ Z.of_nat j * 1000)
      (List.filter (fun j => Z.of_nat j <? maxRetries) (seq 1 failures)).

(** ** The HTTP boundary: task.controller.ts, user.controller.ts and the
    error middleware *)

Module Http.
(** The status and the JSON body of a response.  The [timestamp] of the
    body is left out, and so are the stack, path and method that the error
    handler adds to [error] in development. *)
Record response : Type := mk {
  status : Z;
  success : bool;
  data : option JsValue;
  message : option string;
  error : option string      (* [error.message] *)
}.
End Http.

(** [next(error)]: the request ends in [errorHandler], the last middleware
    of [app.ts]. *)
Definition next (error : JsError) : Http.response :=
  let '(statusCode, message) := errorHandler error in
  {| Http.status := statusCode; Http.success := false; Http.data := None;
     Http.message := None; Http.error := Some message |}.

Module TaskController.

Definition getTaskById (rt : Runtime) (id : string)
  : M (Redis * Table Task.t) Http.response :=
  try_catch
    (task <- TaskService.findById rt id ;;
     if negb (truthyValue task) then
       ret {| Http.status := 404; Http.success := false; Http.data := None;
              Http.message := None; Http.error := Some "Task not found" |}
     else
       ret {| Http.status := 200; Http.success := true; Http.data := Some task;
              Http.message := None; Http.error := None |})
    (fun error => ret (next error)).

End TaskController.

Module UserController.

Definition getUserById (rt : Runtime) (id : string)
  : M (Redis * Table User.t) Http.response :=
  try_catch
    (user <- UserService.findById rt id ;;
     if negb (truthyValue user) then
       ret {| Http.status := 404; Http.success := false; Http.data := None;
              Http.message := None; Http.error := Some "User not found" |}
     else
       ret {| Http.status := 200; Http.success := true; Http.data := Some user;
              Http.message := None; Http.error := None |})
    (fun error => ret (next error)).

End UserController.

(** A callback of the services' lookups: it returns an object or throws a
    plain [Error]. *)
Definition lookupCallback {S : Type} (callback : M S JsValue) : Prop :=
  forall s,
    match callback s with
    | (Ok v, _) => truthyValue v = true
    | (Throw e, _) => statusCode e = None
    end.

(** * Properties *)

Lemma truthy_nonempty (s : string) : s <> EmptyString -> truthy s = true.
Proof.
  intros Hs. unfold truthy. apply negb_true_iff. now apply String.eqb_neq.
Qed.

(** ** The effect monad *)

Lemma bind_ok {S A B : Type} (m : M S A) (k : A -> M S B) s a s' :
  m s = (Ok a, s') -> bind m k s = k a s'.
Proof. intros E. unfold bind. now rewrite E. Qed.

Lemma bind_throw {S A B : Type} (m : M S A) (k : A -> M S B) s e s' :
  m s = (Throw e, s') -> bind m k s = (Throw e, s').
Proof. intros E. unfold bind. now rewrite E. Qed.

Lemma try_catch_ok {S A : Type} (m : M S A) h s a s' :
  m s = (Ok a, s') -> try_catch m h s = (Ok a, s').
Proof. intros E. unfold try_catch. now rewrite E. Qed.

Lemma try_catch_throw {S A : Type} (m : M S A) h s e s' :
  m s = (Throw e, s') -> try_catch m h s = h e s'.
Proof. intros E. unfold try_catch. now rewrite E. Qed.

Lemma try_catch_rethrow {S A : Type} (m : M S A) s :
  try_catch m (fun error => throw error) s = m s.
Proof. unfold try_catch, throw. destruct (m s) as [[a|e] s']; reflexivity. Qed.

Lemma onFst_eq {S1 S2 A : Type} (m : M S1 A) (s1 : S1) (s2 : S2) :
  onFst m (s1, s2) = (fst (m s1), (snd (m s1), s2)).
Proof. unfold onFst. simpl. destruct (m s1); reflexivity. Qed.

Lemma onSnd_eq {S1 S2 A : Type} (m : M S2 A) (s1 : S1) (s2 : S2) :
  onSnd m (s1, s2) = (fst (m s2), (s1, snd (m s2))).
Proof. unfold onSnd. simpl. destruct (m s2); reflexivity. Qed.

(** ** The cache layer never fails on a read or a write *)

Lemma get_total rt key r :
  exists v r', CacheService.get rt key r = (Ok v, r').
Proof.
  unfold CacheService.get, try_catch, bind, getRedisClient, RedisClient.get, command, ret.
  destruct (initialized r); [|eauto].
  destruct (faults r) as [|[e|] rest]; simpl; eauto;
    destruct (_ !! key) as [en|]; simpl; eauto;
    destruct (truthy (value en)); simpl; eauto;
    destruct (JSON_parse rt (value en)); eauto.
Qed.

Lemma set_total rt key v ttl r :
  exists b r', CacheService.set rt key v ttl r = (Ok b, r').
Proof.
  unfold CacheService.set, try_catch, bind, getRedisClient, RedisClient.setex, command, ret.
  destruct (initialized r); [|eauto].
  destruct (faults r) as [|[e|] rest]; simpl; eauto;
    destruct (_ <=? 0); simpl; eauto.
Qed.

Lemma get_of_failure rt key r e :
  backendError r = Some e -> fst (CacheService.get rt key r) = Ok JNull.
Proof.
  unfold backendError, CacheService.get, try_catch, bind, getRedisClient,
    RedisClient.get, command, ret.
  destruct (initialized r); [|reflexivity].
  destruct (faults r) as [|[e'|] rest]; try discriminate. reflexivity.
Qed.

(** What [getOrSet] does, in terms of the read and the write. *)
Lemma getOrSet_eq rt {S : Type} key (callback : M S JsValue) ttl r s :
  CacheService.getOrSet rt key callback ttl (r, s) =
  let got := CacheService.get rt key r in
  match fst got with
  | Ok cached =>
      if notNull cached then (Ok cached, (snd got, s))
      else
        match callback s with
        | (Ok result, s1) =>
            (Ok result, (snd (CacheService.set rt key result ttl (snd got)), s1))
        | (Throw e, s1) =>
            (fst (callback s1), (snd got, snd (callback s1)))
        end
  | Throw e => (fst (callback s), (snd got, snd (callback s)))
  end.
Proof.
  unfold CacheService.getOrSet, try_catch, bind.
  rewrite onFst_eq. simpl.
  destruct (get_total rt key r) as (v & r1 & E). rewrite E. simpl.
  destruct (notNull v); [reflexivity|].
  rewrite onSnd_eq. simpl.
  destruct (callback s) as [[result|e] s1]; simpl.
  - rewrite onFst_eq.
    destruct (set_total rt key result ttl r1) as (b & r2 & E2). rewrite E2. reflexivity.
  - rewrite onSnd_eq. reflexivity.
Qed.

Lemma get_entries rt key r :
  entries (snd (CacheService.get rt key r)) = entries r.
Proof.
  unfold CacheService.get, try_catch, bind, getRedisClient, RedisClient.get, command, ret.
  destruct (initialized r); [|reflexivity].
  destruct (faults r) as [|[e|] rest]; simpl; try reflexivity;
    destruct (_ !! key) as [en|]; simpl; try reflexivity;
    destruct (truthy (value en)); simpl; try reflexivity;
    destruct (JSON_parse rt (value en)); reflexivity.
Qed.

Lemma set_of_failure rt key v ttl r e :
  backendError r = Some e ->
  fst (CacheService.set rt key v ttl r) = Ok false
  /\ entries (snd (CacheService.set rt key v ttl r)) = entries r.
Proof.
  unfold backendError, CacheService.set, try_catch, bind, getRedisClient,
    RedisClient.setex, command, ret.
  destruct (initialized r); [|split; reflexivity].
  destruct (faults r) as [|[e'|] rest]; try discriminate. split; reflexivity.
Qed.

(** The outcomes of [getOrSet], by the outcome [got] of the service's own
    read of the key. *)
Lemma getOrSet_outcomes rt {S : Type} (key : string) (callback : M S JsValue)
    (ttl : option Z) (r : Redis) (s : S) :
  let got := CacheService.get rt key r in
  let out := CacheService.getOrSet rt key (counted callback) ttl (r, (s, 0%nat)) in
  (forall cached, fst got = Ok cached -> cached <> JNull ->
     out = (Ok cached, (snd got, (s, 0%nat))))
  /\ (forall e, backendError r = Some e -> fst got = Ok JNull)
  /\ (fst got = Ok JNull ->
      (forall result s1, callback s = (Ok result, s1) ->
         fst out = Ok result /\ snd (snd out) = (s1, 1%nat))
      /\ (forall e s1, callback s = (Throw e, s1) ->
         fst out = fst (callback s1) /\ snd (snd out) = (snd (callback s1), 2%nat)))
  /\ (fst got = Ok JNull ->
      forall e, backendError (snd got) = Some e ->
      forall result s1, callback s = (Ok result, s1) ->
        fst out = Ok result /\ entries (fst (snd out)) = entries r).
Proof.
  intros got out.
  pose proof (getOrSet_eq rt key (counted callback) ttl r (s, 0%nat)) as Hout.
  fold got out in Hout. cbv zeta in Hout. unfold counted in Hout. simpl in Hout.
  pose proof (get_of_failure rt key r) as Hfail. fold got in Hfail.
  pose proof (get_entries rt key r) as Hent. fold got in Hent.
  pose proof (fun v e => set_of_failure rt key v ttl (snd got) e) as Hset.
  destruct (get_total rt key r) as (v & r1 & E). fold got in E.
  clearbody out got. subst got. simpl in *.
  split; [|split; [|split]].
  - intros c Ec Hn. inversion Ec; subst c. destruct v; simpl in *; congruence.
  - exact Hfail.
  - intros Ev. inversion Ev; subst v. simpl in Hout. split.
    + intros result s1 Ecb. rewrite Ecb in Hout. subst out. split; reflexivity.
    + intros e s1 Ecb. rewrite Ecb in Hout. simpl in Hout. subst out. simpl.
      destruct (callback s1); split; reflexivity.
  - intros Ev e Hw result s1 Ecb. inversion Ev; subst v. simpl in Hout.
    rewrite Ecb in Hout. subst out. simpl. split; [reflexivity|].
    destruct (Hset result e Hw) as [_ Es]. congruence.
Qed.

(** The read of a key whose entry is a non-empty text: the text is decoded,
    and a text that is not JSON is returned as it is. *)
Lemma get_of_entry rt key r en :
  initialized r = true ->
  faults r = [] ->
  entries r !! key = Some en ->
  truthy (value en) = true ->
  CacheService.get rt key r =
    (Ok (match JSON_parse rt (value en) with
         | Some parsed => parsed
         | None => JStr (value en)
         end), r).
Proof.
  intros Hi Hf He Ht.
  unfold CacheService.get, try_catch, bind, getRedisClient, RedisClient.get, command, ret.
  rewrite Hi, Hf. simpl. rewrite He. simpl. rewrite Ht. simpl.
  destruct (JSON_parse rt (value en)); reflexivity.
Qed.

(** An entry whose text is empty, or decodes to null, is read as a miss. *)
Lemma get_of_silent_entry rt key r en :
  initialized r = true ->
  faults r = [] ->
  entries r !! key = Some en ->
  value en = EmptyString \/ JSON_parse rt (value en) = Some JNull ->
  CacheService.get rt key r = (Ok JNull, r).
Proof.
  intros Hi Hf He Hs.
  destruct (truthy (value en)) eqn:Ht.
  - rewrite (get_of_entry rt key r en Hi Hf He Ht).
    destruct Hs as [Hs| ->]; [|reflexivity].
    rewrite Hs in Ht. discriminate.
  - unfold CacheService.get, try_catch, bind, getRedisClient, RedisClient.get, command, ret.
    rewrite Hi, Hf. simpl. rewrite He. simpl. now rewrite Ht.
Qed.

(** C2, the original statement fails: the cache can hold a value for the
    key and [getOrSet] invoke the producer all the same.  An entry whose
    text is [null], which [getOrSet] itself writes when a producer returns
    null, is in the cache, and so is an entry with an empty text; both are
    read as a miss, the producer runs and its result is returned. *)
Lemma getOrSet_held_entry_runs_producer :
  entries (Example.redis [("k", "null")]) !! "k" = Some (mkEntry "null" (Some 60))
  /\ CacheService.getOrSet Example.runtime "k" (counted Example.counter) (Some 60)
       (Example.redis [("k", "null")], (5%nat, 0%nat))
     = (Ok (JNum 5), (Example.redis [("k", "5")], (6%nat, 1%nat)))
  /\ entries (Example.redis [("k", EmptyString)]) !! "k"
     = Some (mkEntry EmptyString (Some 60))
  /\ CacheService.getOrSet Example.runtime "k" (counted Example.counter) (Some 60)
       (Example.redis [("k", EmptyString)], (5%nat, 0%nat))
     = (Ok (JNum 5), (Example.redis [("k", "5")], (6%nat, 1%nat))).
Proof.
  split; [vm_compute; reflexivity|].
  split; [vm_compute; reflexivity|].
  split; vm_compute; reflexivity.
Qed.

(** C2, as the code has it.  The cache-aside primitive.  Let [got] be the
    service's own read of the key.  (1) When the read yields a value that
    is not null, [getOrSet] returns that value, the callback is not invoked
    (its counter stays 0 and its state is untouched) and the only effect on
    the cache is the read.  (2) A backend failure of the read is a miss.
    (3) On a miss the callback is invoked and its result is returned: the
    result of the first invocation when it returns, and the outcome of a
    second invocation when the first one throws.  (4) When the write that
    follows a returning callback fails, the value returned is still the
    callback's result and the cache is left as it was.  (5) In terms of the
    backend: on a healthy cache whose entry for the key is a non-empty text
    that decodes to a value other than null, that value is returned and the
    callback is not invoked.  (6) An entry does not suffice for a hit: on a
    healthy cache whose entry for the key has an empty text or a text that
    decodes to null, the read is a miss, the callback is invoked and its
    result is returned. *)
Theorem getOrSet_cache_aside rt {S : Type} (key : string) (callback : M S JsValue)
    (ttl : option Z) (r : Redis) (s : S) :
  let got := CacheService.get rt key r in
  let out := CacheService.getOrSet rt key (counted callback) ttl (r, (s, 0%nat)) in
  (forall cached, fst got = Ok cached -> cached <> JNull ->
     out = (Ok cached, (snd got, (s, 0%nat))))
  /\ (forall e, backendError r = Some e -> fst got = Ok JNull)
  /\ (fst got = Ok JNull ->
      (forall result s1, callback s = (Ok result, s1) ->
         fst out = Ok result /\ snd (snd out) = (s1, 1%nat))
      /\ (forall e s1, callback s = (Throw e, s1) ->
         fst out = fst (callback s1) /\ snd (snd out) = (snd (callback s1), 2%nat)))
  /\ (fst got = Ok JNull ->
      forall e, backendError (snd got) = Some e ->
      forall result s1, callback s = (Ok result, s1) ->
        fst out = Ok result /\ entries (fst (snd out)) = entries r)
  /\ (forall en,
        initialized r = true -> faults r = [] ->
        entries r !! key = Some en -> value en <> EmptyString ->
        let decoded := match JSON_parse rt (value en) with
                       | Some parsed => parsed
                       | None => JStr (value en)
                       end in
        decoded <> JNull ->
        out = (Ok decoded, (r, (s, 0%nat))))
  /\ (forall en,
        initialized r = true -> faults r = [] ->
        entries r !! key = Some en ->
        value en = EmptyString \/ JSON_parse rt (value en) = Some JNull ->
        fst got = Ok JNull
        /\ (forall result s1, callback s = (Ok result, s1) ->
              fst out = Ok result /\ snd (snd out) = (s1, 1%nat))
        /\ (forall e s1, callback s = (Throw e, s1) ->
              fst out = fst (callback s1)
              /\ snd (snd out) = (snd (callback s1), 2%nat))).
Proof.
  intros got out.
  destruct (getOrSet_outcomes rt key callback ttl r s) as (H1 & H2 & H3 & H4).
  fold got out in H1, H3, H4. fold got in H2.
  split; [exact H1|]. split; [exact H2|]. split; [exact H3|]. split; [exact H4|].
  split.
  - intros en Hi Hf He Hv decoded Hd.
    pose proof (get_of_entry rt key r en Hi Hf He (truthy_nonempty _ Hv)) as Hg.
    fold decoded got in Hg.
    rewrite (H1 decoded); [now rewrite Hg | now rewrite Hg | exact Hd].
  - intros en Hi Hf He Hs.
    pose proof (get_of_silent_entry rt key r en Hi Hf He Hs) as Hg. fold got in Hg.
    assert (Hmiss : fst got = Ok JNull) by (now rewrite Hg).
    split; [exact Hmiss|]. exact (H3 Hmiss).
Qed.

Lemma getOrSet_cache_aside_witness :
  CacheService.getOrSet Example.runtime "k" (counted Example.counter) None
    (Example.redis [("k", "41")], (5%nat, 0%nat))
  = (Ok (JNum 41), (Example.redis [("k", "41")], (5%nat, 0%nat)))
  /\ fst (CacheService.getOrSet Example.runtime "k" (counted Example.counter) None
            (Example.redis [], (5%nat, 0%nat))) = Ok (JNum 5)
  /\ snd (snd (CacheService.getOrSet Example.runtime "k" (counted Example.counter) None
                 (Example.redis [], (5%nat, 0%nat)))) = (6%nat, 1%nat)
  /\ fst (CacheService.getOrSet Example.runtime "k" (counted Example.counter) None
            (Example.brokenRedis [("k", "41")], (5%nat, 0%nat))) = Ok (JNum 5)
  /\ fst (CacheService.getOrSet Example.runtime "k" (counted Example.counter) None
            (Example.redis [("k", "null")], (5%nat, 0%nat))) = Ok (JNum 5)
  /\ snd (snd (CacheService.getOrSet Example.runtime "k" (counted Example.counter) None
                 (Example.redis [("k", "null")], (5%nat, 0%nat)))) = (6%nat, 1%nat).
Proof.
  pose proof (getOrSet_cache_aside Example.runtime "k" Example.counter None
                (Example.redis [("k", "41")]) 5%nat) as Hhit.
  pose proof (getOrSet_cache_aside Example.runtime "k" Example.counter None
                (Example.redis []) 5%nat) as Hmiss.
  pose proof (getOrSet_cache_aside Example.runtime "k" Example.counter None
                (Example.brokenRedis [("k", "41")]) 5%nat) as Hdown.
  pose proof (getOrSet_cache_aside Example.runtime "k" Example.counter None
                (Example.redis [("k", "null")]) 5%nat) as Hnull.
  cbv zeta in Hhit, Hmiss, Hdown, Hnull.
  destruct Hhit as [Hhit _]. destruct Hmiss as (_ & _ & Hmiss & _).
  destruct Hdown as (_ & Hread & _ & Hdown & _).
  destruct Hnull as (_ & _ & _ & _ & _ & Hnull).
  destruct (Hmiss eq_refl) as [Hm _]. destruct (Hm (JNum 5) 6%nat eq_refl) as [Hm1 Hm2].
  destruct (Hnull (mkEntry "null" (Some 60)) eq_refl eq_refl eq_refl
              (or_intror eq_refl)) as (_ & Hn & _).
  destruct (Hn (JNum 5) 6%nat eq_refl) as [Hn1 Hn2].
  split; [exact (Hhit (JNum 41) eq_refl ltac:(discriminate))|].
  split; [exact Hm1|]. split; [exact Hm2|].
  split; [|split; [exact Hn1 | exact Hn2]].
  exact (proj1 (Hdown (Hread (ReplyError "Connection is closed.") eq_refl)
                  (ReplyError "Connection is closed.") eq_refl
                  (JNum 5) 6%nat eq_refl)).
Defined.

Lemma selected_hasId_missing {A : Type} id (t : Table A) :
  (forall e, In e (rows t) -> Entity.deletedAt e = None -> Entity.id e <> id) ->
  Repository.selected (Some (Repository.hasId id)) t = [].
Proof.
  intros Hm. unfold Repository.selected.
  induction (rows t) as [|x l IH]; [reflexivity|]. simpl.
  assert (Hx : Repository.live x && Repository.hasId id x = false).
  { unfold Repository.live, Repository.hasId, Repository.whereOrAll.
    destruct (Entity.deletedAt x) eqn:Ed; [reflexivity|]. simpl.
    apply String.eqb_neq. apply Hm; [now left | exact Ed]. }
  simpl in Hx. rewrite Hx. apply IH. intros e He. apply Hm. now right.
Qed.

Lemma findByIdWithRelations_missing id (t : Table Task.t) :
  taskMissing id t ->
  TaskRepository.findByIdWithRelations id t = (Ok None, Repository.tick [] t).
Proof.
  intros [Hf Hm].
  unfold TaskRepository.findByIdWithRelations, try_catch, Repository.findOne,
    Repository.statement.
  rewrite Hf. rewrite (selected_hasId_missing id t Hm). reflexivity.
Qed.

Lemma findById_callback_missing id (t : Table Task.t) :
  taskMissing id t ->
  bind (TaskRepository.findByIdWithRelations id)
    (fun task =>
       match task with
       | None => throw (Error ("Task with id " +:+ id +:+ " not found"))
       | Some task => ret (Task.toValue task)
       end) t
  = (Throw (Error ("Task with id " +:+ id +:+ " not found")), Repository.tick [] t).
Proof.
  intros Ht. rewrite (bind_ok _ _ _ _ _ (findByIdWithRelations_missing id t Ht)).
  reflexivity.
Qed.

(** C9.  When the read of the key is a miss and the callback throws on its
    first invocation, [getOrSet] catches the error and invokes the callback a
    second time: the outcome of the call is the outcome of that second
    invocation (its result, or its error), the callback has run twice, and
    the entries of the cache are what they were.  In particular the
    read-through of [TaskService.findById] for an id that no live task has
    sends the lookup to the store twice (two statements) and throws the
    callback's error, on a miss, with nothing written to the cache. *)
Theorem getOrSet_callback_throws rt {S : Type} (key : string) (callback : M S JsValue)
    (ttl : option Z) (r : Redis) (s s1 : S) (e : JsError) :
  fst (CacheService.get rt key r) = Ok JNull ->
  callback s = (Throw e, s1) ->
  let out := CacheService.getOrSet rt key (counted callback) ttl (r, (s, 0%nat)) in
  fst out = fst (callback s1)
  /\ snd (snd out) = (snd (callback s1), 2%nat)
  /\ entries (fst (snd out)) = entries r
  /\ (forall id t,
        taskMissing id t ->
        fst (CacheService.get rt (CachePrefix.TASK +:+ id) r) = Ok JNull ->
        let found := TaskService.findById rt id (r, t) in
        fst found = Throw (Error ("Task with id " +:+ id +:+ " not found"))
        /\ snd (snd found) = Repository.tick [] (Repository.tick [] t)
        /\ entries (fst (snd found)) = entries r).
Proof.
  intros Hmiss Hcb out.
  assert (Hout : out = (fst (callback s1), (snd (CacheService.get rt key r),
                                            (snd (callback s1), 2%nat)))).
  { subst out. rewrite getOrSet_eq. cbv zeta. rewrite Hmiss. simpl.
    unfold counted. simpl. rewrite Hcb. simpl. destruct (callback s1); reflexivity. }
  split; [now rewrite Hout|]. split; [now rewrite Hout|]. split.
  - rewrite Hout. simpl. apply get_entries.
  - intros id t Ht Hm found. subst found.
    unfold TaskService.findById. rewrite try_catch_rethrow.
    rewrite getOrSet_eq. cbv zeta. rewrite Hm. simpl notNull. cbv iota.
    assert (Ht' : taskMissing id (Repository.tick [] t)).
    { destruct Ht as [Hf Hr]. split; [reflexivity | exact Hr]. }
    rewrite (findById_callback_missing id t Ht).
    rewrite (findById_callback_missing id _ Ht').
    simpl. repeat split. apply get_entries.
Qed.


Lemma try_catch_fallback_total {S A : Type} (m : M S A) (fallback : A) s :
  exists v s', try_catch m (fun error => ret fallback) s = (Ok v, s').
Proof.
  unfold try_catch, ret. destruct (m s) as [[a|e] s']; eauto.
Qed.



(** ** Pagination *)

Section Pagination.
Context {A : Type} `{EntityMetadata A}.

Lemma insertSorted_perm (le : FindOptionsOrder A) e l :
  Permutation (Repository.insertSorted le e l) (e :: l).
Proof.
  induction l as [|x l IH]; simpl; [reflexivity|].
  destruct (le e x); [reflexivity|].
  rewrite IH. apply perm_swap.
Qed.

Lemma ordered_perm (o : option (FindOptionsOrder A)) l :
  Permutation (Repository.ordered o l) l.
Proof.
  destruct o as [le|]; simpl; [|reflexivity].
  induction l as [|x l IH]; simpl; [reflexivity|].
  rewrite insertSorted_perm. now constructor.
Qed.

Lemma selected_In (w : option (FindOptionsWhere A)) (t : Table A) e :
  In e (Repository.selected w t) <->
  In e (rows t) /\ Entity.deletedAt e = None /\ Repository.whereOrAll w e = true.
Proof.
  unfold Repository.selected. rewrite filter_In, andb_true_iff.
  unfold Repository.live. destruct (Entity.deletedAt e); intuition congruence.
Qed.

Lemma ceilDiv_spec total limit :
  0 < limit ->
  (ceilDiv total limit - 1) * limit < total <= ceilDiv total limit * limit.
Proof.
  intros Hl. unfold ceilDiv.
  pose proof (Z.div_mod (- total) limit ltac:(lia)) as Hd.
  pose proof (Z.mod_pos_bound (- total) limit Hl) as Hm.
  nia.
Qed.

(** With a healthy store and a page and a limit of at least 1, [findAll]
    returns the requested window of the matching rows. *)
Lemma findAll_eq (t : Table A) (p l : Z) w o rels :
  1 <= p -> 1 <= l -> queryFaults t = [] ->
  BaseRepository.findAll (mkOptions (Some p) (Some l) w o rels) t =
  let all := Repository.ordered o (Repository.selected w t) in
  let total := Z.of_nat (length all) in
  (Ok {| data := firstn (Z.to_nat l) (skipn (Z.to_nat ((p - 1) * l)) all);
         pagination := {| Pagination.page := p;
                          Pagination.limit := l;
                          Pagination.total := total;
                          Pagination.totalPages := ceilDiv total l;
                          Pagination.hasNext := p <? ceilDiv total l;
                          Pagination.hasPrevious := 1 <? p |} |},
   Repository.tick [] t).
Proof.
  intros Hp Hl Hf.
  unfold BaseRepository.findAll, try_catch, bind, Repository.findAndCount,
    Repository.statement, orDefault, ret. simpl.
  rewrite Hf.
  destruct (p =? 0) eqn:E0; [lia|]. destruct (l =? 0) eqn:E1; [lia|].
  destruct ((p - 1) * l <? 0) eqn:E2; [nia|]. destruct (l <? 0) eqn:E3; [lia|].
  reflexivity.
Qed.

End Pagination.

Lemma firstn_In {X : Type} (n : nat) (l : list X) x : In x (firstn n l) -> In x l.
Proof.
  intros Hx. rewrite <- (firstn_skipn n l). apply in_or_app. now left.
Qed.

Lemma skipn_In {X : Type} (n : nat) (l : list X) x : In x (skipn n l) -> In x l.
Proof.
  intros Hx. rewrite <- (firstn_skipn n l). apply in_or_app. now right.
Qed.

(** C4.  On a healthy store, for every page >= 1 and limit >= 1 (the spec's
    domain of [limit]), [findAll] skips [(page-1)*limit] of the matching
    rows and returns the next ones, at most [limit] of them; every returned
    row is a row of the table that is not soft-deleted and satisfies the
    filter; [total] is the number of such rows, [totalPages] is the ceiling
    of [total/limit], [hasNext] is [page < totalPages] and [hasPrevious] is
    [page > 1].  With 25 matching rows and limit 10: page 1 has 10 items,
    a next and no previous page; page 3 has 5 items, no next and a previous
    page; page 4 has no item, and there are 3 pages. *)
Theorem findAll_pagination {A : Type} `{EntityMetadata A} (t : Table A) (p l : Z)
    (w : option (FindOptionsWhere A)) (o : option (FindOptionsOrder A))
    (rels : option (list string)) :
  1 <= p -> 1 <= l -> queryFaults t = [] ->
  let matching := Repository.ordered o (Repository.selected w t) in
  let total := Z.of_nat (length (Repository.selected w t)) in
  exists r t',
    BaseRepository.findAll (mkOptions (Some p) (Some l) w o rels) t = (Ok r, t')
    /\ data r = firstn (Z.to_nat l) (skipn (Z.to_nat ((p - 1) * l)) matching)
    /\ Z.of_nat (length (data r)) <= l
    /\ Z.of_nat (length (data r)) = Z.max 0 (Z.min l (total - (p - 1) * l))
    /\ (forall e, In e (data r) ->
          In e (rows t) /\ Entity.deletedAt e = None /\ Repository.whereOrAll w e = true)
    /\ Pagination.total (pagination r) = total
    /\ (Pagination.totalPages (pagination r) - 1) * l < total
         <= Pagination.totalPages (pagination r) * l
    /\ Pagination.hasNext (pagination r) = (p <? Pagination.totalPages (pagination r))
    /\ Pagination.hasPrevious (pagination r) = (1 <? p)
    /\ (total = 25 -> l = 10 ->
        (p = 1 -> length (data r) = 10%nat
                  /\ Pagination.hasNext (pagination r) = true
                  /\ Pagination.hasPrevious (pagination r) = false)
        /\ (p = 3 -> length (data r) = 5%nat
                  /\ Pagination.hasNext (pagination r) = false
                  /\ Pagination.hasPrevious (pagination r) = true)
        /\ (p = 4 -> length (data r) = 0%nat
                  /\ Pagination.totalPages (pagination r) = 3)).
Proof.
  intros Hp Hl Hf matching total.
  rewrite (findAll_eq t p l w o rels Hp Hl Hf). cbv zeta. fold matching.
  assert (Hlen : length matching = length (Repository.selected w t)).
  { apply Permutation_length, ordered_perm. }
  rewrite Hlen. fold total.
  eexists _, _. split; [reflexivity|]. simpl.
  assert (Hn : Z.of_nat (length (firstn (Z.to_nat l) (skipn (Z.to_nat ((p - 1) * l)) matching)))
               = Z.max 0 (Z.min l (total - (p - 1) * l))).
  { rewrite length_firstn, length_skipn, Hlen. subst total. nia. }
  pose proof (ceilDiv_spec total l ltac:(lia)) as Hc.
  split; [reflexivity|]. split; [lia|]. split; [exact Hn|]. split.
  { intros e He. apply (selected_In w t e).
    apply (Permutation_in e (ordered_perm o _)).
    fold matching. eapply skipn_In, firstn_In, He. }
  split; [reflexivity|]. split; [exact Hc|]. split; [reflexivity|]. split; [reflexivity|].
  intros Ht El. rewrite Ht, El in *.
  assert (Ec : ceilDiv 25 10 = 3) by reflexivity. rewrite Ec.
  repeat split; subst p; try reflexivity; lia.
Qed.

Lemma findAll_pagination_witness :
  exists r t',
    BaseRepository.findAll (mkOptions (Some 3) (Some 10) None None None) Example.tasks25
      = (Ok r, t')
    /\ length (data r) = 5%nat
    /\ Pagination.hasNext (pagination r) = false
    /\ Pagination.hasPrevious (pagination r) = true.
Proof.
  destruct (findAll_pagination Example.tasks25 3 10 None None None
              ltac:(lia) ltac:(lia) eq_refl)
    as (r & t' & E & _ & _ & _ & _ & _ & _ & _ & _ & H25).
  destruct (H25 eq_refl eq_refl) as (_ & H3 & _).
  exists r, t'. split; [exact E | exact (H3 eq_refl)].
Defined.

(** ** Soft delete and restore *)

Section SoftDelete.
Context {A : Type} `{EntityMetadata A}.

Lemma hasId_true (i : string) (e : Entity.t A) :
  Repository.hasId i e = true <-> Entity.id e = i.
Proof. unfold Repository.hasId. apply String.eqb_eq. Qed.

Lemma hasId_false (i : string) (e : Entity.t A) :
  Repository.hasId i e = false <-> Entity.id e <> i.
Proof. unfold Repository.hasId. apply String.eqb_neq. Qed.

Lemma findById_eq (i : string) (t : Table A) :
  queryFaults t = [] ->
  BaseRepository.findById i t =
    (Ok (head (Repository.selected (Some (Repository.hasId i)) t)), Repository.tick [] t).
Proof.
  intros Hf.
  unfold BaseRepository.findById, try_catch, bind, Repository.findOne,
    Repository.statement, ret.
  now rewrite Hf.
Qed.

(** The rows [findAll] returns are live rows of the table, whatever the
    options. *)
Lemma findAll_data_live (options : PaginationOptions A) (t t' : Table A) r :
  BaseRepository.findAll options t = (Ok r, t') ->
  forall x, In x (data r) ->
    In x (rows t) /\ Entity.deletedAt x = None
    /\ Repository.whereOrAll (where_ options) x = true.
Proof.
  unfold BaseRepository.findAll, try_catch, bind, Repository.findAndCount,
    Repository.statement, rethrow, throw, ret.
  intros E x Hx.
  assert (Hsel : forall l, In x (firstn (Z.to_nat (orDefault (limit options) 10))
                    (skipn (Z.to_nat ((orDefault (page options) 1 - 1)
                                      * orDefault (limit options) 10))
                       (Repository.ordered (order options)
                          (Repository.selected (where_ options) l)))) ->
                 In x (rows l) /\ Entity.deletedAt x = None
                 /\ Repository.whereOrAll (where_ options) x = true).
  { intros l Hl. apply firstn_In, skipn_In in Hl.
    apply (Permutation_in x (ordered_perm _ _)) in Hl.
    now apply selected_In in Hl. }
  destruct (queryFaults t) as [|[e|] rest]; simpl in E.
  - destruct (_ <? 0); [discriminate|]. destruct (_ <? 0); [discriminate|].
    inversion E; subst r t'. simpl in Hx. now apply Hsel.
  - discriminate.
  - destruct (_ <? 0); [discriminate|]. destruct (_ <? 0); [discriminate|].
    inversion E; subst r t'. simpl in Hx. now apply Hsel.
Qed.

Lemma softDelete_eq (i : string) (t : Table A) :
  i <> EmptyString ->
  queryFaults t = [] ->
  BaseRepository.softDelete i t =
    (Ok (existsb (Repository.hasId i) (rows t)),
     Repository.tick [] (Repository.withRows
                           (map (marked i (clock t) (Some (clock t))) (rows t)) t)).
Proof.
  intros Hi Hf.
  unfold BaseRepository.softDelete, try_catch, bind, Repository.softDelete,
    Repository.statement, ret, orDefault, Repository.affectedBy.
  rewrite (truthy_nonempty i Hi), Hf. simpl. f_equal. f_equal.
  induction (rows t) as [|x l IH]; [reflexivity|]. simpl.
  destruct (Repository.hasId i x); simpl; [|exact IH].
  apply Z.ltb_lt. lia.
Qed.

Lemma restore_eq (i : string) (t : Table A) :
  i <> EmptyString ->
  queryFaults t = [] ->
  BaseRepository.restore i t =
    (Ok (existsb (Repository.hasId i) (rows t)),
     Repository.tick [] (Repository.withRows
                           (map (marked i (clock t) None) (rows t)) t)).
Proof.
  intros Hi Hf.
  unfold BaseRepository.restore, try_catch, bind, Repository.restore,
    Repository.statement, ret, orDefault, Repository.affectedBy.
  rewrite (truthy_nonempty i Hi), Hf. simpl. f_equal. f_equal.
  induction (rows t) as [|x l IH]; [reflexivity|]. simpl.
  destruct (Repository.hasId i x); simpl; [|exact IH].
  apply Z.ltb_lt. lia.
Qed.

Lemma marked_id i now d (x : Entity.t A) : Entity.id (marked i now d x) = Entity.id x.
Proof. unfold marked. now destruct (Repository.hasId i x). Qed.

Lemma existsb_hasId_In i (l : list (Entity.t A)) e :
  In e l -> Entity.id e = i -> existsb (Repository.hasId i) l = true.
Proof.
  intros Hin Hid. apply existsb_exists. exists e. split; [exact Hin|].
  now apply hasId_true.
Qed.

(** After the soft delete no row with the id is selected. *)
Lemma selected_after_softDelete i now w (l : list (Entity.t A)) :
  forall x,
    In x (List.filter (fun e => Repository.live e && Repository.whereOrAll w e)
            (map (marked i now (Some now)) l)) ->
    Entity.id x <> i.
Proof.
  intros x Hx. apply filter_In in Hx. destruct Hx as [Hin Hl].
  apply in_map_iff in Hin. destruct Hin as (y & Ey & _). subst x.
  unfold marked in *. destruct (Repository.hasId i y) eqn:Ei.
  - simpl in Hl. discriminate.
  - now apply hasId_false.
Qed.

Lemma no_row_selected i (p : Entity.t A -> bool) (g : Entity.t A -> Entity.t A)
    (l : list (Entity.t A)) :
  (forall x, Entity.id (g x) = Entity.id x) ->
  (forall x, In x l -> Entity.id x <> i) ->
  List.filter (fun x => p x && Repository.hasId i x) (map g l) = [].
Proof.
  intros Hg Hl. induction l as [|x l IH]; [reflexivity|]. simpl.
  assert (Ex : Repository.hasId i (g x) = false).
  { apply hasId_false. rewrite Hg. apply Hl. now left. }
  rewrite Ex, andb_false_r. apply IH. intros y Hy. apply Hl. now right.
Qed.

Lemma marked_hit i now d (x : Entity.t A) :
  Entity.id x = i ->
  marked i now d x = Entity.mk i (Entity.fields x) (Entity.createdAt x) now d.
Proof.
  intros E. unfold marked. rewrite (proj2 (hasId_true i x) E). now rewrite E.
Qed.

Lemma marked_miss i now d (x : Entity.t A) :
  Entity.id x <> i -> marked i now d x = x.
Proof.
  intros E. unfold marked. now rewrite (proj2 (hasId_false i x) E).
Qed.

(** With unique ids, the restored row is the one [findById] selects. *)
Lemma selected_after_restore i now now' (l : list (Entity.t A)) e :
  List.NoDup (map Entity.id l) -> In e l -> Entity.id e = i ->
  List.filter (fun x => Repository.live x && Repository.hasId i x)
    (map (fun x => marked i now' None (marked i now (Some now) x)) l)
  = [Entity.mk i (Entity.fields e) (Entity.createdAt e) now' None].
Proof.
  intros Hnd Hin Hid. induction l as [|x l IH]; [destruct Hin|].
  simpl in Hnd. inversion Hnd as [|? ? Hx Hnd']; subst.
  simpl. destruct Hin as [-> | Hin].
  - rewrite (marked_hit _ now (Some now) e eq_refl).
    rewrite (marked_hit (Entity.id e) now' None) by reflexivity. simpl.
    unfold Repository.hasId. simpl. rewrite String.eqb_refl.
    f_equal. apply (no_row_selected (Entity.id e) Repository.live).
    + intros x. now rewrite !marked_id.
    + intros x Hxin Hxe. apply Hx. rewrite <- Hxe. now apply in_map.
  - assert (Ex : Entity.id x <> Entity.id e).
    { intros Hxe. apply Hx. rewrite Hxe. now apply in_map. }
    rewrite (marked_miss _ now (Some now) x Ex), (marked_miss _ now' None x Ex).
    rewrite (proj2 (hasId_false _ x) Ex), andb_false_r.
    now apply IH.
Qed.

End SoftDelete.

Lemma selected_unique {A : Type} (l : list (Entity.t A)) (e : Entity.t A) :
  List.NoDup (map Entity.id l) -> In e l -> Entity.deletedAt e = None ->
  List.filter (fun x => Repository.live x && Repository.hasId (Entity.id e) x) l = [e].
Proof.
  intros Hnd Hin Hlive. induction l as [|x l IH]; [destruct Hin|].
  simpl in Hnd. inversion Hnd as [|? ? Hx Hnd']; subst.
  simpl. destruct Hin as [-> | Hin].
  - unfold Repository.live at 1. rewrite Hlive.
    unfold Repository.hasId at 1. rewrite String.eqb_refl. simpl. f_equal.
    rewrite <- (map_id l) at 1.
    apply (no_row_selected (Entity.id e) Repository.live (fun x => x)); [reflexivity|].
    intros x Hxin Hxe. apply Hx. rewrite <- Hxe. now apply in_map.
  - assert (Ex : Entity.id x <> Entity.id e).
    { intros Hxe. apply Hx. rewrite Hxe. now apply in_map. }
    rewrite (proj2 (hasId_false _ x) Ex), andb_false_r. now apply IH.
Qed.

(** C5.  On a healthy store whose ids are unique (the primary key) and
    not empty, for every live record [e]: [findById] finds it; [softDelete] of its id
    succeeds; afterwards [findById] returns nothing and no page of [findAll],
    whatever the options, contains a row with that id; a following
    [restore] succeeds, and [findById] then returns the record again with
    its id, its own columns and its creation date as they were before the
    delete, and no delete date. *)
Theorem softDelete_then_restore {A : Type} `{EntityMetadata A} (t : Table A)
    (e : Entity.t A) :
  queryFaults t = [] ->
  List.NoDup (map Entity.id (rows t)) ->
  In e (rows t) ->
  Entity.id e <> EmptyString ->
  Entity.deletedAt e = None ->
  fst (BaseRepository.findById (Entity.id e) t) = Ok (Some e)
  /\ exists t1,
      BaseRepository.softDelete (Entity.id e) t = (Ok true, t1)
      /\ fst (BaseRepository.findById (Entity.id e) t1) = Ok None
      /\ (forall options r t',
            BaseRepository.findAll options t1 = (Ok r, t') ->
            forall x, In x (data r) -> Entity.id x <> Entity.id e)
      /\ exists t2 e',
          BaseRepository.restore (Entity.id e) t1 = (Ok true, t2)
          /\ fst (BaseRepository.findById (Entity.id e) t2) = Ok (Some e')
          /\ Entity.id e' = Entity.id e
          /\ Entity.fields e' = Entity.fields e
          /\ Entity.createdAt e' = Entity.createdAt e
          /\ Entity.deletedAt e' = None.
Proof.
  intros Hf Hnd Hin Hid Hlive. split.
  { rewrite (findById_eq _ t Hf). simpl. unfold Repository.selected. simpl.
    now rewrite (selected_unique (rows t) e Hnd Hin Hlive). }
  rewrite (softDelete_eq _ t Hid Hf).
  rewrite (existsb_hasId_In _ _ e Hin eq_refl).
  eexists. split; [reflexivity|]. split.
  { rewrite findById_eq by reflexivity. simpl. unfold Repository.selected. simpl.
    destruct (List.filter _ _) as [|x l] eqn:E; [reflexivity|]. exfalso.
    assert (Hx : In x (x :: l)) by now left. rewrite <- E in Hx.
    pose proof (selected_after_softDelete (Entity.id e) (clock t)
                  (Some (Repository.hasId (Entity.id e))) (rows t) x Hx) as Hne.
    apply filter_In in Hx. destruct Hx as [_ Hx].
    apply andb_true_iff in Hx. destruct Hx as [_ Hx].
    now apply hasId_true in Hx. }
  split.
  { intros options r t' E x Hx.
    destruct (findAll_data_live options _ _ r E x Hx) as (Hrow & Hl & _).
    simpl in Hrow. apply in_map_iff in Hrow. destruct Hrow as (y & Ey & _).
    subst x. unfold marked in *. destruct (Repository.hasId (Entity.id e) y) eqn:Ei.
    - simpl in Hl. discriminate.
    - now apply hasId_false. }
  rewrite (restore_eq _ _ Hid) by reflexivity. simpl.
  rewrite (existsb_hasId_In (Entity.id e) _
             (marked (Entity.id e) (clock t) (Some (clock t)) e)).
  2: { now apply in_map. }
  2: { apply marked_id. }
  eexists _, _. split; [reflexivity|].
  rewrite findById_eq by reflexivity. simpl. unfold Repository.selected. simpl.
  rewrite map_map.
  rewrite (selected_after_restore (Entity.id e) (clock t) (clock t + 1) (rows t) e
             Hnd Hin eq_refl).
  simpl. repeat split.
Qed.

Lemma softDelete_then_restore_witness :
  fst (BaseRepository.findById "task-a" Example.tasks) = Ok (Some Example.taskA)
  /\ exists t1,
      BaseRepository.softDelete "task-a" Example.tasks = (Ok true, t1)
      /\ fst (BaseRepository.findById "task-a" t1) = Ok None
      /\ exists t2 e',
          BaseRepository.restore "task-a" t1 = (Ok true, t2)
          /\ fst (BaseRepository.findById "task-a" t2) = Ok (Some e')
          /\ Entity.fields e' = Entity.fields Example.taskA.
Proof.
  assert (Hnd : List.NoDup (map Entity.id (rows Example.tasks))).
  { simpl. repeat constructor; simpl; intuition discriminate. }
  destruct (softDelete_then_restore Example.tasks Example.taskA eq_refl Hnd
              (or_introl eq_refl) ltac:(discriminate) eq_refl)
    as (H0 & t1 & H1 & H2 & _ & t2 & e' & H3 & H4 & _ & H5 & _).
  split; [exact H0|]. exists t1. split; [exact H1|]. split; [exact H2|].
  exists t2, e'. auto.
Defined.

(** ** Restore of a row that is not soft-deleted *)

(** C7, the original statement fails: the row "task-a" is live, and
    [restore] of its id returns true and changes the row (its update date
    moves from 100 to the time of the statement). *)
Lemma restore_live_row_returns_true :
  In Example.taskA (rows Example.tasks)
  /\ Entity.deletedAt Example.taskA = None
  /\ fst (BaseRepository.restore "task-a" Example.tasks) = Ok true
  /\ rows (snd (BaseRepository.restore "task-a" Example.tasks))
     = [Entity.mk "task-a" (Entity.fields Example.taskA) 100 1000 None;
        Example.taskB; Example.taskC]
  /\ rows (snd (BaseRepository.restore "task-a" Example.tasks)) <> rows Example.tasks.
Proof.
  split; [now left|]. split; [reflexivity|]. split; [reflexivity|].
  split; [reflexivity|]. discriminate.
Qed.

(** C7, as the code has it.  On a healthy store, [restore] of an id (not
    the empty string, which is refused) returns true exactly when the table has a row with that id, soft-deleted
    or not.  Every row with the id has its delete date cleared and its
    update date set to the time of the statement, its other columns kept;
    the other rows are left as they are.  When no row has the id, [restore]
    returns false and the rows are unchanged. *)
Theorem restore_affects_rows_by_id {A : Type} `{EntityMetadata A} (t : Table A)
    (id : string) :
  id <> EmptyString ->
  queryFaults t = [] ->
  exists b t',
    BaseRepository.restore id t = (Ok b, t')
    /\ (b = true <-> exists x, In x (rows t) /\ Entity.id x = id)
    /\ length (rows t') = length (rows t)
    /\ (forall n x, nth_error (rows t) n = Some x -> Entity.id x <> id ->
          nth_error (rows t') n = Some x)
    /\ (forall n x, nth_error (rows t) n = Some x -> Entity.id x = id ->
          nth_error (rows t') n =
            Some (Entity.mk id (Entity.fields x) (Entity.createdAt x) (clock t) None))
    /\ (b = false -> rows t' = rows t).
Proof.
  intros Hid Hf. rewrite (restore_eq id t Hid Hf). eexists _, _.
  split; [reflexivity|]. simpl. split.
  { rewrite existsb_exists. split; intros (x & Hx & E); exists x;
      (split; [exact Hx|]); now apply hasId_true. }
  split; [apply length_map|]. split.
  { intros n x Hn Hx. rewrite nth_error_map, Hn. simpl. now rewrite marked_miss. }
  split.
  { intros n x Hn Hx. rewrite nth_error_map, Hn. simpl. now rewrite marked_hit. }
  intros Hb. rewrite <- (map_id (rows t)) at 2. apply map_ext_in.
  intros x Hx. apply marked_miss. intros E.
  rewrite (existsb_hasId_In id _ x Hx E) in Hb. discriminate.
Qed.

Lemma restore_affects_rows_by_id_witness :
  exists b t',
    BaseRepository.restore "task-c" Example.tasks = (Ok b, t')
    /\ b = true
    /\ nth_error (rows t') 2 =
         Some (Entity.mk "task-c" (Entity.fields Example.taskC) 100 1000 None).
Proof.
  destruct (restore_affects_rows_by_id Example.tasks "task-c" ltac:(discriminate) eq_refl)
    as (b & t' & E & Hb & _ & _ & Hhit & _).
  exists b, t'. split; [exact E|]. split.
  - apply Hb. exists Example.taskC. split; [simpl; tauto | reflexivity].
  - exact (Hhit 2%nat Example.taskC eq_refl eq_refl).
Defined.

(** ** Failures of update *)

(** Whatever makes [update] fail, the error it throws is a plain [Error]
    without a status code, which the error handler answers with 500. *)
Lemma update_throws_plain_Error {A : Type} `{EntityMetadata A} id (d : Partial)
    (t t' : Table A) e :
  BaseRepository.update id d t = (Throw e, t') ->
  name e = "Error" /\ statusCode e = None /\ fst (errorHandler e) = 500.
Proof.
  unfold BaseRepository.update, try_catch, rethrow, throw.
  destruct (bind _ _ t) as [[x|e0] t0]; [discriminate|].
  intros E. inversion E; subst. repeat split.
Qed.

(** On a healthy store, [update] of an id that no live row has throws the
    not-found message, wrapped, and leaves the rows as they are. *)
Lemma update_missing {A : Type} `{EntityMetadata A} id (d : Partial) (t : Table A) :
  queryFaults t = [] ->
  (forall e, In e (rows t) -> Entity.deletedAt e = None -> Entity.id e <> id) ->
  BaseRepository.update id d t =
    (Throw (Error ("Failed to update entity: " +:+ "Entity with id " +:+ id +:+ " not found")),
     Repository.tick [] t).
Proof.
  intros Hf Hm.
  unfold BaseRepository.update, try_catch, bind.
  rewrite (findById_eq id t Hf), (selected_hasId_missing id t Hm). reflexivity.
Qed.

(** C8, at the failing inputs.  A missing row, an unreachable store and a
    violated unique constraint each make [update] throw an [Error] that
    differs from the others in its message text only: the three have the
    same name and no status code, and the error handler answers each with
    500. *)
Theorem update_failures_are_one_kind :
  let missing := fst (BaseRepository.update (A:=Task.t) "task-x" Task.noChange Example.tasks) in
  let unavailable :=
    fst (BaseRepository.update (A:=Task.t) "task-a" Task.noChange
           (Example.brokenTable [Example.taskA])) in
  let conflict :=
    fst (BaseRepository.update (A:=User.t) "bob" (Example.renameTo "alice@example.com")
           Example.users) in
  missing = Throw (Error "Failed to update entity: Entity with id task-x not found")
  /\ unavailable =
       Throw (Error "Failed to update entity: Failed to find entity: Connection terminated unexpectedly")
  /\ conflict =
       Throw (Error "Failed to update entity: duplicate key value violates unique constraint users_email_key")
  /\ fst (errorHandler (Error "Failed to update entity: Entity with id task-x not found")) = 500
  /\ fst (errorHandler (Error "Failed to update entity: Failed to find entity: Connection terminated unexpectedly")) = 500
  /\ fst (errorHandler (Error "Failed to update entity: duplicate key value violates unique constraint users_email_key")) = 500.
Proof. cbv zeta. repeat split. Qed.

(** ** The overdue queries *)

Lemma count_eq {A : Type} `{EntityMetadata A} (w : option (FindOptionsWhere A))
    (t : Table A) :
  queryFaults t = [] ->
  BaseRepository.count w t
    = (Ok (Z.of_nat (length (Repository.selected w t))), Repository.tick [] t).
Proof.
  intros Hf. unfold BaseRepository.count, try_catch, Repository.count, Repository.statement.
  now rewrite Hf.
Qed.

Lemma status_eqb_eq (a b : TaskStatus.t) : TaskStatus.eqb a b = true <-> a = b.
Proof.
  unfold TaskStatus.eqb. rewrite String.eqb_eq.
  destruct a, b; simpl; split; intros E; try reflexivity; discriminate.
Qed.

Lemma overdue_where_counted (userId : string) (now : Z) (e : Entity.t Task.t) :
  Repository.live e
  && TaskWhere.toWhere
       {| TaskWhere.assigneeId := Some (Equal userId); TaskWhere.createdById := None;
          TaskWhere.dueDate := Some (LessThan now);
          TaskWhere.status :=
            Some (Equal (TaskStatus.or TaskStatus.TODO TaskStatus.IN_PROGRESS));
          TaskWhere.priority := None |} e
  = countedOverdue userId now e.
Proof.
  unfold Repository.live, TaskWhere.toWhere, countedOverdue, holds. simpl.
  destruct (Entity.deletedAt e); [reflexivity|]. simpl.
  destruct (Task.assigneeId (Entity.fields e)) as [a|]; simpl; [|reflexivity].
  destruct (Task.dueDate (Entity.fields e)) as [d|]; simpl;
    destruct (Task.status (Entity.fields e)); simpl;
    rewrite ?andb_true_r, ?andb_false_r; reflexivity.
Qed.

(** C10.  The status filter of the overdue queries is the value of
    [TaskStatus.TODO || TaskStatus.IN_PROGRESS], which is [TODO].  Hence
    every task that [findOverdue] returns is in status TODO with a due date
    before the time of the query, and a task [e] in status IN_PROGRESS is
    not among them, however long overdue it is; and on a healthy store the
    overdue count of [getUserTaskStats], taken after its four other counts,
    is the number of live tasks of the user in status TODO with a past due
    date, in which the IN_PROGRESS task [e] is not counted. *)
Theorem overdue_queries_select_TODO_only (t : Table Task.t)
    (options : PaginationOptions Task.t) (userId : string) (e : Entity.t Task.t) (d : Z) :
  In e (rows t) ->
  Task.status (Entity.fields e) = TaskStatus.IN_PROGRESS ->
  Task.dueDate (Entity.fields e) = Some d ->
  d < clock t ->
  TaskStatus.or TaskStatus.TODO TaskStatus.IN_PROGRESS = TaskStatus.TODO
  /\ (forall r t', TaskRepository.findOverdue options t = (Ok r, t') ->
        ~ In e (data r)
        /\ forall x, In x (data r) ->
             Task.status (Entity.fields x) = TaskStatus.TODO
             /\ exists dx, Task.dueDate (Entity.fields x) = Some dx /\ dx < clock t)
  /\ (queryFaults t = [] ->
      exists s t',
        TaskRepository.getUserTaskStats userId t = (Ok s, t')
        /\ TaskStats.overdue s
           = Z.of_nat (length (List.filter (countedOverdue userId (clock t + 4)) (rows t)))
        /\ countedOverdue userId (clock t + 4) e = false).
Proof.
  intros Hin Hst Hdue Hpast. split; [reflexivity|]. split.
  - intros r t' E.
    assert (Hall : forall x, In x (data r) ->
              Task.status (Entity.fields x) = TaskStatus.TODO
              /\ exists dx, Task.dueDate (Entity.fields x) = Some dx /\ dx < clock t).
    { intros x Hx.
      unfold TaskRepository.findOverdue, try_catch, bind, Repository.currentDate in E.
      destruct (BaseRepository.findAll _ t) as [[r0|e0] t0] eqn:Ef; [|discriminate].
      inversion E; subst r0 t0.
      destruct (findAll_data_live _ _ _ _ Ef x Hx) as (_ & _ & Hw).
      simpl in Hw. unfold TaskWhere.toWhere, holds in Hw. simpl in Hw.
      rewrite !andb_true_r in Hw. apply andb_true_iff in Hw. destruct Hw as [Hs Hd].
      split; [now apply status_eqb_eq|].
      destruct (Task.dueDate (Entity.fields x)) as [dx|]; [|discriminate].
      exists dx. split; [reflexivity|]. now apply Z.ltb_lt. }
    split; [|exact Hall].
    intros He. destruct (Hall e He) as [Hs _]. congruence.
  - intros Hf.
    unfold TaskRepository.getUserTaskStats, try_catch.
    rewrite (bind_ok _ _ _ _ _ (count_eq _ t Hf)).
    rewrite (bind_ok _ _ _ _ _ (count_eq _ (Repository.tick [] t) eq_refl)).
    rewrite (bind_ok _ _ _ _ _ (count_eq _ (Repository.tick [] (Repository.tick [] t)) eq_refl)).
    rewrite (bind_ok _ _ _ _ _
               (count_eq _ (Repository.tick [] (Repository.tick [] (Repository.tick [] t)))
                  eq_refl)).
    unfold bind, Repository.currentDate, Repository.count, Repository.statement, ret.
    simpl. eexists _, _. split; [reflexivity|]. simpl.
    replace (clock t + 1 + 1 + 1 + 1) with (clock t + 4) by lia.
    split.
    + unfold Repository.selected. simpl. do 2 f_equal.
      apply filter_ext. intros x. apply overdue_where_counted.
    + unfold countedOverdue. rewrite Hst.
      destruct (Entity.deletedAt e); [reflexivity|].
      now destruct (Task.assigneeId (Entity.fields e)); rewrite ?Hdue.
Qed.

Lemma overdue_queries_select_TODO_only_witness :
  exists r t' s t'',
    TaskRepository.findOverdue noOptions Example.tasks = (Ok r, t')
    /\ ~ In Example.taskB (data r)
    /\ TaskRepository.getUserTaskStats "alice" Example.tasks = (Ok s, t'')
    /\ TaskStats.inProgress s = 1
    /\ TaskStats.overdue s = 0.
Proof.
  destruct (overdue_queries_select_TODO_only Example.tasks noOptions "alice"
              Example.taskB 500 ltac:(simpl; tauto) eq_refl eq_refl ltac:(simpl; lia))
    as (_ & Hfind & Hstats).
  destruct (Hstats eq_refl) as (s & t'' & E & Ho & _).
  eexists _, _, s, t''. split; [reflexivity|].
  split; [apply (Hfind _ _ eq_refl)|]. split; [exact E|].
  split; [|rewrite Ho; reflexivity].
  inversion E. reflexivity.
Defined.

(** ** What the mutations do to the cache *)

Lemma writtenWithin_refl K r : writtenWithin K r r.
Proof. intros k v _ E. exact E. Qed.

Lemma writtenWithin_trans K r1 r2 r3 :
  writtenWithin K r1 r2 -> writtenWithin K r2 r3 -> writtenWithin K r1 r3.
Proof. intros H12 H23 k v Hk E. apply H12; [exact Hk|]. now apply H23. Qed.

Lemma writtenWithin_weaken (K K' : string -> Prop) r r' :
  (forall k, K k -> K' k) -> writtenWithin K r r' -> writtenWithin K' r r'.
Proof. intros Hsub H k v Hk E. apply H; [|exact E]. intros Hk'. apply Hk. now apply Hsub. Qed.

Section Combinators.
Context {S : Type} (K : string -> Prop).

Lemma writes_ret {A : Type} (a : A) : writes (S:=S) K (ret a).
Proof. intros w. apply writtenWithin_refl. Qed.

Lemma writes_throw {A : Type} e : writes (S:=S) (A:=A) K (throw e).
Proof. intros w. apply writtenWithin_refl. Qed.

Lemma writes_bind {A B : Type} (m : M (Redis * S) A) (k : A -> M (Redis * S) B) :
  writes K m -> (forall a, writes K (k a)) -> writes K (bind m k).
Proof.
  intros Hm Hk w. unfold bind. specialize (Hm w).
  destruct (m w) as [[a|e] w1]; simpl in *; [|exact Hm].
  eapply writtenWithin_trans; [exact Hm | apply Hk].
Qed.

Lemma writes_try_catch {A : Type} (m : M (Redis * S) A) h :
  writes K m -> (forall e, writes K (h e)) -> writes K (try_catch m h).
Proof.
  intros Hm Hh w. unfold try_catch. specialize (Hm w).
  destruct (m w) as [[a|e] w1]; simpl in *; [exact Hm|].
  eapply writtenWithin_trans; [exact Hm | apply Hh].
Qed.

Lemma writes_onSnd {A : Type} (m : M S A) : writes K (onSnd m).
Proof.
  intros [r s]. rewrite onSnd_eq. simpl. apply writtenWithin_refl.
Qed.

Lemma writes_onFst {A : Type} (m : M Redis A) : cacheWrites K m -> writes (S:=S) K (onFst m).
Proof.
  intros Hm [r s]. rewrite onFst_eq. simpl. apply Hm.
Qed.

Lemma writes_if {A : Type} (b : bool) (m1 m2 : M (Redis * S) A) :
  writes K m1 -> writes K m2 -> writes K (if b then m1 else m2).
Proof. now destruct b. Qed.

End Combinators.

Section CacheCombinators.
Context (K : string -> Prop).

Lemma cacheWrites_ret {A : Type} (a : A) : cacheWrites K (ret a).
Proof. intros r. apply writtenWithin_refl. Qed.

Lemma cacheWrites_bind {A B : Type} (m : M Redis A) (k : A -> M Redis B) :
  cacheWrites K m -> (forall a, cacheWrites K (k a)) -> cacheWrites K (bind m k).
Proof.
  intros Hm Hk r. unfold bind. specialize (Hm r).
  destruct (m r) as [[a|e] r1]; simpl in *; [|exact Hm].
  eapply writtenWithin_trans; [exact Hm | apply Hk].
Qed.

Lemma cacheWrites_try_catch {A : Type} (m : M Redis A) h :
  cacheWrites K m -> (forall e, cacheWrites K (h e)) -> cacheWrites K (try_catch m h).
Proof.
  intros Hm Hh r. unfold try_catch. specialize (Hm r).
  destruct (m r) as [[a|e] r1]; simpl in *; [exact Hm|].
  eapply writtenWithin_trans; [exact Hm | apply Hh].
Qed.

Lemma cacheWrites_command {A : Type} (run : Redis -> Result A * Redis) :
  (forall r, writtenWithin K r (snd (run r))) -> cacheWrites K (command run).
Proof.
  intros Hrun r. unfold command.
  destruct (faults r) as [|[e|] rest]; simpl.
  - apply Hrun.
  - intros k v _ E. exact E.
  - intros k v Hk E.
    exact (Hrun {| initialized := initialized r; entries := entries r; faults := rest |}
             k v Hk E).
Qed.

Lemma cacheWrites_getRedisClient : cacheWrites K getRedisClient.
Proof.
  intros r. unfold getRedisClient. destruct (initialized r); apply writtenWithin_refl.
Qed.

End CacheCombinators.

Lemma delKeys_subset keys (d : gmap string RedisEntry) k v :
  snd (RedisClient.delKeys keys d) !! k = Some v -> d !! k = Some v.
Proof.
  revert d. induction keys as [|x keys IH]; intros d; simpl; [auto|].
  destruct (d !! x) eqn:Ex.
  - destruct (RedisClient.delKeys keys (delete x d)) as [n d'] eqn:Ed. simpl.
    intros E. specialize (IH (delete x d)). rewrite Ed in IH. simpl in IH.
    apply IH in E. apply lookup_delete_Some in E. tauto.
  - apply IH.
Qed.

Lemma cacheWrites_del K key : cacheWrites K (CacheService.del key).
Proof.
  unfold CacheService.del.
  apply cacheWrites_try_catch; [|intros; apply cacheWrites_ret].
  apply cacheWrites_bind; [apply cacheWrites_getRedisClient|]. intros _.
  apply cacheWrites_bind; [|intros; apply cacheWrites_ret].
  apply cacheWrites_command. intros r k v _.
  destruct (RedisClient.delKeys [key] (entries r)) as [n d] eqn:E. simpl.
  intros Hk. apply (delKeys_subset [key]). now rewrite E.
Qed.

Lemma cacheWrites_delPattern K pattern : cacheWrites K (CacheService.delPattern pattern).
Proof.
  unfold CacheService.delPattern.
  apply cacheWrites_try_catch; [|intros; apply cacheWrites_ret].
  apply cacheWrites_bind; [apply cacheWrites_getRedisClient|]. intros _.
  apply cacheWrites_bind.
  - apply cacheWrites_command. intros r. apply writtenWithin_refl.
  - intros keys. destruct (length keys =? 0)%nat; [apply cacheWrites_ret|].
    apply cacheWrites_bind; [|intros; apply cacheWrites_ret].
    apply cacheWrites_command. intros r k v _.
    destruct (RedisClient.delKeys keys (entries r)) as [n d] eqn:E. simpl.
    intros Hk. apply (delKeys_subset keys). now rewrite E.
Qed.

Lemma cacheWrites_invalidateUserCache K userId :
  cacheWrites K (CacheService.invalidateUserCache userId).
Proof.
  unfold CacheService.invalidateUserCache.
  apply cacheWrites_try_catch; [|intros; apply cacheWrites_ret].
  apply cacheWrites_bind; [apply cacheWrites_del|]. intros _.
  apply cacheWrites_bind; [apply cacheWrites_delPattern|]. intros _.
  apply cacheWrites_bind; [apply cacheWrites_del|]. intros _.
  apply cacheWrites_ret.
Qed.

Lemma cacheWrites_invalidateTaskCache K taskId :
  cacheWrites K (CacheService.invalidateTaskCache taskId).
Proof.
  unfold CacheService.invalidateTaskCache.
  apply cacheWrites_try_catch; [|intros; apply cacheWrites_ret].
  apply cacheWrites_bind; [apply cacheWrites_del|]. intros _.
  apply cacheWrites_ret.
Qed.

Lemma cacheWrites_get K rt key : cacheWrites K (CacheService.get rt key).
Proof.
  intros r k v _. now rewrite get_entries.
Qed.

Lemma cacheWrites_set rt key v ttl :
  cacheWrites (onlyKey key) (CacheService.set rt key v ttl).
Proof.
  unfold CacheService.set.
  apply cacheWrites_try_catch; [|intros; apply cacheWrites_ret].
  apply cacheWrites_bind; [apply cacheWrites_getRedisClient|]. intros _.
  apply cacheWrites_bind; [|intros; apply cacheWrites_ret].
  apply cacheWrites_command. intros r k x Hk.
  destruct (_ <=? 0); simpl; [auto|].
  rewrite lookup_insert_ne; [auto|]. intros E. apply Hk. now symmetry.
Qed.

Lemma writes_getOrSet rt {S : Type} key (callback : M S JsValue) ttl :
  writes (onlyKey key) (CacheService.getOrSet rt key callback ttl).
Proof.
  unfold CacheService.getOrSet.
  apply writes_try_catch; [|intros; apply writes_onSnd].
  apply writes_bind; [apply writes_onFst, cacheWrites_get|]. intros cached.
  apply writes_if; [apply writes_ret|].
  apply writes_bind; [apply writes_onSnd|]. intros result.
  apply writes_bind; [apply writes_onFst, cacheWrites_set|]. intros _.
  apply writes_ret.
Qed.

Lemma writes_weaken {S A : Type} (K K' : string -> Prop) (m : M (Redis * S) A) :
  (forall k, K k -> K' k) -> writes K m -> writes K' m.
Proof. intros Hsub Hm w. eapply writtenWithin_weaken; [exact Hsub | apply Hm]. Qed.

(** Steps through an operation that is built from store calls and cache
    invalidations. *)
Ltac footprint :=
  repeat first
    [ apply writes_ret
    | apply writes_throw
    | apply writes_onSnd
    | apply writes_onFst;
      first [ apply cacheWrites_invalidateUserCache
            | apply cacheWrites_invalidateTaskCache ]
    | apply writes_try_catch; [|intros ?]
    | apply writes_bind; [|intros ?]
    | match goal with
      | |- writes _ (match ?x with _ => _ end) => destruct x
      end ].

Section ServiceFootprints.
Context (rt : Runtime) (bcrypt : Bcrypt).

Lemma updateTask_writes id d : writes noKey (TaskService.updateTask id d).
Proof. unfold TaskService.updateTask. footprint. Qed.

Lemma updateStatus_writes id st : writes noKey (TaskService.updateStatus id st).
Proof. unfold TaskService.updateStatus. footprint. Qed.

Lemma assignTask_writes taskId userId : writes noKey (TaskService.assignTask taskId userId).
Proof. unfold TaskService.assignTask. footprint. Qed.

Lemma unassignTask_writes taskId : writes noKey (TaskService.unassignTask taskId).
Proof. unfold TaskService.unassignTask. footprint. Qed.

Lemma deleteTask_writes id : writes noKey (TaskService.deleteTask id).
Proof. unfold TaskService.deleteTask. footprint. Qed.

Lemma changePassword_writes id old new :
  writes noKey (UserService.changePassword bcrypt id old new).
Proof. unfold UserService.changePassword. footprint. Qed.

Lemma deactivateUser_writes id : writes noKey (UserService.deactivateUser id).
Proof. unfold UserService.deactivateUser. footprint. Qed.

Lemma deleteUser_writes id : writes noKey (UserService.deleteUser id).
Proof. unfold UserService.deleteUser. footprint. Qed.

Lemma findById_writes id :
  writes (onlyKey (CachePrefix.USER +:+ id)) (UserService.findById rt id).
Proof.
  unfold UserService.findById.
  apply writes_try_catch; [apply writes_getOrSet | intros; apply writes_throw].
Qed.

Lemma updateUser_writes id d :
  writes (onlyKey (CachePrefix.USER +:+ id)) (UserService.updateUser rt id d).
Proof.
  unfold UserService.updateUser.
  apply writes_try_catch; [|intros; apply writes_throw].
  apply writes_bind; [apply findById_writes|]. intros user.
  footprint.
Qed.

End ServiceFootprints.

(** ** The entries an invalidation leaves alone *)

Section Frames.
Context (k : string).

Lemma cacheKeeps_ret {A : Type} (a : A) : cacheKeeps k (ret a).
Proof. intros r. reflexivity. Qed.

Lemma cacheKeeps_bind {A B : Type} (m : M Redis A) (f : A -> M Redis B) :
  cacheKeeps k m -> (forall a, cacheKeeps k (f a)) -> cacheKeeps k (bind m f).
Proof.
  intros Hm Hf r. unfold bind. specialize (Hm r).
  destruct (m r) as [[a|e] r1]; simpl in *; [|exact Hm].
  now rewrite Hf.
Qed.

Lemma cacheKeeps_try_catch {A : Type} (m : M Redis A) h :
  cacheKeeps k m -> (forall e, cacheKeeps k (h e)) -> cacheKeeps k (try_catch m h).
Proof.
  intros Hm Hh r. unfold try_catch. specialize (Hm r).
  destruct (m r) as [[a|e] r1]; simpl in *; [exact Hm|].
  now rewrite Hh.
Qed.

Lemma cacheKeeps_command {A : Type} (run : Redis -> Result A * Redis) :
  (forall r, entries (snd (run r)) !! k = entries r !! k) -> cacheKeeps k (command run).
Proof.
  intros Hrun r. unfold command.
  destruct (faults r) as [|[e|] rest]; simpl; [apply Hrun | reflexivity |].
  now rewrite Hrun.
Qed.

Lemma cacheKeeps_getRedisClient : cacheKeeps k getRedisClient.
Proof. intros r. unfold getRedisClient. now destruct (initialized r). Qed.

Lemma delKeys_other keys (d : gmap string RedisEntry) :
  ~ In k keys -> snd (RedisClient.delKeys keys d) !! k = d !! k.
Proof.
  revert d. induction keys as [|x keys IH]; intros d Hk; simpl; [reflexivity|].
  assert (Hx : x <> k) by (intros ->; apply Hk; now left).
  assert (Hk' : ~ In k keys) by (intros Hin; apply Hk; now right).
  destruct (d !! x) eqn:Ex.
  - destruct (RedisClient.delKeys keys (delete x d)) as [n d'] eqn:Ed. simpl.
    specialize (IH (delete x d) Hk'). rewrite Ed in IH. simpl in IH.
    rewrite IH. now apply lookup_delete_ne.
  - now apply IH.
Qed.

Lemma cacheKeeps_del key : k <> key -> cacheKeeps k (CacheService.del key).
Proof.
  intros Hk. unfold CacheService.del.
  apply cacheKeeps_try_catch; [|intros; apply cacheKeeps_ret].
  apply cacheKeeps_bind; [apply cacheKeeps_getRedisClient|]. intros _.
  apply cacheKeeps_bind; [|intros; apply cacheKeeps_ret].
  apply cacheKeeps_command. intros r.
  destruct (RedisClient.delKeys [key] (entries r)) as [n d] eqn:E. simpl.
  pose proof (delKeys_other [key] (entries r)) as Ho. rewrite E in Ho. apply Ho.
  simpl. intros [Hc|[]]. now apply Hk.
Qed.

Lemma cacheKeeps_delPattern pattern :
  matches pattern k = false -> cacheKeeps k (CacheService.delPattern pattern).
Proof.
  intros Hk. unfold CacheService.delPattern.
  apply cacheKeeps_try_catch; [|intros; apply cacheKeeps_ret].
  apply cacheKeeps_bind; [apply cacheKeeps_getRedisClient|]. intros _.
  intros r. unfold bind, RedisClient.keys, command at 1.
  assert (Hkeys : forall r0 : Redis,
            ~ In k (filter (fun x => matches pattern x = true)
                      (map fst (map_to_list (entries r0))))).
  { intros r0 Hin. apply list_elem_of_In, list_elem_of_filter in Hin.
    destruct Hin as [Hm _]. congruence. }
  assert (Hdel : forall keys r0, ~ In k keys ->
            entries (snd (RedisClient.del keys r0)) !! k = entries r0 !! k).
  { intros keys r0 Hn. apply (cacheKeeps_command (A:=Z)). intros r1.
    destruct (RedisClient.delKeys keys (entries r1)) as [n d] eqn:E. simpl.
    pose proof (delKeys_other keys (entries r1) Hn) as Ho. now rewrite E in Ho. }
  destruct (faults r) as [|[e|] rest]; simpl; [| reflexivity |].
  - destruct (length _ =? 0)%nat; [reflexivity|].
    unfold bind. specialize (Hdel _ r (Hkeys r)).
    destruct (RedisClient.del _ r) as [[n|e] r1]; exact Hdel.
  - destruct (length _ =? 0)%nat; [reflexivity|].
    unfold bind.
    specialize (Hdel _ {| initialized := initialized r; entries := entries r;
                          faults := rest |}
                  (Hkeys {| initialized := initialized r; entries := entries r;
                            faults := rest |})).
    destruct (RedisClient.del _ _) as [[n|e] r1]; exact Hdel.
Qed.

Lemma cacheKeeps_invalidateUserCache userId :
  k <> CachePrefix.USER +:+ userId ->
  k <> CachePrefix.TASK_STATS +:+ userId ->
  matches (CachePrefix.USER_TASKS +:+ userId +:+ ":*") k = false ->
  cacheKeeps k (CacheService.invalidateUserCache userId).
Proof.
  intros H1 H2 H3. unfold CacheService.invalidateUserCache.
  apply cacheKeeps_try_catch; [|intros; apply cacheKeeps_ret].
  apply cacheKeeps_bind; [now apply cacheKeeps_del|]. intros _.
  apply cacheKeeps_bind; [now apply cacheKeeps_delPattern|]. intros _.
  apply cacheKeeps_bind; [now apply cacheKeeps_del|]. intros _.
  apply cacheKeeps_ret.
Qed.

Lemma cacheKeeps_invalidateTaskCache taskId :
  k <> CachePrefix.TASK +:+ taskId ->
  cacheKeeps k (CacheService.invalidateTaskCache taskId).
Proof.
  intros H1. unfold CacheService.invalidateTaskCache.
  apply cacheKeeps_try_catch; [|intros; apply cacheKeeps_ret].
  apply cacheKeeps_bind; [now apply cacheKeeps_del|]. intros _.
  apply cacheKeeps_ret.
Qed.

Lemma keeps_ret {S A : Type} (a : A) : keeps (S:=S) k (ret a).
Proof. intros w. reflexivity. Qed.

Lemma keeps_throw {S A : Type} e : keeps (S:=S) (A:=A) k (throw e).
Proof. intros w. reflexivity. Qed.

Lemma keeps_bind {S A B : Type} (m : M (Redis * S) A) (f : A -> M (Redis * S) B) :
  keeps k m -> (forall a, keeps k (f a)) -> keeps k (bind m f).
Proof.
  intros Hm Hf w. unfold bind. specialize (Hm w).
  destruct (m w) as [[a|e] w1]; simpl in *; [|exact Hm].
  now rewrite Hf.
Qed.

Lemma keeps_try_catch {S A : Type} (m : M (Redis * S) A) h :
  keeps k m -> (forall e, keeps k (h e)) -> keeps k (try_catch m h).
Proof.
  intros Hm Hh w. unfold try_catch. specialize (Hm w).
  destruct (m w) as [[a|e] w1]; simpl in *; [exact Hm|].
  now rewrite Hh.
Qed.

Lemma keeps_onSnd {S A : Type} (m : M S A) : keeps k (onSnd (S1:=Redis) m).
Proof. intros [r s]. now rewrite onSnd_eq. Qed.

Lemma keeps_onFst {S A : Type} (m : M Redis A) : cacheKeeps k m -> keeps (S:=S) k (onFst m).
Proof. intros Hm [r s]. rewrite onFst_eq. simpl. apply Hm. Qed.

End Frames.

(** ** Reassignment and the cache of the previous owner *)

(** Whatever the state, [assignTask] to user [B] leaves the cached
    statistics of any other user [A] in place. *)
Lemma assignTask_keeps_other_stats (taskId A B : string) :
  A <> B ->
  keeps (CachePrefix.TASK_STATS +:+ A) (TaskService.assignTask taskId B).
Proof.
  intros Hne. unfold TaskService.assignTask.
  apply keeps_try_catch; [|intros; apply keeps_throw].
  apply keeps_bind; [apply keeps_onSnd|]. intros task.
  apply keeps_bind.
  { apply keeps_onFst, cacheKeeps_invalidateTaskCache.
    unfold CachePrefix.TASK_STATS, CachePrefix.TASK. simpl. discriminate. }
  intros _. apply keeps_bind; [|intros; apply keeps_ret].
  apply keeps_onFst, cacheKeeps_invalidateUserCache.
  - unfold CachePrefix.TASK_STATS, CachePrefix.USER. simpl. discriminate.
  - unfold CachePrefix.TASK_STATS. intros E. apply Hne.
    simpl in E. now inversion E.
  - reflexivity.
Qed.

(** C1, at the failing input.  The cache has been warmed by reads of
    alice's and bob's statistics and of alice's task list; then "task-a" is
    reassigned from alice to bob through [assignTask].  The entry of bob's
    statistics is deleted, but the entries of alice, the previous owner,
    are still there: her statistics and her task list are then answered
    from the cache, without a store read, and differ from what the store
    holds (two tasks and "task-a" in the list, against one task). *)
Theorem assignTask_leaves_previous_owner_cached :
  Task.assigneeId (Entity.fields Example.taskA) = Some "alice"
  /\ (exists task, fst (TaskService.assignTask "task-a" "bob" Example.warmed) = Ok task
                   /\ Task.assigneeId (Entity.fields task) = Some "bob")
  /\ entries (fst Example.warmed) !! "task_stats:bob" <> None
  /\ entries (fst Example.reassigned) !! "task_stats:bob" = None
  /\ entries (fst Example.reassigned) !! "task_stats:alice" <> None
  /\ entries (fst Example.reassigned) !! "user_tasks:alice:{}" <> None
  /\ fst (TaskService.getUserTaskStats Example.runtime "alice" Example.reassigned)
     = Ok (TaskStats.toValue (TaskStats.mk 2 1 1 0 0))
  /\ snd (snd (TaskService.getUserTaskStats Example.runtime "alice" Example.reassigned))
     = snd Example.reassigned
  /\ fst (TaskRepository.getUserTaskStats "alice" (snd Example.reassigned))
     = Ok (TaskStats.mk 1 0 1 0 0)
  /\ (exists items meta,
        fst (TaskService.findByAssignee Example.runtime Example.stringifyOptions
               "alice" noOptions Example.reassigned)
        = Ok (JObj [("data", JArr (Task.toValue Example.taskA :: items)); meta]))
  /\ (exists r,
        fst (TaskRepository.findByAssignee "alice" noOptions (snd Example.reassigned)) = Ok r
        /\ map Entity.id (data r) = ["task-b"]).
Proof.
  split; [reflexivity|]. split; [eexists; split; vm_compute; reflexivity|].
  split; [vm_compute; discriminate|]. split; [vm_compute; reflexivity|].
  split; [vm_compute; discriminate|]. split; [vm_compute; discriminate|].
  split; [vm_compute; reflexivity|]. split; [vm_compute; reflexivity|].
  split; [vm_compute; reflexivity|].
  split; [eexists _, _; vm_compute; reflexivity|].
  eexists; split; vm_compute; reflexivity.
Qed.

(** ** The writes of the create operations *)

Lemma set_healthy rt key v (ttl : Z) r :
  initialized r = true -> faults r = [] -> 0 < ttl ->
  CacheService.set rt key v (Some ttl) r =
    (Ok true,
     withEntries (<[key := mkEntry (match v with JStr s => s | _ => JSON_stringify rt v end)
                                   (Some ttl)]> (entries r)) r).
Proof.
  intros Hi Hf Ht.
  unfold CacheService.set, try_catch, bind, getRedisClient, RedisClient.setex, command, ret.
  rewrite Hi, Hf. simpl. destruct (ttl <=? 0) eqn:E; [lia|]. reflexivity.
Qed.

Lemma task_key_kept_by_invalidateUserCache (id a : string) :
  cacheKeeps (CachePrefix.TASK +:+ id) (CacheService.invalidateUserCache a).
Proof.
  apply cacheKeeps_invalidateUserCache.
  - unfold CachePrefix.TASK, CachePrefix.USER. simpl. discriminate.
  - unfold CachePrefix.TASK, CachePrefix.TASK_STATS. simpl. discriminate.
  - reflexivity.
Qed.

Lemma normalized_email (u : User.t) :
  User.email (User.normalizeEmail u) = trim (toLowerCase (User.email u)).
Proof.
  unfold User.normalizeEmail. destruct (truthy (User.email u)) eqn:E; [reflexivity|].
  unfold truthy in E. apply negb_false_iff, String.eqb_eq in E. now rewrite E.
Qed.

Lemma writes_noKey_subseteq {S A : Type} (m : M (Redis * S) A) :
  writes noKey m -> forall w, entries (fst (snd (m w))) ⊆ entries (fst w).
Proof.
  intros Hm w. apply map_subseteq_spec. intros k v E.
  apply (Hm w k v); [intros [] | exact E].
Qed.

Lemma getOrSet_callback_throws_witness :
  fst (CacheService.getOrSet Example.runtime "report" (counted Example.flaky) None
         (Example.redis [], (0%nat, 0%nat)))
    = Ok (JNum 7)
  /\ snd (snd (CacheService.getOrSet Example.runtime "report" (counted Example.flaky) None
                 (Example.redis [], (0%nat, 0%nat))))
    = (2%nat, 2%nat)
  /\ fst (TaskService.findById Example.runtime "task-x" (Example.redis [], Example.tasks))
    = Throw (Error "Task with id task-x not found")
  /\ clock (snd (snd (TaskService.findById Example.runtime "task-x"
                        (Example.redis [], Example.tasks))))
    = 1002.
Proof.
  destruct (getOrSet_callback_throws Example.runtime "report" Example.flaky None
              (Example.redis []) 0%nat 1%nat (Error "first attempt failed")
              eq_refl eq_refl)
    as (H1 & H2 & _ & H4).
  assert (Hm : taskMissing "task-x" Example.tasks).
  { split; [reflexivity|]. simpl. intros e [<-|[<-|[<-|[]]]] _; discriminate. }
  destruct (H4 "task-x" Example.tasks Hm eq_refl) as (H5 & H6 & _).
  split; [exact H1|]. split; [exact H2|]. split; [exact H5|].
  now rewrite H6.
Defined.

(** * Further properties of the cache service *)

Lemma command_healthy {A : Type} (run : Redis -> Result A * Redis) r :
  faults r = [] -> command run r = run r.
Proof. intros Hf. unfold command. now rewrite Hf. Qed.

Lemma withEntries_healthy d r : healthy r -> healthy (withEntries d r).
Proof. intros [Hi Hf]. split; assumption. Qed.

Lemma get_healthy rt key r :
  healthy r ->
  CacheService.get rt key r =
    (Ok (match entries r !! key with
         | None => JNull
         | Some en =>
             if negb (truthy (value en)) then JNull
             else match JSON_parse rt (value en) with
                  | Some parsed => parsed
                  | None => JStr (value en)
                  end
         end), r).
Proof.
  intros [Hi Hf].
  unfold CacheService.get, try_catch, bind, getRedisClient, RedisClient.get.
  rewrite Hi, (command_healthy _ r Hf).
  destruct (entries r !! key) as [en|]; simpl; [|reflexivity].
  destruct (truthy (value en)); simpl; [|reflexivity].
  now destruct (JSON_parse rt (value en)).
Qed.

Lemma exists_healthy key r :
  healthy r ->
  CacheService.exists_ key r = (Ok (bool_decide (is_Some (entries r !! key))), r).
Proof.
  intros [Hi Hf].
  unfold CacheService.exists_, try_catch, bind, getRedisClient, RedisClient.exists_.
  rewrite Hi, (command_healthy _ r Hf).
  now destruct (entries r !! key).
Qed.

Lemma ttl_healthy key r :
  healthy r ->
  CacheService.ttl key r =
    (Ok (match entries r !! key with
         | None => -2
         | Some e => match expire e with Some t => t | None => -1 end
         end), r).
Proof.
  intros [Hi Hf].
  unfold CacheService.ttl, try_catch, bind, getRedisClient, RedisClient.ttl.
  now rewrite Hi, (command_healthy _ r Hf).
Qed.

Lemma del_healthy key r :
  healthy r ->
  CacheService.del key r =
    (Ok (bool_decide (is_Some (entries r !! key))),
     withEntries (delete key (entries r)) r).
Proof.
  intros [Hi Hf].
  unfold CacheService.del, try_catch, bind, getRedisClient, RedisClient.del.
  rewrite Hi, (command_healthy _ r Hf). simpl.
  destruct (entries r !! key) as [en|] eqn:E; simpl.
  - reflexivity.
  - unfold ret. f_equal. unfold withEntries. f_equal.
    symmetry. now apply delete_id.
Qed.

(** X1 (cache.service.ts, set / get / exists / ttl): on a healthy cache a
    value that is not a string, stored with a positive time to live, is
    read back as it was stored, provided its JSON text is not empty and
    parses back to it; the key then exists with the given time to live, and
    no other key is touched. *)
Theorem set_then_get rt (key : string) (v : JsValue) (ttl : Z) (r : Redis) :
  healthy r -> 0 < ttl ->
  (forall s, v <> JStr s) ->
  JSON_stringify rt v <> EmptyString ->
  JSON_parse rt (JSON_stringify rt v) = Some v ->
  exists r',
    CacheService.set rt key v (Some ttl) r = (Ok true, r')
    /\ CacheService.get rt key r' = (Ok v, r')
    /\ CacheService.exists_ key r' = (Ok true, r')
    /\ CacheService.ttl key r' = (Ok ttl, r')
    /\ (forall k, k <> key -> entries r' !! k = entries r !! k).
Proof.
  intros Hr Httl Hstr Hne Hrt.
  destruct Hr as [Hi Hf].
  eexists. split; [apply set_healthy; assumption|].
  set (r' := withEntries _ r).
  assert (Hr' : healthy r') by (now apply withEntries_healthy).
  assert (Hk : entries r' !! key = Some (mkEntry (JSON_stringify rt v) (Some ttl))).
  { unfold r'. simpl. rewrite lookup_insert_eq.
    destruct v; try reflexivity. now destruct (Hstr s). }
  repeat split.
  - rewrite (get_healthy _ _ _ Hr'), Hk. simpl.
    rewrite (truthy_nonempty _ Hne). simpl. now rewrite Hrt.
  - rewrite (exists_healthy _ _ Hr'), Hk. reflexivity.
  - rewrite (ttl_healthy _ _ Hr'), Hk. reflexivity.
  - intros k Hne'. unfold r'. simpl. now rewrite lookup_insert_ne.
Qed.

Lemma set_then_get_witness :
  exists r',
    CacheService.set Example.runtime "task_stats:alice"
      (TaskStats.toValue (TaskStats.mk 2 1 1 0 0)) (Some 60) (Example.redis [])
      = (Ok true, r')
    /\ CacheService.get Example.runtime "task_stats:alice" r'
       = (Ok (TaskStats.toValue (TaskStats.mk 2 1 1 0 0)), r')
    /\ CacheService.exists_ "task_stats:alice" r' = (Ok true, r')
    /\ CacheService.ttl "task_stats:alice" r' = (Ok 60, r')
    /\ (forall k, k <> "task_stats:alice" ->
          entries r' !! k = entries (Example.redis []) !! k).
Proof.
  apply (set_then_get Example.runtime "task_stats:alice"
           (TaskStats.toValue (TaskStats.mk 2 1 1 0 0)) 60 (Example.redis [])).
  - split; reflexivity.
  - lia.
  - intros s. discriminate.
  - vm_compute. discriminate.
  - vm_compute. reflexivity.
Defined.

(** X2 (cache.service.ts, set / get): a string is stored verbatim, not as
    JSON text, so it does not always read back as itself.  The empty string
    reads back as null (a miss), a string that is JSON text reads back as
    the value it denotes, and only a non-empty string that is not JSON text
    reads back as the string. *)
Theorem set_string_then_get rt (key s : string) (ttl : Z) (r : Redis) :
  healthy r -> 0 < ttl ->
  exists r',
    CacheService.set rt key (JStr s) (Some ttl) r = (Ok true, r')
    /\ entries r' !! key = Some (mkEntry s (Some ttl))
    /\ (s = EmptyString -> CacheService.get rt key r' = (Ok JNull, r'))
    /\ (forall parsed, s <> EmptyString -> JSON_parse rt s = Some parsed ->
          CacheService.get rt key r' = (Ok parsed, r'))
    /\ (s <> EmptyString -> JSON_parse rt s = None ->
          CacheService.get rt key r' = (Ok (JStr s), r')).
Proof.
  intros Hr Httl. destruct Hr as [Hi Hf].
  eexists. split; [apply set_healthy; assumption|].
  set (r' := withEntries _ r).
  assert (Hr' : healthy r') by (now apply withEntries_healthy).
  assert (Hk : entries r' !! key = Some (mkEntry s (Some ttl))).
  { unfold r'. simpl. now rewrite lookup_insert_eq. }
  split; [exact Hk|].
  rewrite (get_healthy _ _ _ Hr'), Hk. simpl.
  repeat split.
  - intros ->. reflexivity.
  - intros parsed Hne Hp. rewrite (truthy_nonempty _ Hne). simpl. now rewrite Hp.
  - intros Hne Hp. rewrite (truthy_nonempty _ Hne). simpl. now rewrite Hp.
Qed.

Lemma set_string_then_get_witness :
  exists r',
    CacheService.set Example.runtime "code" (JStr "123") (Some 60) (Example.redis [])
      = (Ok true, r')
    /\ entries r' !! "code" = Some (mkEntry "123" (Some 60))
    /\ CacheService.get Example.runtime "code" r' = (Ok (JNum 123), r').
Proof.
  destruct (set_string_then_get Example.runtime "code" "123" 60 (Example.redis []))
    as (r' & Hset & Hk & _ & Hparsed & _).
  - split; reflexivity.
  - lia.
  - exists r'. split; [exact Hset|]. split; [exact Hk|].
    apply Hparsed; [discriminate | vm_compute; reflexivity].
Defined.

(** X3 (cache.service.ts, del): on a healthy cache [del] reports whether
    the key was there and removes it; the key then reads as a miss, does
    not exist and has the time to live of a missing key, and every other
    entry is kept. *)
Theorem del_removes_key rt (key : string) (r : Redis) :
  healthy r ->
  exists b r',
    CacheService.del key r = (Ok b, r')
    /\ (b = true <-> is_Some (entries r !! key))
    /\ entries r' = delete key (entries r)
    /\ CacheService.get rt key r' = (Ok JNull, r')
    /\ CacheService.exists_ key r' = (Ok false, r')
    /\ CacheService.ttl key r' = (Ok (-2), r')
    /\ CacheService.del key r' = (Ok false, r')
    /\ (forall k, k <> key -> entries r' !! k = entries r !! k).
Proof.
  intros Hr. do 2 eexists. split; [now apply del_healthy|].
  set (r' := withEntries _ r).
  assert (Hr' : healthy r') by (now apply withEntries_healthy).
  assert (Hk : entries r' !! key = None) by (unfold r'; simpl; apply lookup_delete_eq).
  repeat split.
  - intros Hb. now apply bool_decide_eq_true in Hb.
  - intros Hs. now apply bool_decide_eq_true.
  - now rewrite (get_healthy _ _ _ Hr'), Hk.
  - now rewrite (exists_healthy _ _ Hr'), Hk.
  - now rewrite (ttl_healthy _ _ Hr'), Hk.
  - rewrite (del_healthy _ _ Hr'), Hk. unfold r' at 2. simpl.
    rewrite delete_id by apply lookup_delete_eq. reflexivity.
  - intros k Hne. unfold r'. simpl. now apply lookup_delete_ne.
Qed.

Lemma del_removes_key_witness :
  exists b r',
    CacheService.del "user:1" (Example.redis [("user:1", "41"); ("user:2", "42")]) = (Ok b, r')
    /\ b = true
    /\ CacheService.get Example.runtime "user:1" r' = (Ok JNull, r')
    /\ entries r' !! "user:2" = Some (mkEntry "42" (Some 60)).
Proof.
  destruct (del_removes_key Example.runtime "user:1"
              (Example.redis [("user:1", "41"); ("user:2", "42")]))
    as (b & r' & Hdel & Hb & _ & Hget & _ & _ & _ & Hother).
  - split; reflexivity.
  - exists b, r'. split; [exact Hdel|]. split; [|split; [exact Hget|]].
    + apply Hb. vm_compute. eexists. reflexivity.
    + rewrite Hother by discriminate. vm_compute. reflexivity.
Defined.

(** ** Pattern deletion *)

Lemma delKeys_removed keys (d : gmap string RedisEntry) k :
  In k keys -> snd (RedisClient.delKeys keys d) !! k = None.
Proof.
  revert d. induction keys as [|x keys IH]; intros d Hin; [destruct Hin|].
  destruct (String.eqb_spec x k) as [->|Hne].
  - destruct (snd (RedisClient.delKeys (k :: keys) d) !! k) as [v|] eqn:E; [|reflexivity].
    exfalso. simpl in E. destruct (d !! k) eqn:Ek.
    + destruct (RedisClient.delKeys keys (delete k d)) as [n d'] eqn:Ed. simpl in E.
      pose proof (delKeys_subset keys (delete k d) k v) as Hs.
      rewrite Ed in Hs. apply Hs in E. rewrite lookup_delete_eq in E. discriminate.
    + apply delKeys_subset in E. congruence.
  - destruct Hin as [Hx|Hin]; [contradiction|]. simpl.
    destruct (d !! x) eqn:Ex.
    + specialize (IH (delete x d) Hin).
      destruct (RedisClient.delKeys keys (delete x d)) as [n d'] eqn:Ed. exact IH.
    + now apply IH.
Qed.

Lemma delKeys_count keys (d : gmap string RedisEntry) :
  NoDup keys -> (forall k, In k keys -> is_Some (d !! k)) ->
  fst (RedisClient.delKeys keys d) = Z.of_nat (length keys).
Proof.
  revert d. induction keys as [|x keys IH]; intros d Hnd Hall; [reflexivity|].
  apply NoDup_cons in Hnd. destruct Hnd as [Hx Hnd].
  simpl RedisClient.delKeys.
  destruct (Hall x (or_introl eq_refl)) as [v Hv]. rewrite Hv.
  specialize (IH (delete x d) Hnd).
  destruct (RedisClient.delKeys keys (delete x d)) as [n d'] eqn:Ed. simpl in *.
  rewrite IH; [lia|].
  intros k Hk. rewrite lookup_delete_ne.
  - apply Hall. now right.
  - intros ->. apply Hx. now apply list_elem_of_In.
Qed.

Lemma matching_spec pattern r k :
  In k (matching pattern r) <-> is_Some (entries r !! k) /\ matches pattern k = true.
Proof.
  unfold matching. rewrite <- list_elem_of_In, list_elem_of_filter.
  split.
  - intros [Hm Hin]. split; [|exact Hm].
    apply list_elem_of_In, in_map_iff in Hin. destruct Hin as ([k' v] & <- & Hin).
    apply list_elem_of_In, elem_of_map_to_list in Hin. simpl. eauto.
  - intros [[v Hv] Hm]. split; [exact Hm|].
    apply list_elem_of_In, in_map_iff. exists (k, v). split; [reflexivity|].
    apply list_elem_of_In. now apply elem_of_map_to_list.
Qed.

Lemma matching_NoDup pattern r : NoDup (matching pattern r).
Proof. unfold matching. apply NoDup_filter, NoDup_fst_map_to_list. Qed.

Lemma delPattern_healthy pattern r :
  healthy r ->
  exists r',
    CacheService.delPattern pattern r = (Ok (Z.of_nat (length (matching pattern r))), r')
    /\ healthy r'
    /\ (forall k, entries r' !! k = if matches pattern k then None else entries r !! k).
Proof.
  intros [Hi Hf].
  unfold CacheService.delPattern, try_catch, bind, getRedisClient, RedisClient.keys.
  rewrite Hi, (command_healthy _ r Hf). fold (matching pattern r).
  destruct (length (matching pattern r) =? 0)%nat eqn:El.
  - apply Nat.eqb_eq in El. rewrite El. exists r. split; [reflexivity|].
    split; [now split|]. intros k.
    destruct (matches pattern k) eqn:Em; [|reflexivity].
    destruct (entries r !! k) eqn:Ek; [|reflexivity]. exfalso.
    assert (Hin : In k (matching pattern r)) by (apply matching_spec; eauto).
    destruct (matching pattern r); [destruct Hin | discriminate].
  - unfold RedisClient.del. rewrite (command_healthy _ r Hf).
    pose proof (delKeys_count (matching pattern r) (entries r) (matching_NoDup _ _)) as Hc.
    pose proof (delKeys_removed (matching pattern r) (entries r)) as Hrem.
    pose proof (fun k => delKeys_other k (matching pattern r) (entries r)) as Hoth.
    destruct (RedisClient.delKeys (matching pattern r) (entries r)) as [n d] eqn:Ed.
    simpl in *. rewrite Hc by (intros k Hk; now apply matching_spec in Hk).
    eexists. split; [reflexivity|]. split; [now split|]. simpl. intros k.
    destruct (matches pattern k) eqn:Em.
    + destruct (entries r !! k) eqn:Ek.
      * apply Hrem, matching_spec; eauto.
      * rewrite Hoth; [exact Ek|]. intros Hin. apply matching_spec in Hin.
        destruct Hin as [[v Hv] _]. congruence.
    + rewrite Hoth; [reflexivity|]. intros Hin. apply matching_spec in Hin.
      destruct Hin as [_ Hm]. congruence.
Qed.

(** X4 (cache.service.ts, delPattern): on a healthy cache [delPattern]
    returns the number of keys that match the pattern and removes exactly
    those: afterwards no key that matches is left and every key that does
    not match holds what it held. *)
Theorem delPattern_removes_matching (pattern : string) (r : Redis) :
  healthy r ->
  exists n r',
    CacheService.delPattern pattern r = (Ok n, r')
    /\ n = Z.of_nat (length (matching pattern r))
    /\ NoDup (matching pattern r)
    /\ (forall k, In k (matching pattern r)
                  <-> is_Some (entries r !! k) /\ matches pattern k = true)
    /\ (forall k, matches pattern k = true -> entries r' !! k = None)
    /\ (forall k, matches pattern k = false -> entries r' !! k = entries r !! k)
    /\ CacheService.delPattern pattern r' = (Ok 0, r').
Proof.
  intros Hr. destruct (delPattern_healthy pattern r Hr) as (r' & Hdel & Hr' & Hk).
  exists (Z.of_nat (length (matching pattern r))), r'.
  split; [exact Hdel|]. split; [reflexivity|].
  split; [apply matching_NoDup|]. split; [apply matching_spec|].
  split; [|split].
  - intros k Hm. now rewrite Hk, Hm.
  - intros k Hm. now rewrite Hk, Hm.
  - destruct (delPattern_healthy pattern r' Hr') as (r2 & Hdel2 & Hr2 & Hk2).
    assert (Hnone : matching pattern r' = []).
    { destruct (matching pattern r') as [|k l] eqn:E; [reflexivity|]. exfalso.
      assert (Hin : In k (matching pattern r')) by (rewrite E; now left).
      apply matching_spec in Hin. destruct Hin as [[v Hv] Hm].
      rewrite Hk, Hm in Hv. discriminate. }
    revert Hdel2.
    unfold CacheService.delPattern, try_catch, bind, getRedisClient, RedisClient.keys.
    destruct Hr' as [Hi' Hf']. rewrite Hi', (command_healthy _ r' Hf').
    fold (matching pattern r'). rewrite Hnone. simpl. reflexivity.
Qed.

Lemma delPattern_removes_matching_witness :
  exists n r',
    CacheService.delPattern "user_tasks:alice:*"
      (Example.redis [("user_tasks:alice:{}", "1"); ("user_tasks:bob:{}", "2");
                      ("user_tasks:alice:{page:2}", "3")]) = (Ok n, r')
    /\ n = 2
    /\ entries r' !! "user_tasks:alice:{}" = None
    /\ entries r' !! "user_tasks:bob:{}" = Some (mkEntry "2" (Some 60)).
Proof.
  destruct (delPattern_removes_matching "user_tasks:alice:*"
              (Example.redis [("user_tasks:alice:{}", "1"); ("user_tasks:bob:{}", "2");
                              ("user_tasks:alice:{page:2}", "3")]))
    as (n & r' & Hdel & Hn & _ & _ & Hgone & Hkept & _).
  - split; reflexivity.
  - exists n, r'. split; [exact Hdel|]. split; [|split].
    + rewrite Hn. vm_compute. reflexivity.
    + apply Hgone. vm_compute. reflexivity.
    + rewrite Hkept by (vm_compute; reflexivity). vm_compute. reflexivity.
Defined.

(** ** Patterns built from a literal prefix *)

Lemma glob_star_all s : glob ["*"%char] s = true.
Proof.
  induction s as [|c s IH]; [reflexivity|].
  simpl in *. exact IH.
Qed.

Lemma glob_literal_prefix (p q s : list ascii) :
  forallb (fun c => negb (globSpecial c)) p = true ->
  glob (p ++ q)%list (p ++ s)%list = glob q s.
Proof.
  induction p as [|c p IH]; intros Hp; [reflexivity|].
  simpl in Hp. apply andb_true_iff in Hp. destruct Hp as [Hc Hp].
  unfold globSpecial in Hc. apply negb_true_iff in Hc.
  apply orb_false_iff in Hc. destruct Hc as [Hc _].
  apply orb_false_iff in Hc. destruct Hc as [Hc H3].
  apply orb_false_iff in Hc. destruct Hc as [H1 H2].
  simpl. rewrite H1, H2, H3, Ascii.eqb_refl. simpl. now apply IH.
Qed.

Lemma list_ascii_of_string_app (a b : string) :
  list_ascii_of_string (a +:+ b)
  = (list_ascii_of_string a ++ list_ascii_of_string b)%list.
Proof. induction a as [|c a IH]; simpl; [reflexivity|]. now rewrite IH. Qed.

Lemma matches_literal_prefix (prefix rest : string) :
  literal prefix = true -> matches (prefix +:+ "*") (prefix +:+ rest) = true.
Proof.
  intros Hl. unfold matches. rewrite !list_ascii_of_string_app.
  rewrite glob_literal_prefix by exact Hl. apply glob_star_all.
Qed.

Lemma literal_app (a b : string) : literal (a +:+ b) = literal a && literal b.
Proof. unfold literal. now rewrite list_ascii_of_string_app, forallb_app. Qed.

Lemma append_assoc (a b c : string) : (a +:+ b) +:+ c = a +:+ (b +:+ c).
Proof.
  induction a as [|x a IH]; [reflexivity|].
  change (String x ((a +:+ b) +:+ c) = String x (a +:+ b +:+ c)). now rewrite IH.
Qed.

Lemma invalidateUserCache_healthy userId r :
  healthy r ->
  exists r',
    CacheService.invalidateUserCache userId r = (Ok tt, r')
    /\ healthy r'
    /\ forall k,
         entries r' !! k =
           if String.eqb k (CachePrefix.TASK_STATS +:+ userId) then None
           else if matches (CachePrefix.USER_TASKS +:+ userId +:+ ":*") k then None
           else if String.eqb k (CachePrefix.USER +:+ userId) then None
           else entries r !! k.
Proof.
  intros Hr.
  unfold CacheService.invalidateUserCache, try_catch, bind.
  rewrite (del_healthy _ _ Hr).
  set (r1 := withEntries _ r).
  assert (Hr1 : healthy r1) by (now apply withEntries_healthy).
  destruct (delPattern_healthy (CachePrefix.USER_TASKS +:+ userId +:+ ":*") r1 Hr1)
    as (r2 & -> & Hr2 & Hk2).
  rewrite (del_healthy _ _ Hr2).
  eexists. split; [reflexivity|]. split; [now apply withEntries_healthy|].
  intros k. simpl.
  destruct (String.eqb_spec k (CachePrefix.TASK_STATS +:+ userId)) as [->|Hne3].
  - apply lookup_delete_eq.
  - rewrite lookup_delete_ne by congruence. rewrite Hk2.
    destruct (matches _ k); [reflexivity|]. unfold r1. simpl.
    destruct (String.eqb_spec k (CachePrefix.USER +:+ userId)) as [->|Hne1].
    + apply lookup_delete_eq.
    + apply lookup_delete_ne. congruence.
Qed.

(** X5 (cache.service.ts, invalidateUserCache): for a user id without
    pattern characters (a UUID), on a healthy cache, the invalidation
    removes the user's entry, the user's statistics and every cached task
    list of the user, whatever the options it was cached under.  No entry
    is written, and a key that is none of these keeps its entry. *)
Theorem invalidateUserCache_clears_user (userId : string) (r : Redis) :
  healthy r ->
  literal userId = true ->
  exists r',
    CacheService.invalidateUserCache userId r = (Ok tt, r')
    /\ healthy r'
    /\ entries r' !! (CachePrefix.USER +:+ userId) = None
    /\ entries r' !! (CachePrefix.TASK_STATS +:+ userId) = None
    /\ (forall options,
          entries r' !! (CachePrefix.USER_TASKS +:+ userId +:+ ":" +:+ options) = None)
    /\ entries r' ⊆ entries r
    /\ (forall k,
          k <> CachePrefix.USER +:+ userId ->
          k <> CachePrefix.TASK_STATS +:+ userId ->
          matches (CachePrefix.USER_TASKS +:+ userId +:+ ":*") k = false ->
          entries r' !! k = entries r !! k).
Proof.
  intros Hr Hl.
  destruct (invalidateUserCache_healthy userId r Hr) as (r' & Hrun & Hr' & Hk).
  exists r'. split; [exact Hrun|]. split; [exact Hr'|].
  split; [|split; [|split; [|split]]].
  - rewrite Hk. rewrite String.eqb_refl.
    destruct (String.eqb _ _); [reflexivity|]. now destruct (matches _ _).
  - rewrite Hk. now rewrite String.eqb_refl.
  - intros options. rewrite Hk.
    destruct (String.eqb _ _); [reflexivity|].
    replace (CachePrefix.USER_TASKS +:+ userId +:+ ":*")
      with ((CachePrefix.USER_TASKS +:+ userId +:+ ":") +:+ "*")
      by (now rewrite !append_assoc).
    replace (CachePrefix.USER_TASKS +:+ userId +:+ ":" +:+ options)
      with ((CachePrefix.USER_TASKS +:+ userId +:+ ":") +:+ options)
      by (now rewrite !append_assoc).
    rewrite matches_literal_prefix; [reflexivity|].
    rewrite !literal_app, Hl. reflexivity.
  - apply map_subseteq_spec. intros k v. rewrite Hk.
    destruct (String.eqb _ _); [discriminate|].
    destruct (matches _ _); [discriminate|].
    destruct (String.eqb _ _); [discriminate|]. tauto.
  - intros k H1 H2 H3. rewrite Hk, H3.
    apply String.eqb_neq in H1, H2. now rewrite H1, H2.
Qed.

Lemma invalidateUserCache_clears_user_witness :
  exists r',
    CacheService.invalidateUserCache "alice" (fst Example.warmed) = (Ok tt, r')
    /\ entries r' !! "task_stats:alice" = None
    /\ entries r' !! "user_tasks:alice:{}" = None
    /\ entries r' !! "task_stats:bob" = entries (fst Example.warmed) !! "task_stats:bob"
    /\ entries (fst Example.warmed) !! "task_stats:bob" <> None.
Proof.
  destruct (invalidateUserCache_clears_user "alice" (fst Example.warmed))
    as (r' & Hrun & _ & _ & Hstats & Hlists & _ & Hkept).
  - split; vm_compute; reflexivity.
  - reflexivity.
  - exists r'. split; [exact Hrun|]. split; [exact Hstats|].
    split; [exact (Hlists "{}")|]. split.
    + apply Hkept; [discriminate | discriminate | vm_compute; reflexivity].
    + vm_compute. discriminate.
Defined.

(** ** Counters *)

Lemma parseInt64_printInt (z : Z) : int64 z -> parseInt64 (printInt z) = Some z.
Proof.
  intros Hz. unfold parseInt64, printInt.
  assert (Hs : NilZero.string_of_int (Z.to_int z) = NilEmpty.string_of_int (Z.to_int z)).
  { destruct z as [|p|p]; simpl; [reflexivity| |];
      unfold NilZero.string_of_uint;
      pose proof (DecimalPos.Unsigned.to_uint_nonnil p) as Hn;
      destruct (Pos.to_uint p); try reflexivity; now destruct Hn. }
  rewrite Hs, NilEmpty.isi, DecimalZ.of_to.
  unfold int64 in Hz.
  destruct (- 2 ^ 63 <=? z) eqn:E1; [|apply Z.leb_gt in E1; lia].
  destruct (z <? 2 ^ 63) eqn:E2; [reflexivity|apply Z.ltb_ge in E2; lia].
Qed.

Lemma incrby_healthy key amount r :
  healthy r ->
  forall n ex,
    match entries r !! key with
    | None => n = 0 /\ ex = None
    | Some e => parseInt64 (value e) = Some n /\ ex = expire e
    end ->
    int64 (n + amount) ->
    RedisClient.incrby key amount r =
      (Ok (n + amount),
       withEntries (<[key := mkEntry (printInt (n + amount)) ex]> (entries r)) r).
Proof.
  intros [Hi Hf] n ex Hold Hrange.
  unfold RedisClient.incrby. rewrite (command_healthy _ r Hf).
  assert (Hin : (- 2 ^ 63 <=? n + amount) && (n + amount <? 2 ^ 63) = true).
  { unfold int64 in Hrange. apply andb_true_iff. split; [apply Z.leb_le|apply Z.ltb_lt]; lia. }
  destruct (entries r !! key) as [e|].
  - destruct Hold as [Hp ->]. rewrite Hp. simpl. now rewrite Hin.
  - destruct Hold as [-> ->]. simpl. simpl in Hin. now rewrite Hin.
Qed.

Lemma increment_healthy key amount r :
  healthy r ->
  CacheService.increment key amount r = RedisClient.incrby key (default 1 amount) r.
Proof.
  intros [Hi Hf]. unfold CacheService.increment, try_catch, bind, getRedisClient, throw.
  rewrite Hi. now destruct (RedisClient.incrby key (default 1 amount) r) as [[n|e] r'].
Qed.

Lemma decrement_healthy key amount r :
  healthy r ->
  CacheService.decrement key amount r = RedisClient.incrby key (- default 1 amount) r.
Proof.
  intros [Hi Hf]. unfold CacheService.decrement, try_catch, bind, getRedisClient, throw.
  rewrite Hi. unfold RedisClient.decrby.
  now destruct (RedisClient.incrby key (- default 1 amount) r) as [[n|e] r'].
Qed.

Lemma safeInteger_int64 (z : Z) : safeInteger z -> int64 z.
Proof. unfold safeInteger, int64. lia. Qed.

(** X6 (cache.service.ts, increment / decrement): on a healthy cache, a
    counter that holds the integer n answers n + a to an increment by a and
    n again to the decrement by a that follows, as long as n, a and n + a
    are safe integers of JavaScript, the range in which the number the
    caller receives is the integer the server computed; the two together
    leave the cache as it was, the counter's expiry included.  Without an
    amount the step is 1. *)
Theorem increment_then_decrement (key : string) (n : Z) (amount : option Z)
    (ex : option Z) (r : Redis) :
  healthy r ->
  entries r !! key = Some (mkEntry (printInt n) ex) ->
  safeInteger n ->
  safeInteger (default 1 amount) ->
  safeInteger (n + default 1 amount) ->
  exists r1 r2,
    CacheService.increment key amount r = (Ok (n + default 1 amount), r1)
    /\ entries r1 !! key = Some (mkEntry (printInt (n + default 1 amount)) ex)
    /\ CacheService.decrement key amount r1 = (Ok n, r2)
    /\ entries r2 = entries r
    /\ (forall k, k <> key -> entries r1 !! k = entries r !! k).
Proof.
  intros Hr Hk Hsafe _ Hsafe'.
  pose proof (safeInteger_int64 _ Hsafe) as Hn.
  pose proof (safeInteger_int64 _ Hsafe') as Hn'.
  do 2 eexists.
  rewrite (increment_healthy _ _ _ Hr).
  rewrite (incrby_healthy key (default 1 amount) r Hr n ex);
    [|rewrite Hk; simpl; split; [now apply parseInt64_printInt|reflexivity]|exact Hn'].
  set (r1 := withEntries _ r).
  assert (Hr1 : healthy r1) by (now apply withEntries_healthy).
  split; [reflexivity|].
  split; [unfold r1; simpl; apply lookup_insert_eq|].
  rewrite (decrement_healthy _ _ _ Hr1).
  rewrite (incrby_healthy key (- default 1 amount) r1 Hr1 (n + default 1 amount) ex).
  - replace (n + default 1 amount + - default 1 amount) with n by lia.
    split; [reflexivity|]. split.
    + unfold r1. simpl. rewrite insert_insert_eq. now apply insert_id.
    + intros k Hne. unfold r1. simpl. now apply lookup_insert_ne.
  - unfold r1. simpl. rewrite lookup_insert_eq. simpl.
    split; [now apply parseInt64_printInt|reflexivity].
  - now replace (n + default 1 amount + - default 1 amount) with n by lia.
Qed.

Lemma increment_then_decrement_witness :
  exists r1 r2,
    CacheService.increment "visits" (Some 5) (Example.redis [("visits", "41")])
      = (Ok 46, r1)
    /\ entries r1 !! "visits" = Some (mkEntry "46" (Some 60))
    /\ CacheService.decrement "visits" (Some 5) r1 = (Ok 41, r2)
    /\ entries r2 = entries (Example.redis [("visits", "41")]).
Proof.
  destruct (increment_then_decrement "visits" 41 (Some 5) (Some 60)
              (Example.redis [("visits", "41")]))
    as (r1 & r2 & Hinc & Hk & Hdec & Hback & _).
  - split; reflexivity.
  - vm_compute. reflexivity.
  - unfold safeInteger. lia.
  - unfold safeInteger. simpl. lia.
  - unfold safeInteger. simpl. lia.
  - exists r1, r2. repeat split; assumption.
Defined.

(** X7 (cache.service.ts, increment): on a healthy cache a key that is
    missing counts from 0 and the counter it creates has no expiry; a key
    whose text is not an integer (such as a cached object) is not a
    counter: the increment throws the backend's error to the caller and
    the cache is as before. *)
Theorem increment_edge_cases (key : string) (amount : option Z) (r : Redis) :
  healthy r ->
  (entries r !! key = None ->
   int64 (default 1 amount) ->
   exists r',
     CacheService.increment key amount r = (Ok (default 1 amount), r')
     /\ entries r' !! key = Some (mkEntry (printInt (default 1 amount)) None)
     /\ CacheService.ttl key r' = (Ok (-1), r'))
  /\ (forall en,
        entries r !! key = Some en ->
        parseInt64 (value en) = None ->
        CacheService.increment key amount r
          = (Throw (ReplyError "ERR value is not an integer or out of range"), r)
        /\ CacheService.decrement key amount r
          = (Throw (ReplyError "ERR value is not an integer or out of range"), r)).
Proof.
  intros Hr. split.
  - intros Hk Ha. eexists.
    rewrite (increment_healthy _ _ _ Hr).
    rewrite (incrby_healthy key (default 1 amount) r Hr 0 None);
      [|now rewrite Hk|exact Ha].
    simpl. split; [reflexivity|].
    set (r' := withEntries _ r).
    assert (Hr' : healthy r') by (now apply withEntries_healthy).
    assert (Hk' : entries r' !! key = Some (mkEntry (printInt (default 1 amount)) None))
      by (unfold r'; simpl; apply lookup_insert_eq).
    split; [exact Hk'|]. now rewrite (ttl_healthy _ _ Hr'), Hk'.
  - intros en Hk Hp.
    rewrite (increment_healthy _ _ _ Hr), (decrement_healthy _ _ _ Hr).
    unfold RedisClient.incrby. destruct Hr as [Hi Hf].
    rewrite !(command_healthy _ r Hf), Hk, Hp. split; reflexivity.
Qed.

Lemma increment_edge_cases_witness :
  (exists r',
     CacheService.increment "visits" None (Example.redis []) = (Ok 1, r')
     /\ entries r' !! "visits" = Some (mkEntry "1" None)
     /\ CacheService.ttl "visits" r' = (Ok (-1), r'))
  /\ CacheService.increment "task_stats:alice" None
       (Example.redis [("task_stats:alice", "{}")])
     = (Throw (ReplyError "ERR value is not an integer or out of range"),
        Example.redis [("task_stats:alice", "{}")]).
Proof.
  split.
  - destruct (increment_edge_cases "visits" None (Example.redis [])) as [Hnew _].
    + split; reflexivity.
    + apply Hnew; [reflexivity | unfold int64; simpl; lia].
  - destruct (increment_edge_cases "task_stats:alice" None
                (Example.redis [("task_stats:alice", "{}")])) as [_ Hbad].
    + split; reflexivity.
    + apply (Hbad (mkEntry "{}" (Some 60))); vm_compute; reflexivity.
Defined.

(** X8 (cache.service.ts, set with CacheTTL.DEFAULT): a time to live of 0
    or less is not replaced by the default: Redis rejects the SETEX, [set]
    answers false and the cache keeps what it had under the key.  Without a
    time to live the entry expires after [config.redis.ttl] seconds, and
    after 3600 seconds when that setting is 0 or not a number. *)
Theorem set_time_to_live rt (key : string) (v : JsValue) (r : Redis) :
  healthy r ->
  (forall ttl, ttl <= 0 -> CacheService.set rt key v (Some ttl) r = (Ok false, r))
  /\ (forall c, config_redis_ttl rt = Some c -> 0 < c ->
        exists r', CacheService.set rt key v None r = (Ok true, r')
                   /\ expire <$> entries r' !! key = Some (Some c))
  /\ (config_redis_ttl rt = None \/ config_redis_ttl rt = Some 0 ->
        exists r', CacheService.set rt key v None r = (Ok true, r')
                   /\ expire <$> entries r' !! key = Some (Some 3600))
  /\ (forall c, config_redis_ttl rt = Some c -> c < 0 ->
        CacheService.set rt key v None r = (Ok false, r)).
Proof.
  intros [Hi Hf].
  assert (Hbad : forall ttl, CacheService.ttlOrDefault rt ttl <= 0 ->
                   CacheService.set rt key v ttl r = (Ok false, r)).
  { intros ttl Hle.
    unfold CacheService.set, try_catch, bind, getRedisClient, RedisClient.setex.
    rewrite Hi, (command_healthy _ r Hf).
    apply Z.leb_le in Hle. now rewrite Hle. }
  assert (Hgood : forall ttl, 0 < CacheService.ttlOrDefault rt ttl ->
                    exists r', CacheService.set rt key v ttl r = (Ok true, r')
                      /\ expire <$> entries r' !! key
                         = Some (Some (CacheService.ttlOrDefault rt ttl))).
  { intros ttl Hlt.
    unfold CacheService.set, try_catch, bind, getRedisClient, RedisClient.setex.
    rewrite Hi, (command_healthy _ r Hf).
    apply Z.leb_gt in Hlt. rewrite Hlt. eexists. split; [reflexivity|].
    simpl. now rewrite lookup_insert_eq. }
  split; [|split; [|split]].
  - intros ttl Hle. now apply Hbad.
  - intros c Hc Hpos.
    assert (Hd : CacheService.ttlOrDefault rt None = c).
    { unfold CacheService.ttlOrDefault, CacheTTL.DEFAULT, orDefault. rewrite Hc.
      destruct (c =? 0) eqn:E; [apply Z.eqb_eq in E; lia|reflexivity]. }
    destruct (Hgood None) as (r' & Hset & Hex); [lia|].
    exists r'. now rewrite <- Hd.
  - intros Hc.
    assert (Hd : CacheService.ttlOrDefault rt None = 3600).
    { unfold CacheService.ttlOrDefault, CacheTTL.DEFAULT, orDefault.
      destruct Hc as [-> | ->]; reflexivity. }
    destruct (Hgood None) as (r' & Hset & Hex); [lia|].
    exists r'. now rewrite <- Hd.
  - intros c Hc Hneg. apply Hbad.
    unfold CacheService.ttlOrDefault, CacheTTL.DEFAULT, orDefault. rewrite Hc.
    destruct (c =? 0) eqn:E; [apply Z.eqb_eq in E; lia|lia].
Qed.

Lemma set_time_to_live_witness :
  CacheService.set Example.runtime "user:1" (JNum 7) (Some 0)
    (Example.redis [("user:1", "41")])
  = (Ok false, Example.redis [("user:1", "41")])
  /\ exists r', CacheService.set Example.runtime "user:1" (JNum 7) None
                  (Example.redis [("user:1", "41")]) = (Ok true, r')
                /\ expire <$> entries r' !! "user:1" = Some (Some 3600).
Proof.
  destruct (set_time_to_live Example.runtime "user:1" (JNum 7)
              (Example.redis [("user:1", "41")]))
    as (Hzero & _ & Hdefault & _).
  - split; reflexivity.
  - split; [apply Hzero; lia|]. apply Hdefault. now left.
Defined.

(** ** Cache-aside, call after call *)

(** X9 (cache.service.ts, getOrSet): on a healthy cache without the key,
    the first call runs the callback and stores its result; a second call
    is answered from the cache, without running the callback and without
    touching the callback's state or the cache.  The result is a value that
    is not a string and not null, whose JSON text is not empty and parses
    back to it. *)
Theorem getOrSet_twice_runs_callback_once rt {S : Type} (key : string)
    (callback : M S JsValue) (ttl : Z) (r : Redis) (s s1 : S) (v : JsValue) :
  healthy r -> 0 < ttl ->
  entries r !! key = None ->
  callback s = (Ok v, s1) ->
  (forall text, v <> JStr text) -> v <> JNull ->
  JSON_stringify rt v <> EmptyString ->
  JSON_parse rt (JSON_stringify rt v) = Some v ->
  exists r1,
    CacheService.getOrSet rt key (counted callback) (Some ttl) (r, (s, 0%nat))
      = (Ok v, (r1, (s1, 1%nat)))
    /\ entries r1 !! key = Some (mkEntry (JSON_stringify rt v) (Some ttl))
    /\ CacheService.getOrSet rt key (counted callback) (Some ttl) (r1, (s1, 1%nat))
      = (Ok v, (r1, (s1, 1%nat))).
Proof.
  intros Hr Httl Hk Hcb Hstr Hnull Hne Hrt.
  pose proof Hr as [Hi Hf].
  eexists. rewrite getOrSet_eq. cbv zeta.
  rewrite (get_healthy _ _ _ Hr), Hk. simpl fst. simpl snd. simpl notNull. cbv iota.
  unfold counted at 1. simpl fst. rewrite Hcb. simpl snd.
  rewrite (set_healthy rt key v ttl r Hi Hf Httl). simpl snd.
  set (r1 := withEntries _ r).
  assert (Hr1 : healthy r1) by (now apply withEntries_healthy).
  assert (Hk1 : entries r1 !! key = Some (mkEntry (JSON_stringify rt v) (Some ttl))).
  { unfold r1. simpl. rewrite lookup_insert_eq.
    destruct v; try reflexivity. now destruct (Hstr s0). }
  split; [reflexivity|]. split; [exact Hk1|].
  rewrite getOrSet_eq. cbv zeta.
  rewrite (get_healthy _ _ _ Hr1), Hk1. simpl value.
  rewrite (truthy_nonempty _ Hne), Hrt. simpl.
  destruct v; try reflexivity. now destruct Hnull.
Qed.

Lemma getOrSet_twice_runs_callback_once_witness :
  exists r1,
    CacheService.getOrSet Example.runtime "report" (counted Example.counter) (Some 60)
      (Example.redis [], (5%nat, 0%nat)) = (Ok (JNum 5), (r1, (6%nat, 1%nat)))
    /\ entries r1 !! "report" = Some (mkEntry "5" (Some 60))
    /\ CacheService.getOrSet Example.runtime "report" (counted Example.counter) (Some 60)
         (r1, (6%nat, 1%nat)) = (Ok (JNum 5), (r1, (6%nat, 1%nat))).
Proof.
  apply (getOrSet_twice_runs_callback_once Example.runtime "report" Example.counter 60
           (Example.redis []) 5%nat 6%nat (JNum 5)).
  - split; reflexivity.
  - lia.
  - reflexivity.
  - reflexivity.
  - intros text. discriminate.
  - discriminate.
  - vm_compute. discriminate.
  - vm_compute. reflexivity.
Defined.

(** X10 (cache.service.ts, getOrSet): a null result is stored but never
    served.  When the callback returns null on a healthy cache, the text of
    null is written under the key, and the next call reads it as a miss and
    runs the callback again, answering with its new result. *)
Theorem getOrSet_null_result_is_never_a_hit rt {S : Type} (key : string)
    (callback : M S JsValue) (ttl : Z) (r : Redis) (s s1 s2 : S) (v2 : JsValue) :
  healthy r -> 0 < ttl ->
  entries r !! key = None ->
  JSON_parse rt (JSON_stringify rt JNull) = Some JNull ->
  callback s = (Ok JNull, s1) ->
  callback s1 = (Ok v2, s2) ->
  exists r1 r2,
    CacheService.getOrSet rt key (counted callback) (Some ttl) (r, (s, 0%nat))
      = (Ok JNull, (r1, (s1, 1%nat)))
    /\ entries r1 !! key = Some (mkEntry (JSON_stringify rt JNull) (Some ttl))
    /\ CacheService.getOrSet rt key (counted callback) (Some ttl) (r1, (s1, 1%nat))
      = (Ok v2, (r2, (s2, 2%nat))).
Proof.
  intros Hr Httl Hk Hrt Hcb1 Hcb2.
  pose proof Hr as [Hi Hf].
  do 2 eexists. rewrite getOrSet_eq. cbv zeta.
  rewrite (get_healthy _ _ _ Hr), Hk. simpl fst. simpl snd. simpl notNull. cbv iota.
  unfold counted at 1. simpl fst. rewrite Hcb1. simpl snd.
  rewrite (set_healthy rt key JNull ttl r Hi Hf Httl). simpl snd.
  set (r1 := withEntries _ r).
  assert (Hr1 : healthy r1) by (now apply withEntries_healthy).
  assert (Hk1 : entries r1 !! key = Some (mkEntry (JSON_stringify rt JNull) (Some ttl))).
  { unfold r1. simpl. now rewrite lookup_insert_eq. }
  split; [reflexivity|]. split; [exact Hk1|].
  rewrite getOrSet_eq. cbv zeta.
  rewrite (get_healthy _ _ _ Hr1), Hk1. simpl value.
  assert (Hmiss : (if negb (truthy (JSON_stringify rt JNull)) then JNull
                   else match JSON_parse rt (JSON_stringify rt JNull) with
                        | Some parsed => parsed
                        | None => JStr (JSON_stringify rt JNull)
                        end) = JNull).
  { rewrite Hrt. now destruct (negb _). }
  rewrite Hmiss. simpl fst. simpl snd. simpl notNull. cbv iota.
  unfold counted at 1. simpl fst. rewrite Hcb2. simpl snd.
  reflexivity.
Qed.

Lemma getOrSet_null_result_is_never_a_hit_witness :
  exists r1 r2,
    CacheService.getOrSet Example.runtime "user:9"
      (counted (fun n : nat => (Ok JNull, Datatypes.S n))) (Some 60)
      (Example.redis [], (0%nat, 0%nat)) = (Ok JNull, (r1, (1%nat, 1%nat)))
    /\ entries r1 !! "user:9" = Some (mkEntry "null" (Some 60))
    /\ CacheService.getOrSet Example.runtime "user:9"
         (counted (fun n : nat => (Ok JNull, Datatypes.S n))) (Some 60)
         (r1, (1%nat, 1%nat)) = (Ok JNull, (r2, (2%nat, 2%nat))).
Proof.
  apply (getOrSet_null_result_is_never_a_hit Example.runtime "user:9"
           (fun n : nat => (Ok JNull, Datatypes.S n)) 60 (Example.redis [])
           0%nat 1%nat 2%nat JNull).
  - split; reflexivity.
  - lia.
  - reflexivity.
  - reflexivity.
  - reflexivity.
  - reflexivity.
Defined.

(** * Further properties of the base repository *)

Lemma concat_chunks {X : Type} (l n : nat) (xs : list X) :
  (length xs <= n * l)%nat ->
  concat (map (fun p => firstn l (skipn ((p - 1) * l) xs)) (seq 1 n)) = xs.
Proof.
  revert xs. induction n as [|n IH]; intros xs Hlen.
  - simpl in *. destruct xs; [reflexivity|simpl in Hlen; lia].
  - rewrite <- cons_seq. simpl map. rewrite <- seq_shift, List.map_map. simpl concat.
    transitivity (firstn l xs ++ skipn l xs)%list; [|apply firstn_skipn].
    f_equal.
    etransitivity; [|apply (IH (skipn l xs)); rewrite length_skipn; lia].
    f_equal. apply map_ext_in. intros p Hp. apply in_seq in Hp.
    rewrite skipn_skipn. do 2 f_equal.
    destruct p as [|p]; [lia|]. simpl. rewrite Nat.sub_0_r. lia.
Qed.

Lemma findAll_rows {A : Type} `{EntityMetadata A} (options : PaginationOptions A)
    (t : Table A) :
  rows (snd (BaseRepository.findAll options t)) = rows t.
Proof.
  unfold BaseRepository.findAll, try_catch, bind, Repository.findAndCount,
    Repository.statement, rethrow, throw, ret.
  destruct (queryFaults t) as [|[e|] rest]; simpl;
    repeat (match goal with |- context [if ?b then _ else _] => destruct b end; simpl);
    reflexivity.
Qed.

(** X11 (base.repository.ts, findAll): the pages partition the result.  On
    a healthy store and for a limit of at least 1, the pages 1 to
    totalPages, one after the other, are exactly the matching rows in the
    requested order, each row once; [findAll] never changes a row, so the
    pages can be read in any sequence. *)
Theorem findAll_pages_partition {A : Type} `{EntityMetadata A} (t : Table A) (l : Z)
    (w : option (FindOptionsWhere A)) (o : option (FindOptionsOrder A))
    (rels : option (list string)) :
  1 <= l -> queryFaults t = [] ->
  let all := Repository.ordered o (Repository.selected w t) in
  let totalPages := ceilDiv (Z.of_nat (length all)) l in
  concat (map (pageOf t l w o rels) (seq 1 (Z.to_nat totalPages))) = all
  /\ (forall p r t', BaseRepository.findAll (mkOptions (Some p) (Some l) w o rels) t = (Ok r, t') ->
        1 <= p -> Pagination.totalPages (pagination r) = totalPages)
  /\ (forall options, rows (snd (BaseRepository.findAll options t)) = rows t).
Proof.
  intros Hl Hf all totalPages.
  pose proof (ceilDiv_spec (Z.of_nat (length all)) l ltac:(lia)) as Hc.
  fold totalPages in Hc.
  split; [|split].
  - etransitivity;
      [|apply (concat_chunks (Z.to_nat l) (Z.to_nat totalPages) all); nia].
    f_equal. apply map_ext_in. intros p Hp. apply in_seq in Hp.
    unfold pageOf. rewrite (findAll_eq t (Z.of_nat p) l w o rels) by (lia || exact Hf).
    cbv zeta. simpl. fold all. do 2 f_equal. nia.
  - intros p r t' Hrun Hp.
    rewrite (findAll_eq t p l w o rels Hp Hl Hf) in Hrun. cbv zeta in Hrun.
    inversion Hrun. reflexivity.
  - intros options. apply findAll_rows.
Qed.

Lemma findAll_pages_partition_witness :
  concat (map (pageOf Example.tasks25 10 None None None) (seq 1 3))
  = rows Example.tasks25.
Proof.
  destruct (findAll_pages_partition Example.tasks25 10 None None None) as [Hall _].
  - lia.
  - reflexivity.
  - exact Hall.
Defined.

(** X12 (base.repository.ts, findAll): the edges of the page window.  A
    page that is absent or 0 is page 1, whatever the limit, and a limit
    that is absent or 0 is 10, whatever the page.
    On a healthy store a negative page is not clamped: the query is sent
    with a negative OFFSET, the store rejects it and [findAll] throws.  A
    page beyond the last one is answered, with no row, no next page and
    the true total. *)
Theorem findAll_window_edges {A : Type} `{EntityMetadata A} (t : Table A)
    (w : option (FindOptionsWhere A)) (o : option (FindOptionsOrder A))
    (rels : option (list string)) :
  queryFaults t = [] ->
  (forall p l,
     p = None \/ p = Some 0 ->
     BaseRepository.findAll (mkOptions p l w o rels) t
     = BaseRepository.findAll (mkOptions (Some 1) l w o rels) t)
  /\ (forall p l,
        l = None \/ l = Some 0 ->
        BaseRepository.findAll (mkOptions p l w o rels) t
        = BaseRepository.findAll (mkOptions p (Some 10) w o rels) t)
  /\ (forall p l,
        p < 0 -> 1 <= l ->
        BaseRepository.findAll (mkOptions (Some p) (Some l) w o rels) t
        = (Throw (Error "Failed to find entities: OFFSET must not be negative"),
           Repository.tick [] t))
  /\ (forall p l,
        1 <= l ->
        ceilDiv (Z.of_nat (length (Repository.selected w t))) l < p ->
        exists r,
          BaseRepository.findAll (mkOptions (Some p) (Some l) w o rels) t
            = (Ok r, Repository.tick [] t)
          /\ data r = []
          /\ Pagination.hasNext (pagination r) = false
          /\ Pagination.total (pagination r)
             = Z.of_nat (length (Repository.selected w t))).
Proof.
  intros Hf. split; [|split; [|split]].
  - intros p l Hp. unfold BaseRepository.findAll.
    destruct Hp as [-> | ->]; reflexivity.
  - intros p l Hl. unfold BaseRepository.findAll.
    destruct Hl as [-> | ->]; reflexivity.
  - intros p l Hp Hl.
    unfold BaseRepository.findAll, try_catch, bind, Repository.findAndCount,
      Repository.statement, orDefault, rethrow, throw. simpl.
    rewrite Hf.
    destruct (p =? 0) eqn:E0; [lia|]. destruct (l =? 0) eqn:E1; [lia|].
    destruct ((p - 1) * l <? 0) eqn:E2; [reflexivity|]. nia.
  - intros p l Hl Hp.
    assert (Hlen : length (Repository.ordered o (Repository.selected w t))
                   = length (Repository.selected w t)).
    { apply Permutation_length, ordered_perm. }
    pose proof (ceilDiv_spec (Z.of_nat (length (Repository.selected w t))) l ltac:(lia))
      as Hc.
    assert (Hp1 : 1 <= p) by nia.
    rewrite (findAll_eq t p l w o rels Hp1 Hl Hf). cbv zeta. rewrite Hlen.
    eexists. split; [reflexivity|]. simpl. split; [|split].
    + rewrite skipn_all2; [now destruct (Z.to_nat l)|]. rewrite Hlen. nia.
    + apply Z.ltb_ge. lia.
    + reflexivity.
Qed.

Lemma findAll_window_edges_witness :
  BaseRepository.findAll (mkOptions (Some 0) (Some 5) None None None) Example.tasks25
  = BaseRepository.findAll (mkOptions (Some 1) (Some 5) None None None) Example.tasks25
  /\ BaseRepository.findAll (mkOptions (Some 2) None None None None) Example.tasks25
     = BaseRepository.findAll (mkOptions (Some 2) (Some 10) None None None) Example.tasks25
  /\ BaseRepository.findAll (mkOptions (Some (-1)) (Some 10) None None None) Example.tasks25
     = (Throw (Error "Failed to find entities: OFFSET must not be negative"),
        Repository.tick [] Example.tasks25)
  /\ exists r,
       BaseRepository.findAll (mkOptions (Some 4) (Some 10) None None None) Example.tasks25
         = (Ok r, Repository.tick [] Example.tasks25)
       /\ data r = []
       /\ Pagination.hasNext (pagination r) = false
       /\ Pagination.total (pagination r) = 25.
Proof.
  destruct (findAll_window_edges Example.tasks25 None None None eq_refl)
    as (Hpage & Hlimit & Hnegative & Hbeyond).
  split; [apply Hpage; now right|].
  split; [apply Hlimit; now left|].
  split; [apply Hnegative; lia|].
  apply (Hbeyond 4 10); [lia | vm_compute; reflexivity].
Defined.

(** X13 (base.repository.ts, exists / findById / count): on a healthy
    store [exists(id)] is true exactly when [findById(id)] finds a record,
    which is exactly when the table holds a row with the id that is not
    soft-deleted; [count] counts the rows that are not soft-deleted and
    satisfy the filter.  None of the three changes a row. *)
Theorem exists_agrees_with_findById {A : Type} `{EntityMetadata A} (t : Table A)
    (id : string) :
  queryFaults t = [] ->
  exists b found,
    BaseRepository.exists_ id t = (Ok b, Repository.tick [] t)
    /\ BaseRepository.findById id t = (Ok found, Repository.tick [] t)
    /\ (b = true <-> found <> None)
    /\ (b = true <->
        exists e, In e (rows t) /\ Entity.id e = id /\ Entity.deletedAt e = None)
    /\ (forall e, found = Some e ->
          In e (rows t) /\ Entity.id e = id /\ Entity.deletedAt e = None)
    /\ (forall w,
          BaseRepository.count w t
          = (Ok (Z.of_nat (length (List.filter
                   (fun e => Repository.live e && Repository.whereOrAll w e) (rows t)))),
             Repository.tick [] t)).
Proof.
  intros Hf.
  exists (0 <? Z.of_nat (length (Repository.selected (Some (Repository.hasId id)) t))),
         (head (Repository.selected (Some (Repository.hasId id)) t)).
  split.
  { unfold BaseRepository.exists_, try_catch, bind, Repository.count,
      Repository.statement, ret. now rewrite Hf. }
  split; [now apply findById_eq|].
  assert (Hsel : forall e, In e (Repository.selected (Some (Repository.hasId id)) t) <->
                   In e (rows t) /\ Entity.id e = id /\ Entity.deletedAt e = None).
  { intros e. rewrite selected_In. simpl. rewrite hasId_true. tauto. }
  destruct (Repository.selected (Some (Repository.hasId id)) t) as [|x l] eqn:E.
  - simpl. split; [split; [discriminate|congruence]|].
    split; [|split; [discriminate|]].
    + split; [discriminate|]. intros (e & He). apply Hsel in He. destruct He.
    + intros w. now apply count_eq.
  - simpl. split; [split; [discriminate|reflexivity]|].
    split; [|split].
    + split; [|reflexivity]. intros _. exists x. apply Hsel. now left.
    + intros e [= <-]. apply Hsel. now left.
    + intros w. now apply count_eq.
Qed.

Lemma exists_agrees_with_findById_witness :
  fst (BaseRepository.exists_ "task-c" Example.tasks) = Ok false
  /\ fst (BaseRepository.findById "task-c" Example.tasks) = Ok None
  /\ fst (BaseRepository.exists_ "task-a" Example.tasks) = Ok true
  /\ fst (BaseRepository.count None Example.tasks) = Ok 2.
Proof.
  destruct (exists_agrees_with_findById Example.tasks "task-c" eq_refl)
    as (b & found & Hex & Hfind & _ & _ & _ & Hcount).
  rewrite Hcount. split; [reflexivity|]. split; [reflexivity|].
  split; reflexivity.
Defined.

Lemma hardDelete_eq {A : Type} `{EntityMetadata A} (i : string) (t : Table A) :
  i <> EmptyString ->
  queryFaults t = [] ->
  BaseRepository.hardDelete i t =
    (Ok (existsb (Repository.hasId i) (rows t)),
     Repository.tick [] (Repository.withRows
                           (List.filter (fun x => negb (Repository.hasId i x)) (rows t)) t)).
Proof.
  intros Hi Hf.
  unfold BaseRepository.hardDelete, try_catch, bind, Repository.delete,
    Repository.statement, ret, orDefault, Repository.affectedBy.
  rewrite (truthy_nonempty i Hi), Hf. simpl. f_equal. f_equal.
  induction (rows t) as [|x l IH]; [reflexivity|]. simpl.
  destruct (Repository.hasId i x); simpl; [|exact IH].
  apply Z.ltb_lt. lia.
Qed.

Lemma existsb_hasId_none {A : Type} `{EntityMetadata A} (i : string)
    (l : list (Entity.t A)) :
  (forall x, In x l -> Entity.id x <> i) -> existsb (Repository.hasId i) l = false.
Proof.
  intros Hno. destruct (existsb (Repository.hasId i) l) eqn:E; [|reflexivity].
  apply existsb_exists in E. destruct E as (x & Hx & Hid).
  apply hasId_true in Hid. now destruct (Hno x Hx).
Qed.

(** X14 (base.repository.ts, hardDelete): on a healthy store [hardDelete]
    of a non-empty id answers true exactly when a row has the id,
    soft-deleted or not, and removes every such row; the other rows stay,
    in their order.  The removal is final: the id is then not found,
    cannot be restored and a second [hardDelete] answers false. *)
Theorem hardDelete_removes_row {A : Type} `{EntityMetadata A} (t : Table A)
    (id : string) :
  id <> EmptyString ->
  queryFaults t = [] ->
  exists b t',
    BaseRepository.hardDelete id t = (Ok b, t')
    /\ (b = true <-> exists x, In x (rows t) /\ Entity.id x = id)
    /\ rows t' = List.filter (fun x => negb (Repository.hasId id x)) (rows t)
    /\ (forall x, In x (rows t') <-> In x (rows t) /\ Entity.id x <> id)
    /\ fst (BaseRepository.findById id t') = Ok None
    /\ BaseRepository.restore id t' = (Ok false, Repository.tick [] t')
    /\ fst (BaseRepository.hardDelete id t') = Ok false.
Proof.
  intros Hid Hf. rewrite (hardDelete_eq id t Hid Hf).
  eexists _, _. split; [reflexivity|].
  set (t' := Repository.tick [] _).
  assert (Hf' : queryFaults t' = []) by reflexivity.
  assert (Hrows : forall x, In x (rows t') <-> In x (rows t) /\ Entity.id x <> id).
  { intros x. unfold t'. simpl. rewrite filter_In, negb_true_iff, hasId_false. tauto. }
  assert (Hno : forall x, In x (rows t') -> Entity.id x <> id)
    by (intros x Hx; now apply Hrows in Hx).
  split; [|split; [reflexivity|split; [exact Hrows|split; [|split]]]].
  - split.
    + intros Hb. apply existsb_exists in Hb. destruct Hb as (x & Hx & Hh).
      exists x. split; [exact Hx|]. now apply hasId_true.
    + intros (x & Hx & Hh). now apply (existsb_hasId_In id (rows t) x).
  - rewrite (findById_eq id t' Hf'). simpl.
    rewrite selected_hasId_missing; [reflexivity|]. intros e He _. now apply Hno.
  - rewrite (restore_eq id t' Hid Hf'), existsb_hasId_none by exact Hno.
    do 2 f_equal. unfold Repository.withRows. destruct t' as [rs c u n q] eqn:Et.
    simpl. f_equal. simpl in Hno.
    clear - Hno. induction rs as [|x rs IH]; [reflexivity|]. simpl.
    rewrite marked_miss by (apply Hno; now left).
    f_equal. apply IH. intros y Hy. apply Hno. now right.
  - rewrite (hardDelete_eq id t' Hid Hf'). simpl. f_equal.
    apply existsb_hasId_none. exact Hno.
Qed.

Lemma hardDelete_removes_row_witness :
  exists b t',
    BaseRepository.hardDelete "task-c" Example.tasks = (Ok b, t')
    /\ b = true
    /\ rows t' = [Example.taskA; Example.taskB]
    /\ BaseRepository.restore "task-c" t' = (Ok false, Repository.tick [] t').
Proof.
  destruct (hardDelete_removes_row Example.tasks "task-c")
    as (b & t' & Hdel & Hb & Hrows & _ & _ & Hrestore & _).
  - discriminate.
  - reflexivity.
  - exists b, t'. split; [exact Hdel|]. split; [|split; [|exact Hrestore]].
    + apply Hb. exists Example.taskC. split; [simpl; tauto|reflexivity].
    + rewrite Hrows. reflexivity.
Defined.

(** X15 (base.repository.ts, create / findById): on a healthy store whose
    next generated id is fresh, and when the new row breaks no constraint,
    [create] appends one live row that carries the generated id, the data
    after the entity's before-insert hook and the current time as creation
    and update date; the rows there were are kept, and [findById] of the
    new id returns the new record. *)
Theorem create_then_findById {A : Type} `{EntityMetadata A} (d : A) (t : Table A) :
  queryFaults t = [] ->
  (forall x, In x (rows t) -> Entity.id x <> uuid_generate_v4 t (inserted t)) ->
  violation (rows t)
    (Entity.mk (uuid_generate_v4 t (inserted t)) (beforeSave d) (clock t) (clock t) None)
    = None ->
  exists e t',
    BaseRepository.create d t = (Ok e, t')
    /\ e = Entity.mk (uuid_generate_v4 t (inserted t)) (beforeSave d) (clock t) (clock t) None
    /\ rows t' = (rows t ++ [e])%list
    /\ queryFaults t' = []
    /\ fst (BaseRepository.findById (Entity.id e) t') = Ok (Some e)
    /\ fst (BaseRepository.exists_ (Entity.id e) t') = Ok true.
Proof.
  intros Hf Hfresh Hv.
  set (e := Entity.mk (uuid_generate_v4 t (inserted t)) (beforeSave d) (clock t) (clock t) None).
  assert (Hcreate : exists t', BaseRepository.create d t = (Ok e, t')
                      /\ rows t' = (rows t ++ [e])%list /\ queryFaults t' = []).
  { unfold BaseRepository.create, try_catch, Repository.insert, Repository.statement.
    rewrite Hf. simpl. rewrite (existsb_hasId_none _ _ Hfresh), Hv.
    eexists. split; [reflexivity|]. split; reflexivity. }
  destruct Hcreate as (t' & Hcreate & Hrows & Hf').
  exists e, t'. split; [exact Hcreate|]. split; [reflexivity|].
  split; [exact Hrows|]. split; [exact Hf'|].
  assert (Hsel : Repository.selected (Some (Repository.hasId (Entity.id e))) t' = [e]).
  { unfold Repository.selected. rewrite Hrows, List.filter_app.
    replace (List.filter _ (rows t)) with (@nil (Entity.t A)).
    - simpl. unfold Repository.hasId. simpl. now rewrite String.eqb_refl.
    - symmetry. apply (selected_hasId_missing (Entity.id e) t).
      intros x Hx _. now apply Hfresh. }
  split.
  - rewrite (findById_eq _ t' Hf'), Hsel. reflexivity.
  - unfold BaseRepository.exists_, try_catch, bind, Repository.count,
      Repository.statement, ret. rewrite Hf', Hsel. reflexivity.
Qed.

Lemma create_then_findById_witness :
  exists e t',
    BaseRepository.create (Example.task (Some "bob") TaskStatus.TODO None) Example.tasks
      = (Ok e, t')
    /\ Entity.id e = "generated-0"
    /\ Entity.createdAt e = 1000
    /\ length (rows t') = 4%nat
    /\ fst (BaseRepository.findById "generated-0" t') = Ok (Some e).
Proof.
  destruct (create_then_findById (Example.task (Some "bob") TaskStatus.TODO None)
              Example.tasks)
    as (e & t' & Hcreate & He & Hrows & _ & Hfind & _).
  - reflexivity.
  - intros x [<-|[<-|[<-|[]]]]; discriminate.
  - reflexivity.
  - exists e, t'. split; [exact Hcreate|]. subst e.
    split; [reflexivity|]. split; [reflexivity|]. split; [|exact Hfind].
    rewrite Hrows. reflexivity.
Defined.

Lemma update_eq {A : Type} `{EntityMetadata A} (t : Table A) (e : Entity.t A)
    (d : Partial) :
  queryFaults t = [] ->
  List.NoDup (map Entity.id (rows t)) ->
  In e (rows t) ->
  Entity.deletedAt e = None ->
  let e' := Entity.mk (Entity.id e) (beforeSave (merge (Entity.fields e) d))
                      (Entity.createdAt e) (clock t + 1) None in
  BaseRepository.update (Entity.id e) d t =
    match violation (List.filter (fun x => negb (Repository.hasId (Entity.id e) x)) (rows t)) e' with
    | Some c =>
        (Throw (Error ("Failed to update entity: "
                       +:+ "duplicate key value violates unique constraint " +:+ c)),
         Repository.tick [] (Repository.tick [] t))
    | None =>
        (Ok e',
         Repository.tick []
           (Repository.withRows
              (map (fun x => if Repository.hasId (Entity.id e) x then e' else x) (rows t))
              (Repository.tick [] t)))
    end.
Proof.
  intros Hf Hnd Hin Hlive e'.
  unfold BaseRepository.update, try_catch, bind.
  rewrite (findById_eq (Entity.id e) t Hf).
  change (Repository.selected (Some (Repository.hasId (Entity.id e))) t)
    with (List.filter (fun x => Repository.live x && Repository.hasId (Entity.id e) x)
            (rows t)).
  rewrite (selected_unique (rows t) e Hnd Hin Hlive). simpl head.
  unfold Repository.save, Repository.statement, BaseRepository.mergeInto. simpl.
  rewrite Hlive. fold e'.
  destruct (violation _ e'); reflexivity.
Qed.

(** X16 (base.repository.ts, update): on a healthy store with unique ids,
    [update] of a live row with data that changes a column of the row, and
    still does after the entity's before-update hook, and that breaks no
    constraint, returns the row with the given columns merged in and the
    hook applied; the id and the creation date are kept and the update date
    is the time of the save.  Exactly that row of the table is replaced,
    and [findById] then returns the updated record. *)
Theorem update_replaces_one_row {A : Type} `{EntityMetadata A} (t : Table A)
    (e : Entity.t A) (d : Partial) :
  queryFaults t = [] ->
  List.NoDup (map Entity.id (rows t)) ->
  In e (rows t) ->
  Entity.deletedAt e = None ->
  merge (Entity.fields e) d <> Entity.fields e ->
  beforeSave (merge (Entity.fields e) d) <> Entity.fields e ->
  let e' := Entity.mk (Entity.id e) (beforeSave (merge (Entity.fields e) d))
                      (Entity.createdAt e) (clock t + 1) None in
  violation (List.filter (fun x => negb (Repository.hasId (Entity.id e) x)) (rows t)) e'
    = None ->
  exists t',
    BaseRepository.update (Entity.id e) d t = (Ok e', t')
    /\ length (rows t') = length (rows t)
    /\ (forall n x, nth_error (rows t) n = Some x -> Entity.id x <> Entity.id e ->
          nth_error (rows t') n = Some x)
    /\ (forall n, nth_error (rows t) n = Some e -> nth_error (rows t') n = Some e')
    /\ fst (BaseRepository.findById (Entity.id e) t') = Ok (Some e').
Proof.
  intros Hf Hnd Hin Hlive _ _ e' Hv.
  pose proof (update_eq t e d Hf Hnd Hin Hlive) as Hup. cbv zeta in Hup.
  fold e' in Hup. rewrite Hv in Hup.
  eexists. split; [exact Hup|].
  set (f := fun x : Entity.t A => if Repository.hasId (Entity.id e) x then e' else x).
  assert (Hfid : forall x, Entity.id (f x) = Entity.id x).
  { intros x. unfold f. destruct (Repository.hasId (Entity.id e) x) eqn:E; [|reflexivity].
    apply hasId_true in E. now rewrite E. }
  simpl rows. split; [apply length_map|]. split; [|split].
  - intros n x Hn Hne. rewrite nth_error_map, Hn. simpl. unfold f.
    apply hasId_false in Hne. now rewrite Hne.
  - intros n Hn. rewrite nth_error_map, Hn. simpl. unfold f.
    unfold Repository.hasId. now rewrite String.eqb_refl.
  - rewrite findById_eq by reflexivity.
    change (Repository.selected (Some (Repository.hasId (Entity.id e))) ?t0)
      with (List.filter (fun x => Repository.live x && Repository.hasId (Entity.id e) x)
              (rows t0)).
    simpl rows.
    assert (Hnd' : List.NoDup (map Entity.id (map f (rows t)))).
    { rewrite List.map_map. erewrite map_ext; [exact Hnd|]. exact Hfid. }
    assert (Hin' : In e' (map f (rows t))).
    { apply in_map_iff. exists e. split; [|exact Hin]. unfold f, Repository.hasId.
      now rewrite String.eqb_refl. }
    pose proof (selected_unique (map f (rows t)) e' Hnd' Hin' eq_refl) as Hsel.
    change (Entity.id e') with (Entity.id e) in Hsel. rewrite Hsel. reflexivity.
Qed.

Lemma update_replaces_one_row_witness :
  exists t',
    BaseRepository.update (A:=Task.t) "task-a"
      {| Task.p_title := Some "Ship it"; Task.p_description := None;
         Task.p_status := Some TaskStatus.DONE; Task.p_priority := None;
         Task.p_dueDate := None; Task.p_assigneeId := None |} Example.tasks
    = (Ok (Entity.mk "task-a"
             {| Task.title := "Ship it"; Task.description := None;
                Task.status := TaskStatus.DONE; Task.priority := TaskPriority.MEDIUM;
                Task.dueDate := None; Task.assigneeId := Some "alice";
                Task.createdById := "creator" |} 100 1001 None), t')
    /\ nth_error (rows t') 1 = Some Example.taskB.
Proof.
  destruct (@update_replaces_one_row Task.t Task_metadata Example.tasks Example.taskA
              {| Task.p_title := Some "Ship it"; Task.p_description := None;
                 Task.p_status := Some TaskStatus.DONE; Task.p_priority := None;
                 Task.p_dueDate := None; Task.p_assigneeId := None |})
    as (t' & Hup & _ & Hother & _ & _).
  - reflexivity.
  - simpl. repeat constructor; simpl; intuition discriminate.
  - simpl. tauto.
  - reflexivity.
  - discriminate.
  - discriminate.
  - reflexivity.
  - exists t'. split; [exact Hup|]. apply Hother; [reflexivity|discriminate].
Defined.

(** * Further properties of users *)

Lemma isSpace_lowerChar (c : ascii) : isSpace (lowerChar c) = isSpace c.
Proof. destruct c as [[] [] [] [] [] [] [] []]; reflexivity. Qed.

Lemma lowerChar_idem (c : ascii) : lowerChar (lowerChar c) = lowerChar c.
Proof. destruct c as [[] [] [] [] [] [] [] []]; reflexivity. Qed.

Lemma dropSpaces_map_lower (l : list ascii) :
  dropSpaces (map lowerChar l) = map lowerChar (dropSpaces l).
Proof.
  induction l as [|c l IH]; [reflexivity|]. simpl.
  rewrite isSpace_lowerChar. now destruct (isSpace c).
Qed.

Lemma dropSpaces_idem (l : list ascii) : dropSpaces (dropSpaces l) = dropSpaces l.
Proof.
  induction l as [|c l IH]; [reflexivity|]. simpl.
  destruct (isSpace c) eqn:E; [exact IH|]. simpl. now rewrite E.
Qed.

Lemma dropSpaces_length (l : list ascii) : (length (dropSpaces l) <= length l)%nat.
Proof.
  induction l as [|c l IH]; [reflexivity|]. simpl.
  destruct (isSpace c); simpl; lia.
Qed.

Lemma dropSpaces_snoc (a : list ascii) (c : ascii) :
  isSpace c = false -> exists a', dropSpaces (a ++ [c]) = (a' ++ [c])%list.
Proof.
  intros Hc. induction a as [|x a IH]; simpl.
  - rewrite Hc. now exists [].
  - destruct (isSpace x); [exact IH|]. now exists (x :: a).
Qed.

Lemma dropSpaces_trailing (m : list ascii) :
  dropSpaces m = m ->
  dropSpaces (rev (dropSpaces (rev m))) = rev (dropSpaces (rev m)).
Proof.
  intros Hm. destruct m as [|c m]; [reflexivity|].
  assert (Hc : isSpace c = false).
  { destruct (isSpace c) eqn:E; [|reflexivity]. exfalso.
    simpl in Hm. rewrite E in Hm.
    pose proof (dropSpaces_length m) as Hl. rewrite Hm in Hl. simpl in Hl. lia. }
  simpl rev. destruct (dropSpaces_snoc (rev m) c Hc) as (a' & ->).
  rewrite rev_app_distr. simpl. now rewrite Hc.
Qed.

Lemma trim_idem (s : string) : trim (trim s) = trim s.
Proof.
  unfold trim. rewrite list_ascii_of_string_of_list_ascii.
  set (m := dropSpaces (list_ascii_of_string s)).
  assert (Hm : dropSpaces m = m) by apply dropSpaces_idem.
  rewrite (dropSpaces_trailing m Hm), rev_involutive, dropSpaces_idem.
  reflexivity.
Qed.

Lemma toLowerCase_idem (s : string) : toLowerCase (toLowerCase s) = toLowerCase s.
Proof.
  unfold toLowerCase. rewrite list_ascii_of_string_of_list_ascii, List.map_map.
  f_equal. apply map_ext. apply lowerChar_idem.
Qed.

Lemma toLowerCase_trim (s : string) : toLowerCase (trim s) = trim (toLowerCase s).
Proof.
  unfold toLowerCase, trim. rewrite !list_ascii_of_string_of_list_ascii.
  f_equal. now rewrite dropSpaces_map_lower, <- map_rev, dropSpaces_map_lower, <- map_rev.
Qed.

Lemma normalize_idem (s : string) :
  trim (toLowerCase (trim (toLowerCase s))) = trim (toLowerCase s).
Proof. now rewrite toLowerCase_trim, toLowerCase_idem, trim_idem. Qed.

(** X17 (user.entity.ts, normalizeEmail): the before-insert and
    before-update hook is idempotent: a user that went through it once is
    left as it is by every later save.  A normalized email has no upper
    case letter and no white space at either end, in the sense that
    lowering or trimming it again changes nothing. *)
Theorem normalizeEmail_idempotent (u : User.t) :
  User.normalizeEmail (User.normalizeEmail u) = User.normalizeEmail u
  /\ toLowerCase (User.email (User.normalizeEmail u)) = User.email (User.normalizeEmail u)
  /\ trim (User.email (User.normalizeEmail u)) = User.email (User.normalizeEmail u)
  /\ beforeSave (beforeSave u) = beforeSave u.
Proof.
  assert (Hidem : User.normalizeEmail (User.normalizeEmail u) = User.normalizeEmail u).
  { unfold User.normalizeEmail.
    destruct (truthy (User.email u)) eqn:E; simpl; [|now rewrite E].
    destruct (truthy (trim (toLowerCase (User.email u)))); simpl; [|reflexivity].
    now rewrite normalize_idem. }
  split; [exact Hidem|]. rewrite normalized_email.
  split; [|split].
  - now rewrite toLowerCase_trim, toLowerCase_idem.
  - apply trim_idem.
  - exact Hidem.
Qed.

Lemma findByEmail_eq (email : string) (t : Table User.t) :
  queryFaults t = [] ->
  UserRepository.findByEmail email t =
    (Ok (head (Repository.selected (Some (UserRepository.byEmail email)) t)),
     Repository.tick [] t).
Proof.
  intros Hf.
  unfold UserRepository.findByEmail, try_catch, bind, Repository.findOne,
    Repository.statement, ret.
  now rewrite Hf.
Qed.

Lemma selected_byEmail_none (email : string) (l : list (Entity.t User.t)) :
  (forall x, In x l -> Entity.deletedAt x = None ->
     User.email (Entity.fields x) <> trim (toLowerCase email)) ->
  List.filter (fun e => Repository.live e && UserRepository.byEmail email e) l = [].
Proof.
  induction l as [|x l IH]; intros Hl; [reflexivity|]. simpl.
  rewrite IH by (intros y Hy; apply Hl; now right).
  destruct (Repository.live x) eqn:El; [|reflexivity].
  unfold UserRepository.byEmail. destruct (String.eqb _ _) eqn:E; [|reflexivity].
  apply String.eqb_eq in E. exfalso. apply (Hl x); [now left| |exact E].
  unfold Repository.live in El. now destruct (Entity.deletedAt x).
Qed.

Lemma create_appends {A : Type} `{EntityMetadata A} (d : A) (t : Table A) :
  queryFaults t = [] ->
  (forall x, In x (rows t) -> Entity.id x <> uuid_generate_v4 t (inserted t)) ->
  violation (rows t)
    (Entity.mk (uuid_generate_v4 t (inserted t)) (beforeSave d) (clock t) (clock t) None)
    = None ->
  exists t',
    BaseRepository.create d t
      = (Ok (Entity.mk (uuid_generate_v4 t (inserted t)) (beforeSave d)
                       (clock t) (clock t) None), t')
    /\ rows t' = (rows t ++ [Entity.mk (uuid_generate_v4 t (inserted t)) (beforeSave d)
                                       (clock t) (clock t) None])%list
    /\ queryFaults t' = [].
Proof.
  intros Hf Hfresh Hv.
  unfold BaseRepository.create, try_catch, Repository.insert, Repository.statement.
  rewrite Hf. simpl. rewrite (existsb_hasId_none _ _ Hfresh), Hv.
  eexists. split; [reflexivity|]. split; reflexivity.
Qed.

Lemma email_violation (l : list (Entity.t User.t)) (e : Entity.t User.t) :
  violation l e = None <->
  forall x, In x l -> User.email (Entity.fields x) <> User.email (Entity.fields e).
Proof.
  simpl. destruct (existsb _ l) eqn:E.
  - split; [discriminate|]. intros Hno. exfalso.
    apply existsb_exists in E. destruct E as (x & Hx & E).
    apply String.eqb_eq in E. now apply (Hno x Hx).
  - split; [|reflexivity]. intros _ x Hx Heq.
    assert (Ht : existsb (fun x0 : Entity.t User.t =>
                   String.eqb (User.email (Entity.fields x0)) (User.email (Entity.fields e))) l
                 = true).
    { apply existsb_exists. exists x. split; [exact Hx|]. now apply String.eqb_eq. }
    congruence.
Qed.

(** X18 (user.service.ts, createUser; user.repository.ts, findByEmail): on
    a healthy store, whatever the state of the cache, creating a user
    whose normalized email no row has stores the email lower-cased and
    trimmed, with the bcrypt hash of the password, the role USER unless one
    is given and the status ACTIVE.  The user is then found by
    [findByEmail] under every spelling that normalizes to the same email,
    and a second [createUser] with such a spelling is refused with
    'Email already registered'. *)
Theorem createUser_then_findByEmail rt bcrypt (d d2 : UserService.CreateUserDTO)
    (spelling : string) (r : Redis) (t : Table User.t) :
  queryFaults t = [] ->
  (forall x, In x (rows t) -> Entity.id x <> uuid_generate_v4 t (inserted t)) ->
  (forall x, In x (rows t) ->
     User.email (Entity.fields x) <> trim (toLowerCase (UserService.email d))) ->
  trim (toLowerCase spelling) = trim (toLowerCase (UserService.email d)) ->
  trim (toLowerCase (UserService.email d2)) = trim (toLowerCase (UserService.email d)) ->
  exists user r' t',
    UserService.createUser rt bcrypt d (r, t) = (Ok user, (r', t'))
    /\ Entity.fields user = User.normalizeEmail (newUserFields bcrypt d)
    /\ User.email (Entity.fields user) = trim (toLowerCase (UserService.email d))
    /\ rows t' = (rows t ++ [user])%list
    /\ fst (UserRepository.findByEmail spelling t') = Ok (Some user)
    /\ UserService.createUser rt bcrypt d2 (r', t')
       = (Throw (Error "Email already registered"), (r', Repository.tick [] t')).
Proof.
  intros Hq Hfresh Hnew Hsp Hd2.
  assert (Hfind : UserRepository.findByEmail (UserService.email d) t
                  = (Ok None, Repository.tick [] t)).
  { rewrite (findByEmail_eq _ t Hq). unfold Repository.selected.
    change (Repository.whereOrAll (Some (UserRepository.byEmail (UserService.email d))))
      with (UserRepository.byEmail (UserService.email d)).
    rewrite selected_byEmail_none; [reflexivity|]. intros x Hx _. now apply Hnew. }
  destruct (@create_appends User.t User_metadata (newUserFields bcrypt d)
              (Repository.tick [] t) eq_refl Hfresh) as (t' & Ec & Hrows & Hq').
  { apply email_violation. intros x Hx. simpl. rewrite normalized_email. simpl.
    now apply Hnew. }
  simpl in Ec, Hrows. set (user := Entity.mk _ _ _ _ _) in Ec, Hrows.
  destruct (set_total rt (CachePrefix.USER +:+ Entity.id user) (User.toValue user)
              (Some CacheTTL.LONG) r) as (b & r' & Hset).
  assert (Hemail : User.email (Entity.fields user) = trim (toLowerCase (UserService.email d))).
  { unfold user. simpl. now rewrite normalized_email. }
  assert (Hsel : forall s, trim (toLowerCase s) = trim (toLowerCase (UserService.email d)) ->
            Repository.selected (Some (UserRepository.byEmail s)) t' = [user]).
  { intros s Hs. unfold Repository.selected. rewrite Hrows, List.filter_app.
    change (Repository.whereOrAll (Some (UserRepository.byEmail s)))
      with (UserRepository.byEmail s).
    rewrite selected_byEmail_none by (intros x Hx _; rewrite Hs; now apply Hnew).
    simpl. unfold UserRepository.byEmail. rewrite Hs, Hemail, String.eqb_refl.
    reflexivity. }
  exists user, r', t'. split; [|split; [reflexivity|split; [exact Hemail|split; [exact Hrows|split]]]].
  - unfold UserService.createUser. rewrite try_catch_rethrow.
    unfold bind at 1. rewrite onSnd_eq, Hfind. simpl fst. simpl snd. cbv iota beta.
    unfold bind at 1. rewrite onSnd_eq. fold (newUserFields bcrypt d). rewrite Ec.
    simpl fst. simpl snd. cbv iota beta.
    unfold bind. rewrite onFst_eq, Hset. reflexivity.
  - rewrite (findByEmail_eq _ t' Hq'), (Hsel _ Hsp). reflexivity.
  - unfold UserService.createUser. rewrite try_catch_rethrow.
    unfold bind at 1. rewrite onSnd_eq, (findByEmail_eq _ t' Hq'), (Hsel _ Hd2).
    reflexivity.
Qed.

Lemma createUser_then_findByEmail_witness :
  exists user r' t',
    UserService.createUser Example.runtime Example.bcrypt Example.newUser
      (Example.redis [], Example.users) = (Ok user, (r', t'))
    /\ User.email (Entity.fields user) = "carol@example.com"
    /\ fst (UserRepository.findByEmail "CAROL@example.com  " t') = Ok (Some user).
Proof.
  destruct (createUser_then_findByEmail Example.runtime Example.bcrypt Example.newUser
              Example.newUser "CAROL@example.com  " (Example.redis []) Example.users)
    as (user & r' & t' & Hcreate & _ & Hemail & _ & Hfind & _).
  - reflexivity.
  - intros x [<-|[<-|[]]]; discriminate.
  - intros x [<-|[<-|[]]]; vm_compute; discriminate.
  - vm_compute. reflexivity.
  - reflexivity.
  - exists user, r', t'. split; [exact Hcreate|]. split; [|exact Hfind].
    rewrite Hemail. vm_compute. reflexivity.
Defined.

(** X19 (user.service.ts, createUser): on a healthy store, when a user
    that is not soft-deleted already has the normalized email, [createUser]
    throws 'Email already registered' after the one lookup: no row is
    added or changed and the cache is not touched. *)
Theorem createUser_duplicate_email rt bcrypt (d : UserService.CreateUserDTO)
    (r : Redis) (t : Table User.t) (x : Entity.t User.t) :
  queryFaults t = [] ->
  In x (rows t) ->
  Entity.deletedAt x = None ->
  User.email (Entity.fields x) = trim (toLowerCase (UserService.email d)) ->
  UserService.createUser rt bcrypt d (r, t)
  = (Throw (Error "Email already registered"), (r, Repository.tick [] t)).
Proof.
  intros Hq Hx Hlive Hemail.
  unfold UserService.createUser. rewrite try_catch_rethrow.
  unfold bind at 1. rewrite onSnd_eq, (findByEmail_eq _ t Hq).
  destruct (Repository.selected _ t) as [|y l] eqn:E; [|reflexivity].
  exfalso.
  assert (Hin : In x (Repository.selected
                        (Some (UserRepository.byEmail (UserService.email d))) t)).
  { apply selected_In. split; [exact Hx|]. split; [exact Hlive|].
    simpl. unfold UserRepository.byEmail. now apply String.eqb_eq. }
  rewrite E in Hin. destruct Hin.
Qed.

Lemma createUser_duplicate_email_witness :
  UserService.createUser Example.runtime Example.bcrypt
    {| UserService.email := " Alice@Example.com"; UserService.password := "secret";
       UserService.firstName := "Alice"; UserService.lastName := "Smith";
       UserService.role := None |}
    (Example.redis [], Example.users)
  = (Throw (Error "Email already registered"),
     (Example.redis [], Repository.tick [] Example.users)).
Proof.
  apply (createUser_duplicate_email Example.runtime Example.bcrypt _ _ _
           (Example.row "alice" (Example.user "alice@example.com") None)).
  - reflexivity.
  - simpl. tauto.
  - reflexivity.
  - vm_compute. reflexivity.
Defined.

(** X20 (user.service.ts, createUser; migration CreateUsersTable): the
    email of a soft-deleted user cannot be registered again.  The lookup
    before the insert does not see the soft-deleted row, so the duplicate
    check passes, but the unique constraint on the email column covers
    every row: the insert is rejected and [createUser] throws the wrapped
    store error, a plain Error without status code, instead of
    'Email already registered'.  No row is added and the cache is not
    touched. *)
Theorem createUser_email_of_deleted_user rt bcrypt (d : UserService.CreateUserDTO)
    (r : Redis) (t : Table User.t) (x : Entity.t User.t) :
  queryFaults t = [] ->
  (forall y, In y (rows t) -> Entity.id y <> uuid_generate_v4 t (inserted t)) ->
  (forall y, In y (rows t) -> Entity.deletedAt y = None ->
     User.email (Entity.fields y) <> trim (toLowerCase (UserService.email d))) ->
  In x (rows t) ->
  Entity.deletedAt x <> None ->
  User.email (Entity.fields x) = trim (toLowerCase (UserService.email d)) ->
  fst (UserRepository.findByEmail (UserService.email d) t) = Ok None
  /\ exists e t',
      UserService.createUser rt bcrypt d (r, t) = (Throw e, (r, t'))
      /\ rows t' = rows t
      /\ name e = "Error"
      /\ statusCode e = None
      /\ message e <> "Email already registered"
      /\ fst (errorHandler e) = 500.
Proof.
  intros Hq Hfresh Hnew Hx Hdel Hemail.
  assert (Hfind : UserRepository.findByEmail (UserService.email d) t
                  = (Ok None, Repository.tick [] t)).
  { rewrite (findByEmail_eq _ t Hq). unfold Repository.selected.
    change (Repository.whereOrAll (Some (UserRepository.byEmail (UserService.email d))))
      with (UserRepository.byEmail (UserService.email d)).
    now rewrite selected_byEmail_none. }
  split; [now rewrite Hfind|].
  unfold UserService.createUser. rewrite try_catch_rethrow.
  unfold bind at 1. rewrite onSnd_eq, Hfind. simpl fst. simpl snd. cbv iota beta.
  unfold bind at 1. rewrite onSnd_eq.
  unfold BaseRepository.create, try_catch, Repository.insert, Repository.statement.
  simpl queryFaults. cbv iota. simpl.
  rewrite (existsb_hasId_none _ _ Hfresh).
  assert (Hv : existsb (fun x0 : Entity.t User.t =>
                 String.eqb (User.email (Entity.fields x0))
                   (User.email (User.normalizeEmail
                      {| User.email := UserService.email d;
                         User.passwordHash :=
                           hash bcrypt (UserService.password d) UserService.SALT_ROUNDS;
                         User.firstName := UserService.firstName d;
                         User.lastName := UserService.lastName d;
                         User.role := default UserRole.USER (UserService.role d);
                         User.status := UserStatus.ACTIVE |}))) (rows t) = true).
  { apply existsb_exists. exists x. split; [exact Hx|].
    rewrite normalized_email. simpl. now apply String.eqb_eq. }
  rewrite Hv. simpl. eexists _, _. split; [reflexivity|].
  repeat split. discriminate.
Qed.

Lemma createUser_email_of_deleted_user_witness :
  fst (UserRepository.findByEmail "bob@example.com"
         (Example.table [Example.row "alice" (Example.user "alice@example.com") None;
                         Example.row "bob" (Example.user "bob@example.com") (Some 200)]))
    = Ok None
  /\ exists e t',
      UserService.createUser Example.runtime Example.bcrypt
        {| UserService.email := "bob@example.com"; UserService.password := "secret";
           UserService.firstName := "Bob"; UserService.lastName := "Stone";
           UserService.role := None |}
        (Example.redis [],
         Example.table [Example.row "alice" (Example.user "alice@example.com") None;
                        Example.row "bob" (Example.user "bob@example.com") (Some 200)])
      = (Throw e, (Example.redis [], t'))
      /\ length (rows t') = 2%nat
      /\ message e <> "Email already registered".
Proof.
  destruct (createUser_email_of_deleted_user Example.runtime Example.bcrypt
              {| UserService.email := "bob@example.com"; UserService.password := "secret";
                 UserService.firstName := "Bob"; UserService.lastName := "Stone";
                 UserService.role := None |}
              (Example.redis [])
              (Example.table [Example.row "alice" (Example.user "alice@example.com") None;
                              Example.row "bob" (Example.user "bob@example.com") (Some 200)])
              (Example.row "bob" (Example.user "bob@example.com") (Some 200)))
    as (Hfind & e & t' & Hrun & Hrows & _ & _ & Hmsg & _).
  - reflexivity.
  - intros y [<-|[<-|[]]]; discriminate.
  - intros y [<-|[<-|[]]] Hlive; [vm_compute; discriminate | discriminate Hlive].
  - simpl. tauto.
  - discriminate.
  - vm_compute. reflexivity.
  - split; [exact Hfind|]. exists e, t'. split; [exact Hrun|].
    split; [now rewrite Hrows | exact Hmsg].
Defined.

Lemma invalidateUserCache_total (userId : string) (r : Redis) :
  exists r', CacheService.invalidateUserCache userId r = (Ok tt, r').
Proof.
  unfold CacheService.invalidateUserCache.
  destruct (try_catch_fallback_total
              (CacheService.del (CachePrefix.USER +:+ userId) ;;;
               CacheService.delPattern (CachePrefix.USER_TASKS +:+ userId +:+ ":*") ;;;
               CacheService.del (CachePrefix.TASK_STATS +:+ userId) ;;; ret tt) tt r)
    as ([] & r' & E).
  now exists r'.
Qed.

Lemma invalidateTaskCache_total (taskId : string) (r : Redis) :
  exists r', CacheService.invalidateTaskCache taskId r = (Ok tt, r').
Proof.
  unfold CacheService.invalidateTaskCache.
  destruct (try_catch_fallback_total
              (CacheService.del (CachePrefix.TASK +:+ taskId) ;;; ret tt) tt r)
    as ([] & r' & E).
  now exists r'.
Qed.

Lemma findById_found {A : Type} `{EntityMetadata A} (t : Table A) (e : Entity.t A) :
  queryFaults t = [] ->
  List.NoDup (map Entity.id (rows t)) ->
  In e (rows t) ->
  Entity.deletedAt e = None ->
  BaseRepository.findById (Entity.id e) t = (Ok (Some e), Repository.tick [] t).
Proof.
  intros Hf Hnd Hin Hlive. rewrite (findById_eq (Entity.id e) t Hf).
  change (Repository.selected (Some (Repository.hasId (Entity.id e))) t)
    with (List.filter (fun x => Repository.live x && Repository.hasId (Entity.id e) x)
            (rows t)).
  now rewrite (selected_unique (rows t) e Hnd Hin Hlive).
Qed.

(** X21 (user.service.ts, changePassword): on a healthy store with unique
    ids, a wrong current password makes [changePassword] throw
    'Current password is incorrect' after the one lookup; the rows, the
    stored hash included, and the cache are as before. *)
Theorem changePassword_wrong_password bcrypt (id oldPassword newPassword : string)
    (r : Redis) (t : Table User.t) (u : Entity.t User.t) :
  queryFaults t = [] ->
  List.NoDup (map Entity.id (rows t)) ->
  In u (rows t) ->
  Entity.deletedAt u = None ->
  Entity.id u = id ->
  compare bcrypt oldPassword (User.passwordHash (Entity.fields u)) = false ->
  UserService.changePassword bcrypt id oldPassword newPassword (r, t)
  = (Throw (Error "Current password is incorrect"), (r, Repository.tick [] t)).
Proof.
  intros Hq Hnd Hin Hlive <- Hcmp.
  unfold UserService.changePassword. rewrite try_catch_rethrow.
  unfold bind at 1. rewrite onSnd_eq, (findById_found t u Hq Hnd Hin Hlive).
  simpl fst. simpl snd. cbv iota beta zeta. now rewrite Hcmp.
Qed.

Lemma changePassword_wrong_password_witness :
  UserService.changePassword Example.bcrypt "alice" "guess" "new-secret"
    (Example.redis [("user:alice", "{}")], Example.users)
  = (Throw (Error "Current password is incorrect"),
     (Example.redis [("user:alice", "{}")], Repository.tick [] Example.users)).
Proof.
  apply (changePassword_wrong_password Example.bcrypt "alice" "guess" "new-secret" _ _
           (Example.row "alice" (Example.user "alice@example.com") None)).
  - reflexivity.
  - simpl. repeat constructor; simpl; intuition discriminate.
  - simpl. tauto.
  - reflexivity.
  - reflexivity.
  - reflexivity.
Defined.

Lemma updatePassword_eq (t : Table User.t) (u : Entity.t User.t) (h : string) :
  queryFaults t = [] ->
  List.NoDup (map Entity.id (rows t)) ->
  In u (rows t) ->
  Entity.deletedAt u = None ->
  trim (toLowerCase (User.email (Entity.fields u))) = User.email (Entity.fields u) ->
  (forall y, In y (rows t) -> Entity.id y <> Entity.id u ->
     User.email (Entity.fields y) <> User.email (Entity.fields u)) ->
  UserRepository.updatePassword (Entity.id u) h t =
    (Ok (withPasswordHash h u (clock t + 1)),
     Repository.tick []
       (Repository.withRows
          (map (fun x => if Repository.hasId (Entity.id u) x
                         then withPasswordHash h u (clock t + 1) else x) (rows t))
          (Repository.tick [] t))).
Proof.
  intros Hq Hnd Hin Hlive Hnorm Huniq.
  unfold UserRepository.updatePassword, try_catch, bind.
  rewrite (findById_found t u Hq Hnd Hin Hlive).
  unfold Repository.save, Repository.statement. simpl queryFaults. cbv iota.
  simpl.
  assert (Hn : User.normalizeEmail
                 {| User.email := User.email (Entity.fields u);
                    User.passwordHash := h;
                    User.firstName := User.firstName (Entity.fields u);
                    User.lastName := User.lastName (Entity.fields u);
                    User.role := User.role (Entity.fields u);
                    User.status := User.status (Entity.fields u) |}
               = {| User.email := User.email (Entity.fields u);
                    User.passwordHash := h;
                    User.firstName := User.firstName (Entity.fields u);
                    User.lastName := User.lastName (Entity.fields u);
                    User.role := User.role (Entity.fields u);
                    User.status := User.status (Entity.fields u) |}).
  { unfold User.normalizeEmail. simpl.
    destruct (truthy (User.email (Entity.fields u))); [|reflexivity]. now rewrite Hnorm. }
  rewrite Hn, Hlive. simpl.
  assert (Hv : existsb (fun x : Entity.t User.t =>
                  String.eqb (User.email (Entity.fields x)) (User.email (Entity.fields u)))
                 (List.filter (fun x => negb (Repository.hasId (Entity.id u) x)) (rows t))
               = false).
  { destruct (existsb _ _) eqn:E; [|reflexivity]. exfalso.
    apply existsb_exists in E. destruct E as (y & Hy & E).
    apply filter_In in Hy. destruct Hy as [Hy Hne].
    apply negb_true_iff, hasId_false in Hne. apply String.eqb_eq in E.
    now apply (Huniq y Hy Hne). }
  rewrite Hv. reflexivity.
Qed.

(** X22 (user.service.ts, changePassword / verifyPassword): on a healthy
    store with unique ids and emails, [changePassword] with the right
    current password stores the bcrypt hash of the new password on that
    user's row and on no other.  Afterwards [verifyPassword] accepts the
    new password for the user's email and, unless the old password also
    fits the new hash, refuses the old one. *)
Theorem changePassword_then_verifyPassword bcrypt (oldPassword newPassword : string)
    (r : Redis) (t : Table User.t) (u : Entity.t User.t) :
  queryFaults t = [] ->
  List.NoDup (map Entity.id (rows t)) ->
  In u (rows t) ->
  Entity.deletedAt u = None ->
  trim (toLowerCase (User.email (Entity.fields u))) = User.email (Entity.fields u) ->
  (forall y, In y (rows t) -> Entity.id y <> Entity.id u ->
     User.email (Entity.fields y) <> User.email (Entity.fields u)) ->
  compare bcrypt oldPassword (User.passwordHash (Entity.fields u)) = true ->
  compare bcrypt newPassword (hash bcrypt newPassword UserService.SALT_ROUNDS) = true ->
  let u' := withPasswordHash (hash bcrypt newPassword UserService.SALT_ROUNDS) u
              (clock t + 2) in
  exists r' t',
    UserService.changePassword bcrypt (Entity.id u) oldPassword newPassword (r, t)
      = (Ok tt, (r', t'))
    /\ (forall n, nth_error (rows t) n = Some u -> nth_error (rows t') n = Some u')
    /\ (forall n y, nth_error (rows t) n = Some y -> Entity.id y <> Entity.id u ->
          nth_error (rows t') n = Some y)
    /\ fst (verifyPassword bcrypt (User.email (Entity.fields u)) newPassword (r', t'))
       = Ok (Some u')
    /\ (compare bcrypt oldPassword (hash bcrypt newPassword UserService.SALT_ROUNDS) = false ->
        fst (verifyPassword bcrypt (User.email (Entity.fields u)) oldPassword (r', t'))
        = Ok None).
Proof.
  intros Hq Hnd Hin Hlive Hnorm Huniq Hold Hnew u'.
  set (h := hash bcrypt newPassword UserService.SALT_ROUNDS) in *.
  set (t1 := Repository.tick [] t).
  pose proof (updatePassword_eq t1 u h eq_refl Hnd Hin Hlive Hnorm Huniq) as Hup.
  change (clock t1 + 1) with (clock t + 1 + 1) in Hup.
  replace (clock t + 1 + 1) with (clock t + 2) in Hup by lia. fold u' in Hup.
  set (f := fun x : Entity.t User.t => if Repository.hasId (Entity.id u) x then u' else x) in *.
  set (t' := Repository.tick [] _) in Hup.
  destruct (invalidateUserCache_total (Entity.id u) r) as (r' & Hinv).
  exists r', t'. split.
  { unfold UserService.changePassword. rewrite try_catch_rethrow.
    unfold bind at 1. rewrite onSnd_eq, (findById_found t u Hq Hnd Hin Hlive).
    simpl fst. simpl snd. cbv iota beta zeta. rewrite Hold.
    change (negb true) with false. cbv iota.
    unfold bind. rewrite onSnd_eq. fold h. fold t1. rewrite Hup.
    simpl fst. simpl snd. cbv iota beta. rewrite onFst_eq, Hinv. reflexivity. }
  assert (Hrows : rows t' = map f (rows t)) by reflexivity.
  split; [|split].
  - intros n Hn. rewrite Hrows, nth_error_map, Hn. simpl. unfold f, Repository.hasId.
    now rewrite String.eqb_refl.
  - intros n y Hn Hne. rewrite Hrows, nth_error_map, Hn. simpl. unfold f.
    apply hasId_false in Hne. now rewrite Hne.
  - assert (Hsel : Repository.selected
                     (Some (UserRepository.byEmail (User.email (Entity.fields u)))) t'
                   = [u']).
    { unfold Repository.selected. rewrite Hrows.
      change (Repository.whereOrAll
                (Some (UserRepository.byEmail (User.email (Entity.fields u)))))
        with (UserRepository.byEmail (User.email (Entity.fields u))).
      clear Hup t' Hrows Hinv.
      induction (rows t) as [|y l IH]; [destruct Hin|].
      assert (Hrest : forall l0 : list (Entity.t User.t),
                (forall y0, In y0 l0 -> Entity.id y0 <> Entity.id u) ->
                (forall y0, In y0 l0 -> Entity.id y0 <> Entity.id u ->
                   User.email (Entity.fields y0) <> User.email (Entity.fields u)) ->
                List.filter (fun e => Repository.live e
                   && UserRepository.byEmail (User.email (Entity.fields u)) e) (map f l0)
                = []).
      { induction l0 as [|z l0 IH0]; intros Hids Hem; [reflexivity|]. simpl.
        rewrite IH0 by (intros; (apply Hids || apply Hem); try assumption; now right).
        assert (Hfz : f z = z).
        { unfold f. now rewrite (proj2 (hasId_false (Entity.id u) z))
            by (apply Hids; now left). }
        rewrite Hfz. unfold UserRepository.byEmail. rewrite Hnorm.
        destruct (String.eqb_spec (User.email (Entity.fields z))
                    (User.email (Entity.fields u))) as [E|E].
        - exfalso. apply (Hem z); [now left | apply Hids; now left | exact E].
        - now destruct (Repository.live z). }
      assert (Hfu : f u = u').
      { unfold f, Repository.hasId. now rewrite String.eqb_refl. }
      simpl in Hnd. apply List.NoDup_cons_iff in Hnd. destruct Hnd as [Hy Hnd].
      destruct Hin as [->|Hin].
      + simpl. rewrite Hfu, Hrest.
        * unfold UserRepository.byEmail. simpl. rewrite Hnorm, String.eqb_refl.
          reflexivity.
        * intros y0 Hy0 Heq. apply Hy. rewrite <- Heq. now apply in_map.
        * intros y0 Hy0. apply Huniq. now right.
      + simpl. assert (Hne : Entity.id y <> Entity.id u).
        { intros Heq. apply Hy. rewrite Heq. now apply in_map. }
        assert (Hfy : f y = y).
        { unfold f. now rewrite (proj2 (hasId_false (Entity.id u) y) Hne). }
        rewrite Hfy. unfold UserRepository.byEmail at 1. rewrite Hnorm.
        destruct (String.eqb_spec (User.email (Entity.fields y))
                    (User.email (Entity.fields u))) as [E|E].
        * exfalso. apply (Huniq y); [now left | exact Hne | exact E].
        * replace (Repository.live y && false) with false
            by (now destruct (Repository.live y)).
          apply IH; [exact Hnd | exact Hin |].
          intros y0 Hy0. apply Huniq. now right. }
    assert (Hver : forall p,
              verifyPassword bcrypt (User.email (Entity.fields u)) p (r', t')
              = (Ok (if negb (compare bcrypt p h) then None else Some u'),
                 (r', Repository.tick [] t'))).
    { intros p. unfold verifyPassword. rewrite try_catch_rethrow.
      unfold bind. rewrite onSnd_eq, (findByEmail_eq _ t' eq_refl), Hsel.
      simpl. now destruct (compare bcrypt p h). }
    split.
    + rewrite Hver, Hnew. reflexivity.
    + intros Hno. rewrite Hver, Hno. reflexivity.
Qed.

Lemma changePassword_then_verifyPassword_witness :
  exists r' t',
    UserService.changePassword Example.bcrypt "alice" "hash" "new-secret"
      (Example.redis [], Example.users) = (Ok tt, (r', t'))
    /\ fst (verifyPassword Example.bcrypt "alice@example.com" "new-secret" (r', t'))
       = Ok (Some (withPasswordHash "$2a$10$new-secret"
                     (Example.row "alice" (Example.user "alice@example.com") None) 1002))
    /\ fst (verifyPassword Example.bcrypt "alice@example.com" "hash" (r', t')) = Ok None.
Proof.
  destruct (changePassword_then_verifyPassword Example.bcrypt "hash" "new-secret"
              (Example.redis []) Example.users
              (Example.row "alice" (Example.user "alice@example.com") None))
    as (r' & t' & Hrun & _ & _ & Hnew & Hold).
  - reflexivity.
  - simpl. repeat constructor; simpl; intuition discriminate.
  - simpl. tauto.
  - reflexivity.
  - vm_compute. reflexivity.
  - intros y [<-|[<-|[]]] Hne; [now destruct Hne | vm_compute; discriminate].
  - reflexivity.
  - reflexivity.
  - exists r', t'. split; [exact Hrun|]. split; [exact Hnew|]. apply Hold. reflexivity.
Defined.

(** X23 (user.service.ts, deleteUser; task.service.ts, deleteTask): the
    two deletes treat an unknown id differently.  On a healthy store
    [deleteUser] of a non-empty id that no user has succeeds silently and
    changes no row, while [deleteTask] of an id that no live task has
    throws 'Task with id ... not found' and leaves the cache as it is. *)
Theorem delete_of_unknown_id (id : string) (r : Redis) (users : Table User.t)
    (tasks : Table Task.t) :
  id <> EmptyString ->
  queryFaults users = [] ->
  queryFaults tasks = [] ->
  (forall x, In x (rows users) -> Entity.id x <> id) ->
  (forall x, In x (rows tasks) -> Entity.deletedAt x = None -> Entity.id x <> id) ->
  (exists r' users',
     UserService.deleteUser id (r, users) = (Ok tt, (r', users'))
     /\ rows users' = rows users)
  /\ TaskService.deleteTask id (r, tasks)
     = (Throw (Error ("Task with id " +:+ id +:+ " not found")),
        (r, Repository.tick [] tasks)).
Proof.
  intros Hid Hqu Hqt Hnou Hnot. split.
  - destruct (invalidateUserCache_total id r) as (r' & Hinv).
    exists r'. eexists.
    unfold UserService.deleteUser. rewrite try_catch_rethrow.
    unfold bind. rewrite onSnd_eq, (softDelete_eq id users Hid Hqu).
    simpl fst. simpl snd. cbv iota beta. rewrite onFst_eq, Hinv.
    split; [reflexivity|]. simpl.
    clear - Hnou. induction (rows users) as [|x l IH]; [reflexivity|]. simpl.
    rewrite marked_miss by (apply Hnou; now left).
    f_equal. apply IH. intros y Hy. apply Hnou. now right.
  - unfold TaskService.deleteTask. rewrite try_catch_rethrow.
    unfold bind. rewrite onSnd_eq, (findById_eq id tasks Hqt).
    rewrite (selected_hasId_missing id tasks Hnot). reflexivity.
Qed.

Lemma delete_of_unknown_id_witness :
  (exists r' users',
     UserService.deleteUser "task-c" (Example.redis [], Example.users)
       = (Ok tt, (r', users'))
     /\ rows users' = rows Example.users)
  /\ TaskService.deleteTask "task-c" (Example.redis [], Example.tasks)
     = (Throw (Error "Task with id task-c not found"),
        (Example.redis [], Repository.tick [] Example.tasks)).
Proof.
  apply (delete_of_unknown_id "task-c" (Example.redis []) Example.users Example.tasks).
  - discriminate.
  - reflexivity.
  - reflexivity.
  - intros x [<-|[<-|[]]]; discriminate.
  - intros x [<-|[<-|[<-|[]]]] Hlive; discriminate.
Defined.

(** * Further properties of tasks *)

Lemma overdue_where_isOverdue (now : Z) (e : Entity.t Task.t) :
  TaskWhere.toWhere
    {| TaskWhere.assigneeId := None; TaskWhere.createdById := None;
       TaskWhere.dueDate := Some (LessThan now);
       TaskWhere.status :=
         Some (Equal (TaskStatus.or TaskStatus.TODO TaskStatus.IN_PROGRESS));
       TaskWhere.priority := None |} e = true
  <-> TaskEntity.isOverdue now e = true
      /\ Task.status (Entity.fields e) = TaskStatus.TODO.
Proof.
  unfold TaskWhere.toWhere, TaskEntity.isOverdue, holds. simpl.
  destruct (Task.dueDate (Entity.fields e)) as [d|];
    destruct (Task.status (Entity.fields e)); simpl;
    rewrite ?andb_true_r, ?andb_false_r; intuition congruence.
Qed.

Lemma findAll_whole {A : Type} `{EntityMetadata A} (t : Table A) (l : Z)
    (w : FindOptionsWhere A) (rels : list string) :
  queryFaults t = [] ->
  1 <= l -> Z.of_nat (length (rows t)) <= l ->
  exists r,
    BaseRepository.findAll
      (withWhere (mkOptions (Some 1) (Some l) None None None) w rels) t
      = (Ok r, Repository.tick [] t)
    /\ data r = Repository.selected (Some w) t.
Proof.
  intros Hf Hl Hlen.
  unfold withWhere. simpl.
  rewrite (findAll_eq t 1 l (Some w) None (Some rels) ltac:(lia) Hl Hf). cbv zeta.
  eexists. split; [reflexivity|]. simpl.
  apply firstn_all2.
  assert (Hle : (length (Repository.selected (Some w) t) <= length (rows t))%nat).
  { unfold Repository.selected. apply List.filter_length_le. }
  lia.
Qed.

(** X24 (task.repository.ts, findOverdue / findUnassigned; task.entity.ts,
    isOverdue / isAssigned): on a healthy store, asked for one page that
    is large enough for the whole table, [findOverdue] returns exactly the
    tasks that are not soft-deleted, that the entity's own [isOverdue]
    calls overdue at the time of the query and that are in status TODO;
    and [findUnassigned] returns exactly the tasks that are not
    soft-deleted and whose assignee is NULL, none of which [isAssigned]
    calls assigned. *)
Theorem queries_and_entity_predicates (t : Table Task.t) (l : Z) :
  queryFaults t = [] ->
  1 <= l -> Z.of_nat (length (rows t)) <= l ->
  (exists r,
     TaskRepository.findOverdue (mkOptions (Some 1) (Some l) None None None) t
       = (Ok r, Repository.tick [] t)
     /\ forall x, In x (data r) <->
          In x (rows t) /\ Entity.deletedAt x = None
          /\ TaskEntity.isOverdue (clock t) x = true
          /\ Task.status (Entity.fields x) = TaskStatus.TODO)
  /\ (exists r,
        TaskRepository.findUnassigned (mkOptions (Some 1) (Some l) None None None) t
          = (Ok r, Repository.tick [] t)
        /\ (forall x, In x (data r) <->
              In x (rows t) /\ Entity.deletedAt x = None
              /\ Task.assigneeId (Entity.fields x) = None)
        /\ (forall x, In x (data r) -> TaskEntity.isAssigned x = false)).
Proof.
  intros Hf Hl Hlen. split.
  - unfold TaskRepository.findOverdue, try_catch, bind, Repository.currentDate.
    destruct (findAll_whole t l
                (TaskWhere.toWhere
                   {| TaskWhere.assigneeId := None; TaskWhere.createdById := None;
                      TaskWhere.dueDate := Some (LessThan (clock t));
                      TaskWhere.status :=
                        Some (Equal (TaskStatus.or TaskStatus.TODO TaskStatus.IN_PROGRESS));
                      TaskWhere.priority := None |})
                ["assignee"; "createdBy"] Hf Hl Hlen) as (r & -> & Hdata).
    exists r. split; [reflexivity|]. intros x.
    rewrite Hdata, selected_In. simpl Repository.whereOrAll.
    rewrite overdue_where_isOverdue. tauto.
  - unfold TaskRepository.findUnassigned, try_catch.
    destruct (findAll_whole t l
                (TaskWhere.toWhere
                   {| TaskWhere.assigneeId := Some IsNull; TaskWhere.createdById := None;
                      TaskWhere.status := None; TaskWhere.priority := None;
                      TaskWhere.dueDate := None |})
                ["createdBy"] Hf Hl Hlen) as (r & -> & Hdata).
    exists r. split; [reflexivity|].
    assert (Hiff : forall x, In x (data r) <->
              In x (rows t) /\ Entity.deletedAt x = None
              /\ Task.assigneeId (Entity.fields x) = None).
    { intros x. rewrite Hdata, selected_In. simpl Repository.whereOrAll.
      unfold TaskWhere.toWhere, holds. simpl.
      destruct (Task.assigneeId (Entity.fields x)); simpl; intuition congruence. }
    split; [exact Hiff|].
    intros x Hx. apply Hiff in Hx. destruct Hx as (_ & _ & Hnone).
    unfold TaskEntity.isAssigned. now rewrite Hnone.
Qed.

Lemma queries_and_entity_predicates_witness :
  (exists r,
     TaskRepository.findOverdue (mkOptions (Some 1) (Some 10) None None None) Example.tasks
       = (Ok r, Repository.tick [] Example.tasks)
     /\ ~ In Example.taskB (data r))
  /\ TaskEntity.isOverdue (clock Example.tasks) Example.taskB = true.
Proof.
  destruct (queries_and_entity_predicates Example.tasks 10) as [(r & Hrun & Hiff) _].
  - reflexivity.
  - lia.
  - simpl. lia.
  - split; [|reflexivity]. exists r. split; [exact Hrun|].
    intros Hin. apply Hiff in Hin. destruct Hin as (_ & _ & _ & Hst). discriminate.
Defined.

Lemma status_where_counted (userId : string) (st : TaskStatus.t) (e : Entity.t Task.t) :
  Repository.live e
  && TaskWhere.toWhere
       {| TaskWhere.assigneeId := Some (Equal userId); TaskWhere.createdById := None;
          TaskWhere.status := Some (Equal st);
          TaskWhere.priority := None; TaskWhere.dueDate := None |} e
  = countedIn userId st e.
Proof.
  unfold Repository.live, TaskWhere.toWhere, countedIn, holds. simpl.
  destruct (Entity.deletedAt e); [reflexivity|]. simpl.
  destruct (Task.assigneeId (Entity.fields e)) as [a|]; simpl; [|reflexivity].
  now rewrite !andb_true_r.
Qed.

Lemma total_by_status (userId : string) (l : list (Entity.t Task.t)) :
  Z.of_nat (length (List.filter
    (fun e => Repository.live e
              && TaskWhere.toWhere
                   {| TaskWhere.assigneeId := Some (Equal userId);
                      TaskWhere.createdById := None; TaskWhere.status := None;
                      TaskWhere.priority := None; TaskWhere.dueDate := None |} e) l))
  = Z.of_nat (length (List.filter (countedIn userId TaskStatus.TODO) l))
    + Z.of_nat (length (List.filter (countedIn userId TaskStatus.IN_PROGRESS) l))
    + Z.of_nat (length (List.filter (countedIn userId TaskStatus.DONE) l))
    + Z.of_nat (length (List.filter (countedIn userId TaskStatus.ARCHIVED) l)).
Proof.
  induction l as [|e l IH]; [reflexivity|].
  cbn [List.filter].
  set (b := Repository.live e && TaskWhere.toWhere _ e).
  set (b1 := countedIn userId TaskStatus.TODO e).
  set (b2 := countedIn userId TaskStatus.IN_PROGRESS e).
  set (b3 := countedIn userId TaskStatus.DONE e).
  set (b4 := countedIn userId TaskStatus.ARCHIVED e).
  assert (Hcases :
    (b = false /\ b1 = false /\ b2 = false /\ b3 = false /\ b4 = false)
    \/ (b = true /\ b1 = true /\ b2 = false /\ b3 = false /\ b4 = false)
    \/ (b = true /\ b1 = false /\ b2 = true /\ b3 = false /\ b4 = false)
    \/ (b = true /\ b1 = false /\ b2 = false /\ b3 = true /\ b4 = false)
    \/ (b = true /\ b1 = false /\ b2 = false /\ b3 = false /\ b4 = true)).
  { unfold b, b1, b2, b3, b4, Repository.live, TaskWhere.toWhere, countedIn, holds.
    simpl.
    destruct (Entity.deletedAt e); [tauto|].
    destruct (Task.assigneeId (Entity.fields e)) as [a|]; simpl; [|tauto].
    destruct (String.eqb a userId); simpl; [|tauto].
    destruct (Task.status (Entity.fields e)); simpl; tauto. }
  clearbody b b1 b2 b3 b4.
  destruct Hcases as [H|[H|[H|[H|H]]]];
    destruct H as (-> & -> & -> & -> & ->); cbn [length]; lia.
Qed.

Lemma filter_length_implies {X : Type} (p q : X -> bool) (l : list X) :
  (forall x, p x = true -> q x = true) ->
  (length (List.filter p l) <= length (List.filter q l))%nat.
Proof.
  intros Himp. induction l as [|x l IH]; [reflexivity|]. simpl.
  destruct (p x) eqn:Ep.
  - rewrite (Himp x Ep). simpl. lia.
  - destruct (q x); simpl; lia.
Qed.

(** X25 (task.repository.ts, getUserTaskStats): on a healthy store the
    statistics of a user are consistent with one another.  [todo],
    [inProgress] and [done] count the user's tasks that are not
    soft-deleted, by status; [total] is their sum plus the user's archived
    tasks, which no field reports; [overdue] is never more than [todo].
    The five counts change no row. *)
Theorem getUserTaskStats_consistent (userId : string) (t : Table Task.t) :
  queryFaults t = [] ->
  exists s t',
    TaskRepository.getUserTaskStats userId t = (Ok s, t')
    /\ rows t' = rows t
    /\ TaskStats.todo s
       = Z.of_nat (length (List.filter (countedIn userId TaskStatus.TODO) (rows t)))
    /\ TaskStats.inProgress s
       = Z.of_nat (length (List.filter (countedIn userId TaskStatus.IN_PROGRESS) (rows t)))
    /\ TaskStats.done s
       = Z.of_nat (length (List.filter (countedIn userId TaskStatus.DONE) (rows t)))
    /\ TaskStats.total s
       = TaskStats.todo s + TaskStats.inProgress s + TaskStats.done s
         + Z.of_nat (length (List.filter (countedIn userId TaskStatus.ARCHIVED) (rows t)))
    /\ 0 <= TaskStats.overdue s <= TaskStats.todo s.
Proof.
  intros Hf.
  unfold TaskRepository.getUserTaskStats, try_catch.
  rewrite (bind_ok _ _ _ _ _ (count_eq _ t Hf)).
  rewrite (bind_ok _ _ _ _ _ (count_eq _ (Repository.tick [] t) eq_refl)).
  rewrite (bind_ok _ _ _ _ _ (count_eq _ (Repository.tick [] (Repository.tick [] t)) eq_refl)).
  rewrite (bind_ok _ _ _ _ _
             (count_eq _ (Repository.tick [] (Repository.tick [] (Repository.tick [] t)))
                eq_refl)).
  unfold bind, Repository.currentDate, Repository.count, Repository.statement, ret.
  simpl. eexists _, _. split; [reflexivity|]. simpl.
  unfold Repository.selected. simpl.
  assert (Hst : forall st,
            List.filter (fun e => Repository.live e
                && TaskWhere.toWhere
                     {| TaskWhere.assigneeId := Some (Equal userId);
                        TaskWhere.createdById := None;
                        TaskWhere.status := Some (Equal st);
                        TaskWhere.priority := None; TaskWhere.dueDate := None |} e) (rows t)
            = List.filter (countedIn userId st) (rows t)).
  { intros st. apply filter_ext. intros x. apply status_where_counted. }
  rewrite !Hst.
  split; [reflexivity|]. split; [reflexivity|]. split; [reflexivity|].
  split; [reflexivity|]. split; [apply total_by_status|].
  split; [lia|].
  apply inj_le, filter_length_implies. intros x Hx.
  rewrite overdue_where_counted in Hx. unfold countedOverdue in Hx. unfold countedIn.
  destruct (Entity.deletedAt x); [discriminate|].
  destruct (Task.assigneeId (Entity.fields x)) as [a|]; [|discriminate].
  destruct (Task.dueDate (Entity.fields x)) as [d|]; [|discriminate].
  destruct (Task.status (Entity.fields x)); try discriminate.
  apply andb_true_iff in Hx. destruct Hx as [Ha _]. now rewrite Ha.
Qed.

Lemma getUserTaskStats_consistent_witness :
  exists s t',
    TaskRepository.getUserTaskStats "alice" Example.tasks = (Ok s, t')
    /\ TaskStats.total s = 2
    /\ 0 <= TaskStats.overdue s <= TaskStats.todo s.
Proof.
  destruct (getUserTaskStats_consistent "alice" Example.tasks eq_refl)
    as (s & t' & Hrun & _ & Htodo & Hprog & Hdone & Htotal & Hover).
  exists s, t'. split; [exact Hrun|]. split; [|exact Hover].
  rewrite Htotal, Htodo, Hprog, Hdone. reflexivity.
Defined.

(** ** Task mutations and the cache *)

Lemma update_ok {A : Type} `{EntityMetadata A} (t : Table A) (e : Entity.t A)
    (d : Partial) :
  queryFaults t = [] ->
  List.NoDup (map Entity.id (rows t)) ->
  In e (rows t) ->
  Entity.deletedAt e = None ->
  let e' := Entity.mk (Entity.id e) (beforeSave (merge (Entity.fields e) d))
                      (Entity.createdAt e) (clock t + 1) None in
  violation (List.filter (fun x => negb (Repository.hasId (Entity.id e) x)) (rows t)) e'
    = None ->
  exists t',
    BaseRepository.update (Entity.id e) d t = (Ok e', t')
    /\ queryFaults t' = []
    /\ List.NoDup (map Entity.id (rows t'))
    /\ In e' (rows t').
Proof.
  intros Hf Hnd Hin Hlive e' Hv.
  pose proof (update_eq t e d Hf Hnd Hin Hlive) as Hup. cbv zeta in Hup.
  fold e' in Hup. rewrite Hv in Hup.
  eexists. split; [exact Hup|]. split; [reflexivity|].
  set (f := fun x : Entity.t A => if Repository.hasId (Entity.id e) x then e' else x).
  simpl rows. split.
  - rewrite List.map_map. erewrite map_ext; [exact Hnd|].
    intros x. unfold f. destruct (Repository.hasId (Entity.id e) x) eqn:E; [|reflexivity].
    apply hasId_true in E. now rewrite E.
  - apply in_map_iff. exists e. split; [|exact Hin]. unfold f, Repository.hasId.
    now rewrite String.eqb_refl.
Qed.

Lemma invalidateTaskCache_healthy (taskId : string) (r : Redis) :
  healthy r ->
  CacheService.invalidateTaskCache taskId r
  = (Ok tt, withEntries (delete (CachePrefix.TASK +:+ taskId) (entries r)) r).
Proof.
  intros Hr. unfold CacheService.invalidateTaskCache, try_catch, bind.
  now rewrite (del_healthy _ _ Hr).
Qed.

Lemma invalidateUserCache_gone (userId : string) (r : Redis) :
  healthy r ->
  literal userId = true ->
  exists r',
    CacheService.invalidateUserCache userId r = (Ok tt, r')
    /\ healthy r'
    /\ entries r' !! (CachePrefix.USER +:+ userId) = None
    /\ entries r' !! (CachePrefix.TASK_STATS +:+ userId) = None
    /\ (forall options,
          entries r' !! (CachePrefix.USER_TASKS +:+ userId +:+ ":" +:+ options) = None).
Proof.
  intros Hr Hl.
  destruct (invalidateUserCache_healthy userId r Hr) as (r' & Hrun & Hr' & Hk).
  exists r'. split; [exact Hrun|]. split; [exact Hr'|].
  split; [|split].
  - rewrite Hk. rewrite String.eqb_refl.
    destruct (String.eqb _ _); [reflexivity|]. now destruct (matches _ _).
  - rewrite Hk. now rewrite String.eqb_refl.
  - intros options. rewrite Hk.
    destruct (String.eqb _ _); [reflexivity|].
    replace (CachePrefix.USER_TASKS +:+ userId +:+ ":*")
      with ((CachePrefix.USER_TASKS +:+ userId +:+ ":") +:+ "*")
      by (now rewrite !append_assoc).
    replace (CachePrefix.USER_TASKS +:+ userId +:+ ":" +:+ options)
      with ((CachePrefix.USER_TASKS +:+ userId +:+ ":") +:+ options)
      by (now rewrite !append_assoc).
    rewrite matches_literal_prefix; [reflexivity|].
    rewrite !literal_app, Hl. reflexivity.
Qed.

Lemma invalidateUserCache_stays_gone (userId k : string) (r : Redis) :
  entries r !! k = None ->
  entries (snd (CacheService.invalidateUserCache userId r)) !! k = None.
Proof.
  intros Hk.
  destruct (entries (snd (CacheService.invalidateUserCache userId r)) !! k) as [v|] eqn:E;
    [|reflexivity].
  apply (cacheWrites_invalidateUserCache noKey userId r k v) in E; [congruence|].
  intros [].
Qed.

(** X26 (task.service.ts, updateTask): on a healthy cache and store,
    [updateTask] that moves a task from its assignee to another user
    invalidates the cached entries of both: afterwards the cache holds
    neither the task, nor the entry, the statistics or any task list of
    the previous or the new assignee, and it holds nothing it did not hold
    before.  The ids contain no pattern character. *)
Theorem updateTask_invalidates_both_owners (t : Table Task.t) (e : Entity.t Task.t)
    (d : Task.partial) (previous next : string) (r : Redis) :
  healthy r ->
  queryFaults t = [] ->
  List.NoDup (map Entity.id (rows t)) ->
  In e (rows t) ->
  Entity.deletedAt e = None ->
  Task.assigneeId (Entity.fields e) = Some previous ->
  Task.p_assigneeId d = Some next ->
  previous <> EmptyString -> next <> EmptyString ->
  literal previous = true -> literal next = true ->
  exists updated r' t',
    TaskService.updateTask (Entity.id e) d (r, t) = (Ok updated, (r', t'))
    /\ Task.assigneeId (Entity.fields updated) = Some next
    /\ entries r' !! (CachePrefix.TASK +:+ Entity.id e) = None
    /\ (forall u, u = previous \/ u = next ->
          entries r' !! (CachePrefix.USER +:+ u) = None
          /\ entries r' !! (CachePrefix.TASK_STATS +:+ u) = None
          /\ forall options,
               entries r' !! (CachePrefix.USER_TASKS +:+ u +:+ ":" +:+ options) = None)
    /\ entries r' ⊆ entries r.
Proof.
  intros Hr Hq Hnd Hin Hlive Hprev Hnext Hpne Hnne Hpl Hnl.
  set (t1 := Repository.tick [] t).
  destruct (@update_ok Task.t Task_metadata t1 e d eq_refl Hnd Hin Hlive eq_refl)
    as (t' & Hup & _).
  set (updated := Entity.mk _ _ _ _ _) in Hup.
  set (r1 := withEntries (delete (CachePrefix.TASK +:+ Entity.id e) (entries r)) r).
  assert (Hr1 : healthy r1) by (now apply withEntries_healthy).
  destruct (invalidateUserCache_gone previous r1 Hr1 Hpl)
    as (r2 & Hinv2 & Hr2 & Hu2 & Hs2 & Hl2).
  assert (Htask2 : entries r2 !! (CachePrefix.TASK +:+ Entity.id e) = None).
  { replace r2 with (snd (CacheService.invalidateUserCache previous r1))
      by (now rewrite Hinv2).
    apply invalidateUserCache_stays_gone. unfold r1. simpl. apply lookup_delete_eq. }
  assert (Hsub2 : entries r2 ⊆ entries r).
  { apply map_subseteq_spec. intros k v Hk.
    replace r2 with (snd (CacheService.invalidateUserCache previous r1)) in Hk
      by (now rewrite Hinv2).
    apply (cacheWrites_invalidateUserCache noKey previous r1 k v) in Hk; [|intros []].
    unfold r1 in Hk. simpl in Hk. apply lookup_delete_Some in Hk. tauto. }
  assert (Hrun : forall r3,
            (if truthy next
                && negb (bool_decide (Task.assigneeId (Entity.fields e) = Some next))
             then onFst (CacheService.invalidateUserCache next) else ret tt)
              (r2, t') = (Ok tt, (r3, t')) ->
            TaskService.updateTask (Entity.id e) d (r, t) = (Ok updated, (r3, t'))).
  { intros r3 Hlast.
    unfold TaskService.updateTask. rewrite try_catch_rethrow.
    unfold bind at 1. rewrite onSnd_eq, (findById_found t e Hq Hnd Hin Hlive).
    simpl fst. simpl snd. cbv iota beta.
    unfold bind at 1. rewrite onSnd_eq. fold t1. rewrite Hup.
    simpl fst. simpl snd. cbv iota beta.
    unfold bind at 1. rewrite onFst_eq, (invalidateTaskCache_healthy _ r Hr).
    simpl fst. simpl snd. cbv iota beta. fold r1.
    rewrite Hprev, (truthy_nonempty _ Hpne).
    unfold bind at 1. rewrite onFst_eq, Hinv2.
    simpl fst. simpl snd. cbv iota beta.
    rewrite Hnext. unfold bind. rewrite Hprev in Hlast. rewrite Hlast. reflexivity. }
  assert (Hassignee : Task.assigneeId (Entity.fields updated) = Some next).
  { unfold updated. simpl. now rewrite Hnext. }
  rewrite (truthy_nonempty _ Hnne), Hprev in Hrun. simpl andb in Hrun.
  destruct (bool_decide (Some previous = Some next)) eqn:Esame.
  - apply bool_decide_eq_true in Esame. injection Esame as <-.
    exists updated, r2, t'. split; [now apply Hrun|].
    split; [exact Hassignee|]. split; [exact Htask2|]. split; [|exact Hsub2].
    intros u [-> | ->]; auto.
  - destruct (invalidateUserCache_gone next r2 Hr2 Hnl)
      as (r3 & Hinv3 & Hr3 & Hu3 & Hs3 & Hl3).
    assert (Hgone : forall k, entries r2 !! k = None -> entries r3 !! k = None).
    { intros k Hk.
      replace r3 with (snd (CacheService.invalidateUserCache next r2))
        by (now rewrite Hinv3).
      now apply invalidateUserCache_stays_gone. }
    exists updated, r3, t'. split.
    { apply Hrun. simpl. now rewrite onFst_eq, Hinv3. }
    split; [exact Hassignee|]. split; [now apply Hgone|]. split.
    + intros u [-> | ->]; auto.
    + apply map_subseteq_spec. intros k v Hk.
      replace r3 with (snd (CacheService.invalidateUserCache next r2)) in Hk
        by (now rewrite Hinv3).
      apply (cacheWrites_invalidateUserCache noKey next r2 k v) in Hk; [|intros []].
      revert Hk. now apply map_subseteq_spec.
Qed.

Lemma updateTask_invalidates_both_owners_witness :
  exists updated r' t',
    TaskService.updateTask "task-a"
      {| Task.p_title := None; Task.p_description := None; Task.p_status := None;
         Task.p_priority := None; Task.p_dueDate := None; Task.p_assigneeId := Some "bob" |}
      (Example.redis [("task_stats:alice", "{}"); ("task_stats:bob", "{}");
                      ("user_tasks:alice:{}", "{}")], Example.tasks)
      = (Ok updated, (r', t'))
    /\ Task.assigneeId (Entity.fields updated) = Some "bob"
    /\ entries r' !! "task_stats:alice" = None
    /\ entries r' !! "task_stats:bob" = None
    /\ entries r' !! "user_tasks:alice:{}" = None.
Proof.
  destruct (updateTask_invalidates_both_owners Example.tasks Example.taskA
              {| Task.p_title := None; Task.p_description := None; Task.p_status := None;
                 Task.p_priority := None; Task.p_dueDate := None;
                 Task.p_assigneeId := Some "bob" |}
              "alice" "bob"
              (Example.redis [("task_stats:alice", "{}"); ("task_stats:bob", "{}");
                              ("user_tasks:alice:{}", "{}")]))
    as (updated & r' & t' & Hrun & Hassignee & _ & Hgone & _).
  - split; reflexivity.
  - reflexivity.
  - simpl. repeat constructor; simpl; intuition discriminate.
  - simpl. tauto.
  - reflexivity.
  - reflexivity.
  - reflexivity.
  - discriminate.
  - discriminate.
  - reflexivity.
  - reflexivity.
  - exists updated, r', t'. split; [exact Hrun|]. split; [exact Hassignee|].
    destruct (Hgone "alice" (or_introl eq_refl)) as (_ & Hsa & Hla).
    destruct (Hgone "bob" (or_intror eq_refl)) as (_ & Hsb & _).
    split; [exact Hsa|]. split; [exact Hsb|]. exact (Hla "{}").
Defined.

Lemma merge_nothing (task : Task.t) :
  Task.merge task
    {| Task.p_title := None; Task.p_description := None; Task.p_status := None;
       Task.p_priority := None; Task.p_dueDate := None; Task.p_assigneeId := None |}
  = task.
Proof. now destruct task. Qed.

(** X27 (task.repository.ts and task.service.ts, unassignTask): unassigning
    does not unassign.  The repository hands [{ assigneeId: undefined }] to
    [update], and a merge leaves a column alone when the given property is
    undefined: on a healthy store [unassignTask] of a live task succeeds and
    returns the task with its id, its creation date and all its columns,
    the assignee included, as they were.  [findById] then still returns the
    task with its assignee. *)
Theorem unassignTask_keeps_assignee (t : Table Task.t) (e : Entity.t Task.t) (r : Redis) :
  queryFaults t = [] ->
  List.NoDup (map Entity.id (rows t)) ->
  In e (rows t) ->
  Entity.deletedAt e = None ->
  (exists e1,
     fst (TaskRepository.unassignTask (Entity.id e) t) = Ok e1
     /\ Entity.id e1 = Entity.id e
     /\ Entity.fields e1 = Entity.fields e)
  /\ exists e' r' t',
      TaskService.unassignTask (Entity.id e) (r, t) = (Ok e', (r', t'))
      /\ Entity.id e' = Entity.id e
      /\ Entity.fields e' = Entity.fields e
      /\ Task.assigneeId (Entity.fields e') = Task.assigneeId (Entity.fields e)
      /\ TaskEntity.isAssigned e' = TaskEntity.isAssigned e
      /\ Entity.createdAt e' = Entity.createdAt e
      /\ Entity.deletedAt e' = None
      /\ exists found,
           fst (BaseRepository.findById (Entity.id e) t') = Ok (Some found)
           /\ Entity.fields found = Entity.fields e.
Proof.
  intros Hq Hnd Hin Hlive.
  assert (Hrepo : forall t0 : Table Task.t,
            queryFaults t0 = [] -> rows t0 = rows t ->
            exists t',
              TaskRepository.unassignTask (Entity.id e) t0
                = (Ok (Entity.mk (Entity.id e) (Entity.fields e) (Entity.createdAt e)
                                 (clock t0 + 1) None), t')
              /\ queryFaults t' = []
              /\ List.NoDup (map Entity.id (rows t'))
              /\ In (Entity.mk (Entity.id e) (Entity.fields e) (Entity.createdAt e)
                               (clock t0 + 1) None) (rows t')).
  { intros t0 Hq0 Hrows0.
    destruct (@update_ok Task.t Task_metadata t0 e
                {| Task.p_title := None; Task.p_description := None;
                   Task.p_status := None; Task.p_priority := None;
                   Task.p_dueDate := None; Task.p_assigneeId := None |}
                Hq0 ltac:(now rewrite Hrows0) ltac:(now rewrite Hrows0) Hlive eq_refl)
      as (t' & Hup & Hq' & Hnd' & Hin').
    simpl in Hup, Hin'. rewrite merge_nothing in Hup, Hin'.
    exists t'. split; [|auto].
    unfold TaskRepository.unassignTask, try_catch. now rewrite Hup. }
  split.
  { destruct (Hrepo t Hq eq_refl) as (t0 & Hun0 & _).
    eexists. rewrite Hun0. split; [reflexivity|]. split; reflexivity. }
  destruct (Hrepo (Repository.tick [] t) eq_refl eq_refl) as (t' & Hun & Hq' & Hnd' & Hin').
  set (e' := Entity.mk _ _ _ _ _) in Hun, Hin'.
  destruct (invalidateTaskCache_total (Entity.id e) r) as (r1 & Hinv1).
  assert (Hlast : exists r2,
            (match Task.assigneeId (Entity.fields e) with
             | Some a => if truthy a then onFst (CacheService.invalidateUserCache a)
                         else ret tt
             | None => ret tt
             end) (r1, t') = (Ok tt, (r2, t'))).
  { destruct (Task.assigneeId (Entity.fields e)) as [a|]; [|now exists r1].
    destruct (truthy a); [|now exists r1].
    destruct (invalidateUserCache_total a r1) as (r2 & Hinv2).
    exists r2. now rewrite onFst_eq, Hinv2. }
  destruct Hlast as (r2 & Hlast).
  exists e', r2, t'.
  split; [|split; [reflexivity|split; [reflexivity|split; [reflexivity|
           split; [reflexivity|split; [reflexivity|split; [reflexivity|]]]]]]].
  - unfold TaskService.unassignTask. rewrite try_catch_rethrow.
    unfold bind at 1. rewrite onSnd_eq, (findById_found t e Hq Hnd Hin Hlive).
    simpl fst. simpl snd. cbv iota beta.
    unfold bind at 1. rewrite onSnd_eq, Hun.
    simpl fst. simpl snd. cbv iota beta.
    unfold bind at 1. rewrite onFst_eq, Hinv1.
    simpl fst. simpl snd. cbv iota beta.
    unfold bind. now rewrite Hlast.
  - exists e'. split; [|reflexivity].
    pose proof (findById_found t' e' Hq' Hnd' Hin' eq_refl) as Hfound.
    change (Entity.id e') with (Entity.id e) in Hfound. now rewrite Hfound.
Qed.

Lemma unassignTask_keeps_assignee_witness :
  exists e' r' t',
    TaskService.unassignTask "task-a" (Example.redis [], Example.tasks)
      = (Ok e', (r', t'))
    /\ Entity.fields e' = Entity.fields Example.taskA
    /\ Task.assigneeId (Entity.fields e') = Some "alice"
    /\ exists found,
         fst (BaseRepository.findById "task-a" t') = Ok (Some found)
         /\ Task.assigneeId (Entity.fields found) = Some "alice".
Proof.
  destruct (unassignTask_keeps_assignee Example.tasks Example.taskA (Example.redis []))
    as (_ & e' & r' & t' & Hrun & _ & Hfields & Hassignee & _ & _ & _ & found & Hfind & Hf).
  - reflexivity.
  - simpl. repeat constructor; simpl; intuition discriminate.
  - simpl. tauto.
  - reflexivity.
  - exists e', r', t'. split; [exact Hrun|]. split; [exact Hfields|].
    split; [exact Hassignee|]. exists found. split; [exact Hfind|]. now rewrite Hf.
Defined.

(** * Connecting to the backends *)

(** X28 (redis.config.ts, retryStrategy): the client is told to reconnect
    after the first three failures and to give up at the fourth.  The cap
    of 3000 ms is never what limits the delay: for the attempts that are
    retried the delay is [times] seconds, 1 s, 2 s and 3 s for the
    attempts 1 to 3, six seconds in all. *)
Theorem retryStrategy_delays (times : Z) :
  (retryStrategy times = None <-> 3 < times)
  /\ (forall delay, retryStrategy times = Some delay ->
        times <= 3 /\ delay = times * 1000 /\ delay <= 3000)
  /\ map retryStrategy [1; 2; 3; 4] = [Some 1000; Some 2000; Some 3000; None].
Proof.
  unfold retryStrategy. cbv zeta. split; [|split; [|reflexivity]].
  - destruct (3 <? times) eqn:E.
    + apply Z.ltb_lt in E. tauto.
    + apply Z.ltb_ge in E. split; [discriminate|lia].
  - intros delay. destruct (3 <? times) eqn:E; [discriminate|].
    apply Z.ltb_ge in E. intros [= <-]. lia.
Qed.

Lemma backoff_step (n : Z) (k : nat) (r : nat) :
  map (fun j => 2 ^ Z.of_nat j * 1000)
      (List.filter (fun j => Z.of_nat j <? n) (seq (S r) (S k)))
  = ((if Z.of_nat (S r) <? n then [2 ^ Z.of_nat (S r) * 1000] else [])
     ++ map (fun j => 2 ^ Z.of_nat j * 1000)
            (List.filter (fun j => Z.of_nat j <? n) (seq (S (S r)) k)))%list.
Proof.
  cbn [seq List.filter]. now destruct (Z.of_nat (S r) <? n).
Qed.

Lemma last_cons {X : Type} (l : list X) (x d : X) :
  List.last (x :: l) d = List.last l x.
Proof.
  revert x d. induction l as [|y l IH]; intros x d; [reflexivity|].
  change (List.last (x :: y :: l) d) with (List.last (y :: l) d).
  now rewrite !IH.
Qed.

Lemma connectLoop_failures (n : Z) (errs : list JsError) :
  forall (fuel r : nat) (last : option JsError) (rest : list (option JsError))
         (ws : list Z),
    Z.of_nat r + Z.of_nat (length errs) <= n ->
    connectLoop (length errs + fuel) n (Z.of_nat r) last
      {| isInitialized := false; connectOutcomes := (map Some errs ++ rest)%list;
         timers := ws |}
    = connectLoop fuel n (Z.of_nat r + Z.of_nat (length errs))
        (match errs with [] => last | e :: l => Some (List.last l e) end)
        {| isInitialized := false; connectOutcomes := rest;
           timers := (ws ++ map (fun j => 2 ^ Z.of_nat j * 1000)
                              (List.filter (fun j => Z.of_nat j <? n)
                                 (seq (S r) (length errs))))%list |}.
Proof.
  induction errs as [|e errs IH]; intros fuel r last rest ws Hle.
  - simpl. rewrite Z.add_0_r, app_nil_r. reflexivity.
  - cbn [length Nat.add connectLoop].
    assert (Hlt : (Z.of_nat r <? n) = true) by (apply Z.ltb_lt; simpl length in Hle; lia).
    rewrite Hlt. unfold try_catch at 1. cbn [isInitialized negb].
    unfold initialize at 1. cbn [connectOutcomes map app timers].
    cbv zeta. unfold bind at 1.
    replace (Z.of_nat r + 1) with (Z.of_nat (S r)) by lia.
    rewrite backoff_step.
    destruct (Z.of_nat (S r) <? n) eqn:Ew.
    + unfold setTimeout at 1. cbn [isInitialized connectOutcomes timers].
      rewrite (IH fuel (S r) (Some e) rest (ws ++ [2 ^ Z.of_nat (S r) * 1000])%list)
        by (simpl length in Hle; lia).
      replace (Z.of_nat (S r) + Z.of_nat (length errs))
        with (Z.of_nat r + Z.of_nat (length (e :: errs))) by (simpl length; lia).
      rewrite <- app_assoc. f_equal.
      destruct errs as [|e0 l]; [reflexivity|]. now rewrite last_cons.
    + unfold ret at 1.
      rewrite (IH fuel (S r) (Some e) rest ws) by (simpl length in Hle; lia).
      replace (Z.of_nat (S r) + Z.of_nat (length errs))
        with (Z.of_nat r + Z.of_nat (length (e :: errs))) by (simpl length; lia).
      f_equal. destruct errs as [|e0 l]; [reflexivity|]. now rewrite last_cons.
Qed.

Lemma backoff_all (n : Z) (k : nat) :
  Z.of_nat k < n -> backoff n k = map (fun j => 2 ^ Z.of_nat j * 1000) (seq 1 k).
Proof.
  intros Hk. unfold backoff. f_equal.
  apply forallb_filter_id. apply forallb_forall. intros j Hj.
  apply in_seq in Hj. apply Z.ltb_lt. lia.
Qed.

Lemma backoff_last (n : Z) (k : nat) :
  n = Z.of_nat k + 1 ->
  backoff n (S k) = map (fun j => 2 ^ Z.of_nat j * 1000) (seq 1 k).
Proof.
  intros ->. unfold backoff. f_equal. rewrite seq_S, List.filter_app.
  cbn [List.filter].
  assert (E : (Z.of_nat (1 + k) <? Z.of_nat k + 1) = false) by (apply Z.ltb_ge; lia).
  rewrite E, app_nil_r.
  apply forallb_filter_id. apply forallb_forall. intros j Hj.
  apply in_seq in Hj. apply Z.ltb_lt. lia.
Qed.

(** X29 (data-source.ts, initializeDatabase): the retry loop.  Starting
    from a data source that is not initialized, with [maxRetries] at least
    1: when the first [k < maxRetries] attempts fail and the next one
    succeeds, the function returns with the data source initialized after
    waits of 2, 4, ... 2^k seconds; when [maxRetries] attempts fail it
    throws 'Database connection failed after maxRetries attempts: ' and the
    message of the last failure, having waited 2, 4, ... 2^(maxRetries-1)
    seconds, and makes no further attempt: there is no wait after the last
    failure.  A data source that is initialized is returned at once, and
    with [maxRetries] of 0 or less no attempt is made and the message ends
    in 'undefined'. *)
Theorem initializeDatabase_retries (maxRetries : Z) (errs : list JsError)
    (rest : list (option JsError)) (ws : list Z) :
  let start := {| isInitialized := false;
                  connectOutcomes := (map Some errs ++ rest)%list;
                  timers := ws |} in
  (Z.of_nat (length errs) < maxRetries ->
   (match rest with Some _ :: _ => False | _ => True end) ->
   initializeDatabase (Some maxRetries) start
   = (Ok tt, {| isInitialized := true; connectOutcomes := tl rest;
                timers := (ws ++ map (fun j => 2 ^ Z.of_nat j * 1000)
                                   (seq 1 (length errs)))%list |}))
  /\ (forall last, Z.of_nat (length errs) + 1 = maxRetries ->
        initializeDatabase (Some maxRetries)
          {| isInitialized := false;
             connectOutcomes := (map Some (errs ++ [last]) ++ rest)%list;
             timers := ws |}
        = (Throw (Error ("Database connection failed after " +:+ printInt maxRetries
                         +:+ " attempts: " +:+ message last)),
           {| isInitialized := false; connectOutcomes := rest;
              timers := (ws ++ map (fun j => 2 ^ Z.of_nat j * 1000)
                                 (seq 1 (length errs)))%list |}))
  /\ (forall ds, 1 <= maxRetries -> isInitialized ds = true ->
        initializeDatabase (Some maxRetries) ds = (Ok tt, ds))
  /\ (forall ds, maxRetries <= 0 ->
        initializeDatabase (Some maxRetries) ds
        = (Throw (Error ("Database connection failed after " +:+ printInt maxRetries
                         +:+ " attempts: undefined")), ds)).
Proof.
  intros start. split; [|split; [|split]].
  - intros Hk Hrest. unfold initializeDatabase, start. simpl default.
    replace (Z.to_nat maxRetries)
      with (length errs + (Z.to_nat maxRetries - length errs))%nat by lia.
    rewrite (connectLoop_failures maxRetries errs _ 0%nat None rest ws) by (simpl; lia).
    fold (backoff maxRetries (length errs)). rewrite (backoff_all _ _ Hk).
    destruct (Z.to_nat maxRetries - length errs)%nat as [|fuel] eqn:Ef; [lia|].
    cbn [connectLoop]. simpl Z.of_nat at 1. rewrite Z.add_0_l.
    apply Z.ltb_lt in Hk. rewrite Hk.
    unfold try_catch, initialize. cbn [isInitialized negb connectOutcomes timers].
    destruct rest as [|[e|] rest']; [reflexivity | destruct Hrest | reflexivity].
  - intros last Hk. unfold initializeDatabase. simpl default.
    replace (Z.to_nat maxRetries) with (length (errs ++ [last]) + 0)%nat
      by (rewrite length_app; simpl; lia).
    pose proof (connectLoop_failures maxRetries (errs ++ [last]) 0 0%nat None rest ws)
      as Hloop.
    change (Z.of_nat 0) with 0 in Hloop.
    rewrite Hloop by (rewrite length_app; simpl; lia).
    cbn [connectLoop]. unfold connectionFailed, throw.
    assert (Hlast : match (errs ++ [last])%list with
                    | [] => None
                    | e :: l => Some (List.last l e)
                    end = Some last).
    { destruct errs as [|e errs]; [reflexivity|]. simpl. f_equal.
      clear. revert e. induction errs as [|x errs IH]; intros e; [reflexivity|].
      change ((x :: errs) ++ [last])%list with (x :: (errs ++ [last]))%list.
      rewrite last_cons. apply IH. }
    rewrite Hlast. simpl messageOf.
    replace (length (errs ++ [last])) with (S (length errs))
      by (rewrite length_app; simpl; lia).
    fold (backoff maxRetries (S (length errs))).
    rewrite (backoff_last maxRetries (length errs)) by lia. reflexivity.
  - intros ds Hn Hinit. unfold initializeDatabase. simpl default.
    destruct (Z.to_nat maxRetries) as [|fuel] eqn:Ef; [lia|].
    cbn [connectLoop].
    assert (Hlt : (0 <? maxRetries) = true) by (apply Z.ltb_lt; lia).
    rewrite Hlt. unfold try_catch. now rewrite Hinit.
  - intros ds Hn. unfold initializeDatabase. simpl default.
    replace (Z.to_nat maxRetries) with 0%nat by lia. reflexivity.
Qed.

Lemma initializeDatabase_retries_witness :
  initializeDatabase None
    {| isInitialized := false;
       connectOutcomes := [Some (Error "ECONNREFUSED"); Some (Error "ECONNREFUSED");
                           Some (Error "timeout")];
       timers := [] |}
  = (Throw (Error "Database connection failed after 3 attempts: timeout"),
     {| isInitialized := false; connectOutcomes := []; timers := [2000; 4000] |})
  /\ initializeDatabase None
       {| isInitialized := false;
          connectOutcomes := [Some (Error "ECONNREFUSED"); None];
          timers := [] |}
     = (Ok tt, {| isInitialized := true; connectOutcomes := []; timers := [2000] |}).
Proof.
  split.
  - destruct (initializeDatabase_retries 3 [Error "ECONNREFUSED"; Error "ECONNREFUSED"]
                [] []) as (_ & Hfail & _).
    apply (Hfail (Error "timeout")). reflexivity.
  - destruct (initializeDatabase_retries 3 [Error "ECONNREFUSED"] [None] [])
      as (Hok & _).
    apply Hok; [simpl; lia | exact I].
Defined.

(** * The status of a lookup at the HTTP boundary *)

Lemma getOrSet_lookup rt {S : Type} (key : string) (callback : M S JsValue)
    (ttl : option Z) (r : Redis) (s : S) :
  lookupCallback callback ->
  match CacheService.getOrSet rt key callback ttl (r, s) with
  | (Ok v, _) =>
      truthyValue v = true
      \/ (fst (CacheService.get rt key r) = Ok v /\ v <> JNull)
  | (Throw e, _) => statusCode e = None
  end.
Proof.
  intros Hcb. rewrite getOrSet_eq. cbv zeta.
  destruct (get_total rt key r) as (cached & r' & ->). simpl fst. simpl snd.
  assert (Hmiss : match (let (r0, s1) := callback s in
                         match r0 with
                         | Ok result =>
                             (Ok result, (snd (CacheService.set rt key result ttl r'), s1))
                         | Throw _ => (fst (callback s1), (r', snd (callback s1)))
                         end) with
                  | (Ok v, _) => truthyValue v = true \/ (Ok cached = Ok v /\ v <> JNull)
                  | (Throw e, _) => statusCode e = None
                  end).
  { pose proof (Hcb s) as H1. destruct (callback s) as [[v|e] s1].
    - now left.
    - pose proof (Hcb s1) as H2. destruct (callback s1) as [[v|e2] s2]; simpl.
      + now left.
      + exact H2. }
  destruct cached; simpl notNull; cbv iota;
    first [ exact Hmiss | right; split; [reflexivity|discriminate] ].
Qed.

Lemma task_lookupCallback (id : string) :
  lookupCallback
    (task <- TaskRepository.findByIdWithRelations id ;;
     match task with
     | None => throw (Error ("Task with id " +:+ id +:+ " not found"))
     | Some task => ret (Task.toValue task)
     end).
Proof.
  intros t. unfold bind, TaskRepository.findByIdWithRelations, try_catch, rethrow, throw, ret.
  destruct (Repository.findOne (Some (Repository.hasId id)) t) as [[[task|]|e] t'];
    reflexivity.
Qed.

Lemma user_lookupCallback (id : string) :
  lookupCallback
    (user <- BaseRepository.findById (A:=User.t) id ;;
     match user with
     | None => throw (Error ("User with id " +:+ id +:+ " not found"))
     | Some user => ret (User.toValue user)
     end).
Proof.
  intros t. unfold BaseRepository.findById, bind, try_catch, rethrow, throw, ret.
  destruct (Repository.findOne (Some (Repository.hasId id)) t) as [[[user|]|e] t'];
    reflexivity.
Qed.

(** X30 (task.controller.ts, getTaskById; user.controller.ts, getUserById;
    errorHandler.ts): the lookups never answer 404 for a record that does
    not exist.  Every request is answered with 200, 404 or 500.  The
    controller's 404 branch needs a falsy result, and the service never
    returns one from the store: it throws instead, and the error, a plain
    Error without status code, is answered with 500.  So a 404 is sent
    only when the cache holds a falsy value that is not null under the
    record's key, and a task that no live row has, on a cache miss, is
    answered with 500 and 'Task with id ... not found'. *)
Theorem lookup_status rt (id : string) (r : Redis) :
  (forall t, exists resp w',
     TaskController.getTaskById rt id (r, t) = (Ok resp, w')
     /\ (Http.status resp = 200 \/ Http.status resp = 404 \/ Http.status resp = 500)
     /\ (Http.status resp = 404 ->
         exists cached,
           fst (CacheService.get rt (CachePrefix.TASK +:+ id) r) = Ok cached
           /\ cached <> JNull /\ truthyValue cached = false))
  /\ (forall t, exists resp w',
        UserController.getUserById rt id (r, t) = (Ok resp, w')
        /\ (Http.status resp = 200 \/ Http.status resp = 404 \/ Http.status resp = 500)
        /\ (Http.status resp = 404 ->
            exists cached,
              fst (CacheService.get rt (CachePrefix.USER +:+ id) r) = Ok cached
              /\ cached <> JNull /\ truthyValue cached = false))
  /\ (forall t,
        taskMissing id t ->
        fst (CacheService.get rt (CachePrefix.TASK +:+ id) r) = Ok JNull ->
        fst (TaskController.getTaskById rt id (r, t))
        = Ok {| Http.status := 500; Http.success := false; Http.data := None;
                Http.message := None;
                Http.error := Some ("Task with id " +:+ id +:+ " not found") |}).
Proof.
  split; [|split].
  - intros t. unfold TaskController.getTaskById, try_catch, bind.
    pose proof (getOrSet_lookup rt (CachePrefix.TASK +:+ id) _ (Some CacheTTL.MEDIUM) r t
                  (task_lookupCallback id)) as Hl.
    unfold TaskService.findById. rewrite try_catch_rethrow.
    destruct (CacheService.getOrSet _ _ _ _ _) as [[v|e] w'].
    + destruct (truthyValue v) eqn:Ev; simpl.
      * eexists _, _. split; [reflexivity|]. simpl. split; [tauto|discriminate].
      * eexists _, _. split; [reflexivity|]. simpl. split; [tauto|]. intros _.
        destruct Hl as [Hl|[Hget Hnn]]; [congruence|]. now exists v.
    + eexists _, _. split; [reflexivity|]. unfold next, errorHandler. rewrite Hl.
      simpl. split; [tauto|discriminate].
  - intros t. unfold UserController.getUserById, try_catch, bind.
    pose proof (getOrSet_lookup rt (CachePrefix.USER +:+ id) _ (Some CacheTTL.LONG) r t
                  (user_lookupCallback id)) as Hl.
    unfold UserService.findById. rewrite try_catch_rethrow.
    destruct (CacheService.getOrSet _ _ _ _ _) as [[v|e] w'].
    + destruct (truthyValue v) eqn:Ev; simpl.
      * eexists _, _. split; [reflexivity|]. simpl. split; [tauto|discriminate].
      * eexists _, _. split; [reflexivity|]. simpl. split; [tauto|]. intros _.
        destruct Hl as [Hl|[Hget Hnn]]; [congruence|]. now exists v.
    + eexists _, _. split; [reflexivity|]. unfold next, errorHandler. rewrite Hl.
      simpl. split; [tauto|discriminate].
  - intros t Hmiss Hget.
    assert (Hmiss' : taskMissing id (Repository.tick [] t)).
    { destruct Hmiss as [Hf Hno]. split; [reflexivity|exact Hno]. }
    unfold TaskController.getTaskById, try_catch, bind, TaskService.findById.
    rewrite try_catch_rethrow, getOrSet_eq. cbv zeta. rewrite Hget. simpl notNull.
    cbv iota. rewrite (findById_callback_missing id t Hmiss).
    rewrite (findById_callback_missing id _ Hmiss'). reflexivity.
Qed.

(** * What the mutations leave in the cache *)

Lemma invalidatedUser_weaken (userId : string) (r r' : Redis) :
  entries r' ⊆ entries r -> invalidatedUser userId r -> invalidatedUser userId r'.
Proof.
  intros Hsub (Hu & Hs & Hl).
  split; [|split; [|intros options]]; eapply lookup_weaken_None; eauto.
Qed.

Lemma invalidateTaskCache_run {S : Type} (taskId : string) (r : Redis) (s : S) :
  healthy r ->
  exists r',
    onFst (CacheService.invalidateTaskCache taskId) (r, s) = (Ok tt, (r', s))
    /\ healthy r'
    /\ entries r' ⊆ entries r
    /\ entries r' !! (CachePrefix.TASK +:+ taskId) = None.
Proof.
  intros Hr. eexists.
  rewrite onFst_eq, (invalidateTaskCache_healthy taskId r Hr). simpl fst. simpl snd.
  split; [reflexivity|]. split; [now apply withEntries_healthy|]. split.
  - simpl. apply delete_subseteq.
  - simpl. apply lookup_delete_eq.
Qed.

Lemma invalidateUserCache_run {S : Type} (userId : string) (r : Redis) (s : S) :
  healthy r ->
  exists r',
    onFst (CacheService.invalidateUserCache userId) (r, s) = (Ok tt, (r', s))
    /\ healthy r'
    /\ entries r' ⊆ entries r
    /\ (literal userId = true -> invalidatedUser userId r').
Proof.
  intros Hr.
  destruct (invalidateUserCache_healthy userId r Hr) as (r' & Hrun & Hr' & Hk).
  exists r'. rewrite onFst_eq, Hrun. simpl fst. simpl snd.
  split; [reflexivity|]. split; [exact Hr'|]. split.
  - apply map_subseteq_spec. intros k v. rewrite Hk.
    destruct (String.eqb _ _); [discriminate|].
    destruct (matches _ _); [discriminate|].
    destruct (String.eqb _ _); [discriminate|]. tauto.
  - intros Hl.
    destruct (invalidateUserCache_gone userId r Hr Hl) as (r2 & Hrun2 & _ & Hgone).
    rewrite Hrun in Hrun2. injection Hrun2 as <-. exact Hgone.
Qed.

(** The invalidation of the assignee of a task, when it has one. *)
Lemma owner_invalidation_run {S : Type} (owner : option string) (r : Redis) (s : S) :
  healthy r ->
  exists r',
    (match owner with
     | Some a => if truthy a then onFst (CacheService.invalidateUserCache a) else ret tt
     | None => ret tt
     end) (r, s) = (Ok tt, (r', s))
    /\ healthy r'
    /\ entries r' ⊆ entries r
    /\ (forall a, owner = Some a -> a <> EmptyString -> literal a = true ->
          invalidatedUser a r').
Proof.
  intros Hr. destruct owner as [a|].
  - destruct (truthy a) eqn:Ht.
    + destruct (invalidateUserCache_run (S:=S) a r s Hr) as (r' & Hrun & Hr' & Hsub & Hgone).
      exists r'. split; [exact Hrun|]. split; [exact Hr'|]. split; [exact Hsub|].
      intros a' [= <-] _ Hl. now apply Hgone.
    + exists r. split; [reflexivity|]. split; [exact Hr|]. split; [reflexivity|].
      intros a' [= <-] Hne. rewrite (truthy_nonempty a Hne) in Ht. discriminate.
  - exists r. split; [reflexivity|]. split; [exact Hr|]. split; [reflexivity|].
    intros a' [=].
Qed.

(** The invalidation of the new assignee of a task, when the update names
    one that is not the previous one. *)
Lemma next_owner_invalidation_run {S : Type} (previous next : option string)
    (r : Redis) (s : S) :
  healthy r ->
  exists r',
    (match next with
     | Some a =>
         if truthy a && negb (bool_decide (previous = Some a))
         then onFst (CacheService.invalidateUserCache a) else ret tt
     | None => ret tt
     end) (r, s) = (Ok tt, (r', s))
    /\ healthy r'
    /\ entries r' ⊆ entries r
    /\ (forall a, next = Some a -> a <> EmptyString -> literal a = true ->
          previous <> Some a -> invalidatedUser a r').
Proof.
  intros Hr. destruct next as [a|].
  - destruct (truthy a && negb (bool_decide (previous = Some a))) eqn:Ht.
    + destruct (invalidateUserCache_run (S:=S) a r s Hr) as (r' & Hrun & Hr' & Hsub & Hgone).
      exists r'. split; [exact Hrun|]. split; [exact Hr'|]. split; [exact Hsub|].
      intros a' [= <-] _ Hl _. now apply Hgone.
    + exists r. split; [reflexivity|]. split; [exact Hr|]. split; [reflexivity|].
      intros a' [= <-] Hne _ Hother.
      rewrite (truthy_nonempty a Hne), (bool_decide_eq_false_2 _ Hother) in Ht.
      discriminate.
  - exists r. split; [reflexivity|]. split; [exact Hr|]. split; [reflexivity|].
    intros a' [=].
Qed.

Ltac reduce_in H := simpl fst in H; simpl snd in H; cbv iota beta in H.

(** A statement sent to the store, inside a service operation that
    succeeds: the statement succeeded, and the cache was not touched. *)
Ltac store_step H m x t :=
  let err := fresh "err" in
  unfold bind at 1 in H; rewrite onSnd_eq in H;
  destruct m as [[x|err] t]; reduce_in H; [|discriminate H].

Lemma updateTask_invalidates (id : string) (d : Task.partial) (r : Redis)
    (t : Table Task.t) (e x : Entity.t Task.t) (r' : Redis) (t' : Table Task.t) :
  healthy r ->
  fst (BaseRepository.findById id t) = Ok (Some e) ->
  TaskService.updateTask id d (r, t) = (Ok x, (r', t')) ->
  healthy r'
  /\ entries r' !! (CachePrefix.TASK +:+ id) = None
  /\ (forall a, Task.assigneeId (Entity.fields e) = Some a ->
        a <> EmptyString -> literal a = true -> invalidatedUser a r')
  /\ (forall a, Task.p_assigneeId d = Some a ->
        a <> EmptyString -> literal a = true -> invalidatedUser a r').
Proof.
  intros Hr Hfound Hrun.
  unfold TaskService.updateTask in Hrun. rewrite try_catch_rethrow in Hrun.
  unfold bind at 1 in Hrun. rewrite onSnd_eq in Hrun.
  destruct (BaseRepository.findById id t) as [[found|err] t1];
    simpl in Hfound; [|discriminate]. injection Hfound as ->.
  reduce_in Hrun.
  store_step Hrun (BaseRepository.update (A:=Task.t) id d t1) updated t2.
  destruct (invalidateTaskCache_run (S:=Table Task.t) id r t2 Hr)
    as (r1 & Htask & Hr1 & _ & Hgone1).
  unfold bind at 1 in Hrun. rewrite Htask in Hrun. reduce_in Hrun.
  destruct (owner_invalidation_run (S:=Table Task.t)
              (Task.assigneeId (Entity.fields e)) r1 t2 Hr1)
    as (r2 & Hown & Hr2 & Hsub2 & Hgone2).
  unfold bind at 1 in Hrun. rewrite Hown in Hrun. reduce_in Hrun.
  destruct (next_owner_invalidation_run (S:=Table Task.t)
              (Task.assigneeId (Entity.fields e)) (Task.p_assigneeId d) r2 t2 Hr2)
    as (r3 & Hnext & Hr3 & Hsub3 & Hgone3).
  unfold bind at 1 in Hrun. rewrite Hnext in Hrun. reduce_in Hrun.
  unfold ret in Hrun. injection Hrun as <- <- <-.
  split; [exact Hr3|]. split; [|split].
  - eapply lookup_weaken_None; [|exact Hsub3].
    eapply lookup_weaken_None; [exact Hgone1|exact Hsub2].
  - intros a Ha Hne Hl. apply (invalidatedUser_weaken a r2 r3 Hsub3). now apply Hgone2.
  - intros a Ha Hne Hl.
    destruct (decide (Task.assigneeId (Entity.fields e) = Some a)) as [Hsame|Hother].
    + apply (invalidatedUser_weaken a r2 r3 Hsub3). now apply Hgone2.
    + now apply Hgone3.
Qed.

Lemma updateStatus_invalidates (id : string) (st : TaskStatus.t) (r : Redis)
    (t : Table Task.t) (x : Entity.t Task.t) (r' : Redis) (t' : Table Task.t) :
  healthy r ->
  TaskService.updateStatus id st (r, t) = (Ok x, (r', t')) ->
  healthy r'
  /\ entries r' !! (CachePrefix.TASK +:+ id) = None
  /\ (forall a, Task.assigneeId (Entity.fields x) = Some a ->
        a <> EmptyString -> literal a = true -> invalidatedUser a r').
Proof.
  intros Hr Hrun.
  unfold TaskService.updateStatus in Hrun. rewrite try_catch_rethrow in Hrun.
  store_step Hrun (TaskRepository.updateStatus id st t) updated t2.
  destruct (invalidateTaskCache_run (S:=Table Task.t) id r t2 Hr)
    as (r1 & Htask & Hr1 & _ & Hgone1).
  unfold bind at 1 in Hrun. rewrite Htask in Hrun. reduce_in Hrun.
  destruct (owner_invalidation_run (S:=Table Task.t)
              (Task.assigneeId (Entity.fields updated)) r1 t2 Hr1)
    as (r2 & Hown & Hr2 & Hsub2 & Hgone2).
  unfold bind at 1 in Hrun. rewrite Hown in Hrun. reduce_in Hrun.
  unfold ret in Hrun. injection Hrun as <- <- <-.
  split; [exact Hr2|]. split.
  - eapply lookup_weaken_None; [exact Hgone1|exact Hsub2].
  - exact Hgone2.
Qed.

Lemma assignTask_invalidates (taskId userId : string) (r : Redis)
    (t : Table Task.t) (x : Entity.t Task.t) (r' : Redis) (t' : Table Task.t) :
  healthy r ->
  TaskService.assignTask taskId userId (r, t) = (Ok x, (r', t')) ->
  healthy r'
  /\ entries r' !! (CachePrefix.TASK +:+ taskId) = None
  /\ (literal userId = true -> invalidatedUser userId r').
Proof.
  intros Hr Hrun.
  unfold TaskService.assignTask in Hrun. rewrite try_catch_rethrow in Hrun.
  store_step Hrun (TaskRepository.assignTask taskId userId t) updated t2.
  destruct (invalidateTaskCache_run (S:=Table Task.t) taskId r t2 Hr)
    as (r1 & Htask & Hr1 & _ & Hgone1).
  unfold bind at 1 in Hrun. rewrite Htask in Hrun. reduce_in Hrun.
  destruct (invalidateUserCache_run (S:=Table Task.t) userId r1 t2 Hr1)
    as (r2 & Huser & Hr2 & Hsub2 & Hgone2).
  unfold bind at 1 in Hrun. rewrite Huser in Hrun. reduce_in Hrun.
  unfold ret in Hrun. injection Hrun as <- <- <-.
  split; [exact Hr2|]. split.
  - eapply lookup_weaken_None; [exact Hgone1|exact Hsub2].
  - exact Hgone2.
Qed.

Lemma unassignTask_invalidates (id : string) (r : Redis)
    (t : Table Task.t) (e x : Entity.t Task.t) (r' : Redis) (t' : Table Task.t) :
  healthy r ->
  fst (BaseRepository.findById id t) = Ok (Some e) ->
  TaskService.unassignTask id (r, t) = (Ok x, (r', t')) ->
  healthy r'
  /\ entries r' !! (CachePrefix.TASK +:+ id) = None
  /\ (forall a, Task.assigneeId (Entity.fields e) = Some a ->
        a <> EmptyString -> literal a = true -> invalidatedUser a r').
Proof.
  intros Hr Hfound Hrun.
  unfold TaskService.unassignTask in Hrun. rewrite try_catch_rethrow in Hrun.
  unfold bind at 1 in Hrun. rewrite onSnd_eq in Hrun.
  destruct (BaseRepository.findById id t) as [[found|err] t1];
    simpl in Hfound; [|discriminate]. injection Hfound as ->.
  reduce_in Hrun.
  store_step Hrun (TaskRepository.unassignTask id t1) updated t2.
  destruct (invalidateTaskCache_run (S:=Table Task.t) id r t2 Hr)
    as (r1 & Htask & Hr1 & _ & Hgone1).
  unfold bind at 1 in Hrun. rewrite Htask in Hrun. reduce_in Hrun.
  destruct (owner_invalidation_run (S:=Table Task.t)
              (Task.assigneeId (Entity.fields e)) r1 t2 Hr1)
    as (r2 & Hown & Hr2 & Hsub2 & Hgone2).
  unfold bind at 1 in Hrun. rewrite Hown in Hrun. reduce_in Hrun.
  unfold ret in Hrun. injection Hrun as <- <- <-.
  split; [exact Hr2|]. split.
  - eapply lookup_weaken_None; [exact Hgone1|exact Hsub2].
  - exact Hgone2.
Qed.

Lemma deleteTask_invalidates (id : string) (r : Redis)
    (t : Table Task.t) (e : Entity.t Task.t) (r' : Redis) (t' : Table Task.t) :
  healthy r ->
  fst (BaseRepository.findById id t) = Ok (Some e) ->
  TaskService.deleteTask id (r, t) = (Ok tt, (r', t')) ->
  healthy r'
  /\ entries r' !! (CachePrefix.TASK +:+ id) = None
  /\ (forall a, Task.assigneeId (Entity.fields e) = Some a ->
        a <> EmptyString -> literal a = true -> invalidatedUser a r').
Proof.
  intros Hr Hfound Hrun.
  unfold TaskService.deleteTask in Hrun. rewrite try_catch_rethrow in Hrun.
  unfold bind at 1 in Hrun. rewrite onSnd_eq in Hrun.
  destruct (BaseRepository.findById id t) as [[found|err] t1];
    simpl in Hfound; [|discriminate]. injection Hfound as ->.
  reduce_in Hrun.
  store_step Hrun (BaseRepository.softDelete (A:=Task.t) id t1) deleted t2.
  destruct (invalidateTaskCache_run (S:=Table Task.t) id r t2 Hr)
    as (r1 & Htask & Hr1 & _ & Hgone1).
  unfold bind at 1 in Hrun. rewrite Htask in Hrun. reduce_in Hrun.
  destruct (owner_invalidation_run (S:=Table Task.t)
              (Task.assigneeId (Entity.fields e)) r1 t2 Hr1)
    as (r2 & Hown & Hr2 & Hsub2 & Hgone2).
  rewrite Hown in Hrun. injection Hrun as <- <-.
  split; [exact Hr2|]. split.
  - eapply lookup_weaken_None; [exact Hgone1|exact Hsub2].
  - exact Hgone2.
Qed.

Lemma changePassword_invalidates (bcrypt : Bcrypt) (id old new : string) (r : Redis)
    (t : Table User.t) (r' : Redis) (t' : Table User.t) :
  healthy r ->
  UserService.changePassword bcrypt id old new (r, t) = (Ok tt, (r', t')) ->
  healthy r' /\ (literal id = true -> invalidatedUser id r').
Proof.
  intros Hr Hrun.
  unfold UserService.changePassword in Hrun. rewrite try_catch_rethrow in Hrun.
  store_step Hrun (BaseRepository.findById (A:=User.t) id t) found t1.
  destruct found as [user|]; [|discriminate Hrun].
  destruct (negb _); [discriminate Hrun|].
  store_step Hrun (UserRepository.updatePassword id
                     (hash bcrypt new UserService.SALT_ROUNDS) t1) updated t2.
  destruct (invalidateUserCache_run (S:=Table User.t) id r t2 Hr)
    as (r1 & Huser & Hr1 & _ & Hgone1).
  rewrite Huser in Hrun. injection Hrun as <- <-.
  split; [exact Hr1|exact Hgone1].
Qed.

Lemma deactivateUser_invalidates (id : string) (r : Redis)
    (t : Table User.t) (r' : Redis) (t' : Table User.t) :
  healthy r ->
  UserService.deactivateUser id (r, t) = (Ok tt, (r', t')) ->
  healthy r' /\ (literal id = true -> invalidatedUser id r').
Proof.
  intros Hr Hrun.
  unfold UserService.deactivateUser in Hrun. rewrite try_catch_rethrow in Hrun.
  store_step Hrun (UserRepository.deactivate id t) updated t2.
  destruct (invalidateUserCache_run (S:=Table User.t) id r t2 Hr)
    as (r1 & Huser & Hr1 & _ & Hgone1).
  rewrite Huser in Hrun. injection Hrun as <- <-.
  split; [exact Hr1|exact Hgone1].
Qed.

Lemma deleteUser_invalidates (id : string) (r : Redis)
    (t : Table User.t) (r' : Redis) (t' : Table User.t) :
  healthy r ->
  UserService.deleteUser id (r, t) = (Ok tt, (r', t')) ->
  healthy r' /\ (literal id = true -> invalidatedUser id r').
Proof.
  intros Hr Hrun.
  unfold UserService.deleteUser in Hrun. rewrite try_catch_rethrow in Hrun.
  store_step Hrun (BaseRepository.softDelete (A:=User.t) id t) deleted t2.
  destruct (invalidateUserCache_run (S:=Table User.t) id r t2 Hr)
    as (r1 & Huser & Hr1 & _ & Hgone1).
  rewrite Huser in Hrun. injection Hrun as <- <-.
  split; [exact Hr1|exact Hgone1].
Qed.

(** A read through the cache leaves a healthy cache healthy. *)
Lemma getOrSet_keeps_healthy rt {S : Type} (key : string) (callback : M S JsValue)
    (ttl : Z) (r : Redis) (s : S) :
  healthy r -> 0 < ttl ->
  healthy (fst (snd (CacheService.getOrSet rt key callback (Some ttl) (r, s)))).
Proof.
  intros Hr Httl. rewrite getOrSet_eq. cbv zeta.
  rewrite (get_healthy rt key r Hr). simpl fst. simpl snd.
  destruct (notNull _); [exact Hr|].
  destruct (callback s) as [[result|e] s1]; simpl; [|exact Hr].
  destruct Hr as [Hi Hf]. rewrite (set_healthy rt key result ttl r Hi Hf Httl).
  split; assumption.
Qed.

(** A miss on a healthy cache runs the producer and stores what it
    returns. *)
Lemma getOrSet_repopulates rt {S : Type} (key : string) (callback : M S JsValue)
    (ttl : Z) (r : Redis) (s s1 : S) (result : JsValue) :
  healthy r -> entries r !! key = None -> 0 < ttl ->
  callback s = (Ok result, s1) ->
  CacheService.getOrSet rt key callback (Some ttl) (r, s)
  = (Ok result,
     (withEntries
        (<[key := mkEntry (match result with JStr text => text
                           | _ => JSON_stringify rt result end) (Some ttl)]> (entries r)) r,
      s1)).
Proof.
  intros Hr Hnone Httl Hcb. rewrite getOrSet_eq. cbv zeta.
  rewrite (get_healthy rt key r Hr), Hnone. simpl fst. simpl snd.
  simpl notNull. cbv iota. rewrite Hcb.
  destruct Hr as [Hi Hf]. now rewrite (set_healthy rt key result ttl r Hi Hf Httl).
Qed.

Lemma updateUser_invalidates rt (id : string) (d : User.partial) (r : Redis)
    (t : Table User.t) (x : Entity.t User.t) (r' : Redis) (t' : Table User.t) :
  healthy r ->
  UserService.updateUser rt id d (r, t) = (Ok x, (r', t')) ->
  healthy r' /\ (literal id = true -> invalidatedUser id r').
Proof.
  intros Hr Hrun.
  assert (Htail : forall r1 t1,
            healthy r1 ->
            (updated <- onSnd (BaseRepository.update (A:=User.t) id d) ;;
             onFst (CacheService.invalidateUserCache id) ;;;
             ret updated) (r1, t1) = (Ok x, (r', t')) ->
            healthy r' /\ (literal id = true -> invalidatedUser id r')).
  { intros r1 t1 Hr1 Htail.
    store_step Htail (BaseRepository.update (A:=User.t) id d t1) updated t2.
    destruct (invalidateUserCache_run (S:=Table User.t) id r1 t2 Hr1)
      as (r2 & Huser & Hr2 & _ & Hgone2).
    unfold bind at 1 in Htail. rewrite Huser in Htail. reduce_in Htail.
    unfold ret in Htail. injection Htail as <- <- <-.
    split; [exact Hr2|exact Hgone2]. }
  unfold UserService.updateUser in Hrun. rewrite try_catch_rethrow in Hrun.
  unfold bind at 1 in Hrun.
  assert (Hr1 : healthy (fst (snd (UserService.findById rt id (r, t))))).
  { unfold UserService.findById. rewrite try_catch_rethrow.
    apply getOrSet_keeps_healthy; [exact Hr|reflexivity]. }
  destruct (UserService.findById rt id (r, t)) as [[user|err] [r1 t1]];
    simpl in Hr1; reduce_in Hrun; [|discriminate Hrun].
  destruct (negb (truthyValue user)); [discriminate Hrun|].
  destruct (User.p_email d) as [email|].
  - destruct (truthy email && negb (bool_decide (stringProp "email" user = Some email))).
    + unfold bind at 1 in Hrun.
      store_step Hrun (UserRepository.isEmailTaken email (Some id) t1) isTaken t2.
      destruct isTaken; [discriminate Hrun|].
      unfold ret at 1 in Hrun. reduce_in Hrun.
      exact (Htail r1 t2 Hr1 Hrun).
    + unfold bind at 1 in Hrun. unfold ret at 1 in Hrun. reduce_in Hrun.
      exact (Htail r1 t1 Hr1 Hrun).
  - unfold bind at 1 in Hrun. unfold ret at 1 in Hrun. reduce_in Hrun.
    exact (Htail r1 t1 Hr1 Hrun).
Qed.

Lemma createTask_stores rt (d : TaskService.CreateTaskDTO) (r : Redis)
    (t : Table Task.t) (task : Entity.t Task.t) (w' : Redis * Table Task.t) :
  healthy r ->
  TaskService.createTask rt d (r, t) = (Ok task, w') ->
  entries (fst w') !! (CachePrefix.TASK +:+ Entity.id task)
  = Some (mkEntry (JSON_stringify rt (Task.toValue task)) (Some CacheTTL.MEDIUM)).
Proof.
  intros Hr Hrun.
  unfold TaskService.createTask in Hrun. rewrite try_catch_rethrow in Hrun.
  unfold bind at 1 in Hrun. rewrite onSnd_eq in Hrun.
  destruct (BaseRepository.create _ t) as [[created|err] t1]; reduce_in Hrun;
    [|discriminate Hrun].
  unfold bind at 1 in Hrun. rewrite onFst_eq in Hrun.
  pose proof Hr as [Hi Hf].
  rewrite (set_healthy rt _ _ CacheTTL.MEDIUM r Hi Hf ltac:(reflexivity)) in Hrun.
  reduce_in Hrun.
  set (r1 := withEntries _ r) in Hrun.
  assert (Hr1 : healthy r1) by (now apply withEntries_healthy).
  destruct (owner_invalidation_run (S:=Table Task.t)
              (TaskService.assigneeId d) r1 t1 Hr1)
    as (r2 & Hown & _ & _ & _).
  assert (Hk : keeps (S:=Table Task.t) (CachePrefix.TASK +:+ Entity.id created)
                 (match TaskService.assigneeId d with
                  | Some a => if truthy a then onFst (CacheService.invalidateUserCache a)
                              else ret tt
                  | None => ret tt
                  end)).
  { destruct (TaskService.assigneeId d) as [a|]; [|apply keeps_ret].
    destruct (truthy a); [|apply keeps_ret].
    apply keeps_onFst, task_key_kept_by_invalidateUserCache. }
  specialize (Hk (r1, t1)). rewrite Hown in Hk. simpl in Hk.
  unfold bind at 1 in Hrun. rewrite Hown in Hrun. reduce_in Hrun.
  unfold ret in Hrun. injection Hrun as <- <-.
  simpl fst. rewrite Hk. subst r1. simpl. apply lookup_insert_eq.
Qed.

Lemma createUser_stores rt bcrypt (d : UserService.CreateUserDTO) (r : Redis)
    (t : Table User.t) (user : Entity.t User.t) (w' : Redis * Table User.t) :
  healthy r ->
  UserService.createUser rt bcrypt d (r, t) = (Ok user, w') ->
  entries (fst w') !! (CachePrefix.USER +:+ Entity.id user)
  = Some (mkEntry (JSON_stringify rt (User.toValue user)) (Some CacheTTL.LONG)).
Proof.
  intros Hr Hrun.
  unfold UserService.createUser in Hrun. rewrite try_catch_rethrow in Hrun.
  store_step Hrun (UserRepository.findByEmail (UserService.email d) t) existing t0.
  destruct existing as [existing|]; [discriminate Hrun|].
  cbv zeta in Hrun.
  unfold bind at 1 in Hrun. rewrite onSnd_eq in Hrun.
  destruct (BaseRepository.create _ t0) as [[created|err] t1]; reduce_in Hrun;
    [|discriminate Hrun].
  unfold bind at 1 in Hrun. rewrite onFst_eq in Hrun.
  pose proof Hr as [Hi Hf].
  rewrite (set_healthy rt _ _ CacheTTL.LONG r Hi Hf ltac:(reflexivity)) in Hrun.
  reduce_in Hrun.
  unfold ret in Hrun. injection Hrun as <- <-.
  simpl. apply lookup_insert_eq.
Qed.

(** C6, the original statement fails: three mutation paths store a value
    into the cache.  On an empty cache, [createTask] leaves the new task
    under its key and [createUser] the new user; and [updateUser], which
    reads the user through the cache first, leaves the user it read under
    "user:{id}" when the update is then refused. *)
Lemma mutations_that_write_the_cache :
  (exists task w',
     TaskService.createTask Example.runtime Example.newTask
       (Example.redis [], Example.tasks) = (Ok task, w')
     /\ Entity.id task = "generated-0"
     /\ entries (fst w') !! "task:generated-0"
        = Some (mkEntry (Example.render (Task.toValue task)) (Some 300)))
  /\ (exists user w',
       UserService.createUser Example.runtime Example.bcrypt Example.newUser
         (Example.redis [], Example.users) = (Ok user, w')
       /\ Entity.id user = "generated-0"
       /\ entries (fst w') !! "user:generated-0"
          = Some (mkEntry (Example.render (User.toValue user)) (Some 900)))
  /\ (entries (Example.redis []) !! "user:bob" = None
      /\ exists w',
          UserService.updateUser Example.runtime "bob"
            (Example.renameTo "alice@example.com") (Example.redis [], Example.users)
          = (Throw (Error "Email already in use"), w')
          /\ entries (fst w') !! "user:bob"
             = Some (mkEntry
                       (Example.render
                          (User.toValue
                             (Example.row "bob" (Example.user "bob@example.com") None)))
                       (Some 900))).
Proof.
  split; [|split].
  - eexists _, _. split; [vm_compute; reflexivity|]. split; vm_compute; reflexivity.
  - eexists _, _. split; [vm_compute; reflexivity|]. split; vm_compute; reflexivity.
  - split; [reflexivity|].
    eexists. split; [vm_compute; reflexivity|]. vm_compute. reflexivity.
Qed.

(** C6, as the code has it.

    (1) The update, status change, assignment, unassignment and delete of a
    task, and the password change, the deactivation and the delete of a
    user, store nothing: every entry the cache holds afterwards it held
    before, unchanged, on every state and whatever fails.  [updateUser]
    starts with a read through the cache, which can store the user under
    "user:{id}": at every other key it only deletes.

    (2) On a healthy cache, when the operation succeeds, the affected
    entries are gone: the entry of the task, and the entry, the statistics
    and every task list of the user concerned (an id without pattern
    characters, as a UUID is).  The user concerned is the assignee the task
    had for an update, an unassignment and a delete, and also the assignee
    the update names; the assignee of the returned task for a status
    change; the new assignee only for an assignment; and the user itself
    for the operations on a user, [updateUser] included.

    (3) A read of a key that is gone is a miss, and a read through the
    cache then runs the producer and stores what it returns.

    (4) [createTask] and [createUser] do store: when they succeed on a
    healthy cache, the created entity is in the cache under its key
    ("task:{id}" for five minutes, "user:{id}" for fifteen). *)
Theorem mutations_cache_footprint rt bcrypt :
  ((forall id d w, entries (fst (snd (TaskService.updateTask id d w))) ⊆ entries (fst w))
   /\ (forall id st w,
         entries (fst (snd (TaskService.updateStatus id st w))) ⊆ entries (fst w))
   /\ (forall id u w, entries (fst (snd (TaskService.assignTask id u w))) ⊆ entries (fst w))
   /\ (forall id w, entries (fst (snd (TaskService.unassignTask id w))) ⊆ entries (fst w))
   /\ (forall id w, entries (fst (snd (TaskService.deleteTask id w))) ⊆ entries (fst w))
   /\ (forall id old new w,
         entries (fst (snd (UserService.changePassword bcrypt id old new w)))
           ⊆ entries (fst w))
   /\ (forall id w, entries (fst (snd (UserService.deactivateUser id w))) ⊆ entries (fst w))
   /\ (forall id w, entries (fst (snd (UserService.deleteUser id w))) ⊆ entries (fst w))
   /\ (forall id d w k v,
         k <> CachePrefix.USER +:+ id ->
         entries (fst (snd (UserService.updateUser rt id d w))) !! k = Some v ->
         entries (fst w) !! k = Some v))
  /\ ((forall id d r t e x r' t',
         healthy r ->
         fst (BaseRepository.findById id t) = Ok (Some e) ->
         TaskService.updateTask id d (r, t) = (Ok x, (r', t')) ->
         healthy r'
         /\ entries r' !! (CachePrefix.TASK +:+ id) = None
         /\ (forall a, Task.assigneeId (Entity.fields e) = Some a ->
               a <> EmptyString -> literal a = true -> invalidatedUser a r')
         /\ (forall a, Task.p_assigneeId d = Some a ->
               a <> EmptyString -> literal a = true -> invalidatedUser a r'))
      /\ (forall id st r t x r' t',
            healthy r ->
            TaskService.updateStatus id st (r, t) = (Ok x, (r', t')) ->
            healthy r'
            /\ entries r' !! (CachePrefix.TASK +:+ id) = None
            /\ (forall a, Task.assigneeId (Entity.fields x) = Some a ->
                  a <> EmptyString -> literal a = true -> invalidatedUser a r'))
      /\ (forall id u r t x r' t',
            healthy r ->
            TaskService.assignTask id u (r, t) = (Ok x, (r', t')) ->
            healthy r'
            /\ entries r' !! (CachePrefix.TASK +:+ id) = None
            /\ (literal u = true -> invalidatedUser u r'))
      /\ (forall id r t e x r' t',
            healthy r ->
            fst (BaseRepository.findById id t) = Ok (Some e) ->
            TaskService.unassignTask id (r, t) = (Ok x, (r', t')) ->
            healthy r'
            /\ entries r' !! (CachePrefix.TASK +:+ id) = None
            /\ (forall a, Task.assigneeId (Entity.fields e) = Some a ->
                  a <> EmptyString -> literal a = true -> invalidatedUser a r'))
      /\ (forall id r t e r' t',
            healthy r ->
            fst (BaseRepository.findById id t) = Ok (Some e) ->
            TaskService.deleteTask id (r, t) = (Ok tt, (r', t')) ->
            healthy r'
            /\ entries r' !! (CachePrefix.TASK +:+ id) = None
            /\ (forall a, Task.assigneeId (Entity.fields e) = Some a ->
                  a <> EmptyString -> literal a = true -> invalidatedUser a r'))
      /\ (forall id old new r t r' t',
            healthy r ->
            UserService.changePassword bcrypt id old new (r, t) = (Ok tt, (r', t')) ->
            healthy r' /\ (literal id = true -> invalidatedUser id r'))
      /\ (forall id r t r' t',
            healthy r ->
            UserService.deactivateUser id (r, t) = (Ok tt, (r', t')) ->
            healthy r' /\ (literal id = true -> invalidatedUser id r'))
      /\ (forall id r t r' t',
            healthy r ->
            UserService.deleteUser id (r, t) = (Ok tt, (r', t')) ->
            healthy r' /\ (literal id = true -> invalidatedUser id r'))
      /\ (forall id d r t x r' t',
            healthy r ->
            UserService.updateUser rt id d (r, t) = (Ok x, (r', t')) ->
            healthy r' /\ (literal id = true -> invalidatedUser id r')))
  /\ ((forall key r,
         healthy r -> entries r !! key = None ->
         CacheService.get rt key r = (Ok JNull, r))
      /\ (forall (S : Type) key (callback : M S JsValue) ttl r s result s1,
            healthy r -> entries r !! key = None -> 0 < ttl ->
            callback s = (Ok result, s1) ->
            CacheService.getOrSet rt key callback (Some ttl) (r, s)
            = (Ok result,
               (withEntries
                  (<[key := mkEntry (match result with JStr text => text
                                     | _ => JSON_stringify rt result end) (Some ttl)]>
                     (entries r)) r,
                s1))))
  /\ ((forall d r t task w',
         healthy r ->
         TaskService.createTask rt d (r, t) = (Ok task, w') ->
         entries (fst w') !! (CachePrefix.TASK +:+ Entity.id task)
         = Some (mkEntry (JSON_stringify rt (Task.toValue task)) (Some CacheTTL.MEDIUM)))
      /\ (forall d r t user w',
            healthy r ->
            UserService.createUser rt bcrypt d (r, t) = (Ok user, w') ->
            entries (fst w') !! (CachePrefix.USER +:+ Entity.id user)
            = Some (mkEntry (JSON_stringify rt (User.toValue user)) (Some CacheTTL.LONG)))).
Proof.
  split; [|split; [|split]].
  - split; [intros; apply writes_noKey_subseteq, updateTask_writes|].
    split; [intros; apply writes_noKey_subseteq, updateStatus_writes|].
    split; [intros; apply writes_noKey_subseteq, assignTask_writes|].
    split; [intros; apply writes_noKey_subseteq, unassignTask_writes|].
    split; [intros; apply writes_noKey_subseteq, deleteTask_writes|].
    split; [intros; apply writes_noKey_subseteq, changePassword_writes|].
    split; [intros; apply writes_noKey_subseteq, deactivateUser_writes|].
    split; [intros; apply writes_noKey_subseteq, deleteUser_writes|].
    intros id d w k v Hk E. exact (updateUser_writes rt id d w k v Hk E).
  - split; [intros id d r t e x r' t'; apply updateTask_invalidates|].
    split; [intros id st r t x r' t'; apply updateStatus_invalidates|].
    split; [intros id u r t x r' t'; apply assignTask_invalidates|].
    split; [intros id r t e x r' t'; apply unassignTask_invalidates|].
    split; [intros id r t e r' t'; apply deleteTask_invalidates|].
    split; [intros id old new r t r' t'; apply changePassword_invalidates|].
    split; [intros id r t r' t'; apply deactivateUser_invalidates|].
    split; [intros id r t r' t'; apply deleteUser_invalidates|].
    intros id d r t x r' t'; apply updateUser_invalidates.
  - split.
    + intros key r Hr Hnone. now rewrite (get_healthy rt key r Hr), Hnone.
    + intros S key callback ttl r s result s1. apply getOrSet_repopulates.
  - split.
    + intros d r t task w'. exact (createTask_stores rt d r t task w').
    + intros d r t user w'. exact (createUser_stores rt bcrypt d r t user w').
Qed.

Lemma mutations_cache_footprint_witness :
  (exists r' t',
     TaskService.deleteTask "task-a"
       (Example.redis [("task:task-a", "{}"); ("task_stats:alice", "{}");
                       ("user_tasks:alice:{}", "{}"); ("task_stats:bob", "{}")],
        Example.tasks)
     = (Ok tt, (r', t'))
     /\ entries r' !! "task:task-a" = None
     /\ entries r' !! "task_stats:alice" = None
     /\ entries r' !! "user_tasks:alice:{}" = None
     /\ CacheService.get Example.runtime "task_stats:alice" r' = (Ok JNull, r'))
  /\ exists task w',
      TaskService.createTask Example.runtime Example.newTask
        (Example.redis [], Example.tasks) = (Ok task, w')
      /\ entries (fst w') !! (CachePrefix.TASK +:+ Entity.id task)
         = Some (mkEntry (Example.render (Task.toValue task)) (Some 300)).
Proof.
  destruct (mutations_cache_footprint Example.runtime Example.bcrypt)
    as (_ & (_ & _ & _ & _ & Hdelete & _) & (Hmiss & _) & (Hcreate & _)).
  split.
  - set (r := Example.redis [("task:task-a", "{}"); ("task_stats:alice", "{}");
                             ("user_tasks:alice:{}", "{}"); ("task_stats:bob", "{}")]).
    set (out := TaskService.deleteTask "task-a" (r, Example.tasks)).
    assert (Hrun : out = (Ok tt, (fst (snd out), snd (snd out))))
      by (vm_compute; reflexivity).
    destruct (Hdelete "task-a" r Example.tasks Example.taskA
                (fst (snd out)) (snd (snd out)))
      as (Hhealthy & Htask & Howner).
    + split; reflexivity.
    + vm_compute. reflexivity.
    + exact Hrun.
    + destruct (Howner "alice" eq_refl ltac:(discriminate) eq_refl)
        as (_ & Hstats & Hlists).
      exists (fst (snd out)), (snd (snd out)).
      split; [exact Hrun|]. split; [exact Htask|]. split; [exact Hstats|].
      split; [exact (Hlists "{}")|].
      apply Hmiss; [exact Hhealthy|exact Hstats].
  - set (out := TaskService.createTask Example.runtime Example.newTask
                  (Example.redis [], Example.tasks)).
    assert (Hrun : out = (Ok (match fst out with Ok task => task
                              | Throw _ => Example.taskA end), snd out))
      by (vm_compute; reflexivity).
    eexists _, _. split; [exact Hrun|].
    apply (Hcreate Example.newTask (Example.redis []) Example.tasks _ _
             ltac:(split; reflexivity) Hrun).
Defined.
